(** * kameleon-helpers: [create_appliance.py]

    A shallow embedding of the appliance builder and the properties of its
    pipeline.  The script is Python 2 code ([unicode], [buffer]); the
    embedding follows that code path on ASCII text, where the implicit
    conversions between byte strings and unicode strings are the identity,
    so that one type of strings serves for both.

    Effects are explicit: a computation is a function from the state of the
    host (the paths that exist, the environment variables, and the trace of
    what was done so far) to a result or a raised exception, with the new
    state.  What the host answers (which files are executable, what an
    external process returns and leaves on disk) is a record of functions,
    [platform], that every theorem quantifies over. *)

From Stdlib Require Import ZArith Ascii String List Bool Lia.
From Stdlib Require Import Numbers.DecimalString.
From stdpp Require Import base option gmap strings list.

Local Open Scope string_scope.
Local Open Scope list_scope.
Local Open Scope Z_scope.

(** ** Python strings *)

Module Py.

(** Whitespace of [str.strip()] on a Python 2 byte string. *)
Definition is_space (c : ascii) : bool :=
  let n := nat_of_ascii c in
  ((9 <=? n)%nat && (n <=? 13)%nat) || (n =? 32)%nat.

(** Whitespace of [unicode.strip()], restricted to ASCII: the file, group,
    record and unit separators count as well. *)
Definition is_uspace (c : ascii) : bool :=
  let n := nat_of_ascii c in
  ((9 <=? n)%nat && (n <=? 13)%nat) || ((28 <=? n)%nat && (n <=? 32)%nat).

Definition is_char (x c : ascii) : bool := Ascii.eqb c x.

Definition nonempty (s : string) : bool :=
  match s with EmptyString => false | String _ _ => true end.

Fixpoint lstrip (p : ascii -> bool) (s : string) : string :=
  match s with
  | EmptyString => EmptyString
  | String c s' => if p c then lstrip p s' else s
  end.

Fixpoint rstrip (p : ascii -> bool) (s : string) : string :=
  match s with
  | EmptyString => EmptyString
  | String c s' =>
      match rstrip p s' with
      | EmptyString => if p c then EmptyString else String c EmptyString
      | r => String c r
      end
  end.

(** [s.strip()] and [s.strip(chars)]: the characters satisfying [p] are
    removed at both ends. *)
Definition strip (p : ascii -> bool) (s : string) : string :=
  rstrip p (lstrip p s).

(** [s.split(sep)] for a separator of one character: every occurrence
    splits, empty pieces are kept, and the empty string gives [['']]. *)
Fixpoint split (sep : ascii) (s : string) : list string :=
  match s with
  | EmptyString => [EmptyString]
  | String c s' =>
      if Ascii.eqb c sep then EmptyString :: split sep s'
      else match split sep s' with
           | [] => [String c EmptyString]
           | w :: ws => String c w :: ws
           end
  end.

(** [sep.join(l)]. *)
Fixpoint join (sep : string) (l : list string) : string :=
  match l with
  | [] => EmptyString
  | [x] => x
  | x :: l' => x +:+ sep +:+ join sep l'
  end.

Definition lower_char (c : ascii) : ascii :=
  let n := nat_of_ascii c in
  if ((65 <=? n)%nat && (n <=? 90)%nat)%bool then ascii_of_nat (n + 32) else c.

(** [s.lower()] on ASCII text. *)
Fixpoint lower (s : string) : string :=
  match s with
  | EmptyString => EmptyString
  | String c s' => String (lower_char c) (lower s')
  end.

(** [s.startswith(pre)]. *)
Definition startswith (pre s : string) : bool := String.prefix pre s.

(** [sub in s]. *)
Fixpoint contains (sub s : string) : bool :=
  String.prefix sub s ||
  match s with
  | EmptyString => false
  | String _ s' => contains sub s'
  end.

(** [s.endswith(c)] for one character. *)
Fixpoint endswith_char (c : ascii) (s : string) : bool :=
  match s with
  | EmptyString => false
  | String a EmptyString => Ascii.eqb a c
  | String _ s' => endswith_char c s'
  end.

(** ["%d" % n]. *)
Definition str_of_Z (n : Z) : string := NilEmpty.string_of_int (Z.to_int n).

(** [l.insert(i, x)]: beyond the end the element is appended. *)
Fixpoint list_insert_at {A} (i : nat) (x : A) (l : list A) : list A :=
  match i, l with
  | O, _ => x :: l
  | S _, [] => [x]
  | S i', y :: l' => y :: list_insert_at i' x l'
  end.

End Py.

(** Characters that a Rocq string literal cannot hold directly. *)
Definition dq : string := String "034" EmptyString.
Definition nl : string := String "010" EmptyString.
Definition tab : string := String "009" EmptyString.

(** ** Exceptions, events and the state of the host *)

(** The exceptions the script raises or lets through; all of them are
    subclasses of Python's [Exception]. *)
Inductive exn : Type :=
  | Exception (msg : string)
  | ValueError (msg : string)
  | KeyError (key : string)
  | IndexError (msg : string)
  | IOError (msg : string)
  | OSError (msg : string)
  | CalledProcessError (returncode : Z) (cmd : string).

(** [unicode(exc)], what ["%s" % exc] prints. *)
Definition str_of_exn (e : exn) : string :=
  match e with
  | Exception msg | ValueError msg | IndexError msg
  | IOError msg | OSError msg => msg
  | KeyError key => "'" +:+ key +:+ "'"
  | CalledProcessError rc cmd =>
      "Command '" +:+ cmd +:+ "' returned non-zero exit status "
      +:+ Py.str_of_Z rc
  end.

(** A child process is started from an argument vector ([shell=False]) or
    from a command line given to the shell ([shell=True]). *)
Inductive command : Type :=
  | Argv (argv : list string)
  | Shell (cmdline : string).

Inductive event : Type :=
  | EvExists (path : string)
  | EvPopen (cmd : command) (stdin : option string)
  | EvMkdtemp (name : string)
  | EvRmtree (name : string)
  | EvMove (src dst : string)
  | EvRemove (path : string)
  | EvLogInfo (msg : string)
  | EvStderr (text : string).

Record host : Type := Host {
  fs : gset string;
  environ : gmap string string;
  trace : list event
}.

Definition emit (ev : event) (h : host) : host :=
  Host (fs h) (environ h) (trace h ++ [ev]).

Definition with_fs (s : gset string) (h : host) : host :=
  Host s (environ h) (trace h).

Definition with_environ (e : gmap string string) (h : host) : host :=
  Host (fs h) e (trace h).

(** What the embedding takes from the machine the script runs on. *)
Record platform : Type := Platform {
  (** [os.path.isfile(p) and os.access(p, os.X_OK)] *)
  executable : string -> bool;
  (** [os.path.abspath] *)
  abspath : string -> string;
  (** [os.getcwd()] *)
  getcwd : string;
  (** [next(tempfile._get_candidate_names())] *)
  candidate_name : string;
  (** the directory [tempfile.mkdtemp()] creates *)
  mkdtemp_name : string;
  (** a child process: from the command, its standard input, the existing
      paths and the environment, to its exit status, its standard output
      and the paths that exist when it has finished *)
  process : command -> option string -> gset string -> gmap string string ->
            Z * string * gset string
}.

(** ** The monad of host computations *)

Definition M (A : Type) : Type := host -> (exn + A) * host.

Definition ret {A} (x : A) : M A := fun h => (inr x, h).

Definition raise {A} (e : exn) : M A := fun h => (inl e, h).

Definition bind {A B} (m : M A) (k : A -> M B) : M B :=
  fun h =>
    match m h with
    | (inl e, h') => (inl e, h')
    | (inr x, h') => k x h'
    end.

Declare Scope py_scope.
Delimit Scope py_scope with py.
Notation "'let*' x ':=' c1 'in' c2" := (bind c1 (fun x => c2))
  (at level 10, x pattern, c1 at level 200, c2 at level 200,
   format "'let*'  x  ':='  c1  'in' '//' c2") : py_scope.
Local Open Scope py_scope.

(** [try: body finally: cleanup] *)
Definition try_finally {A} (body : M A) (cleanup : M unit) : M A :=
  fun h =>
    match body h with
    | (inl e, h') =>
        match cleanup h' with
        | (inl e', h'') => (inl e', h'')
        | (inr _, h'') => (inl e, h'')
        end
    | (inr x, h') =>
        match cleanup h' with
        | (inl e', h'') => (inl e', h'')
        | (inr _, h'') => (inr x, h'')
        end
    end.

(** [try: body except: raise e] *)
Definition try_except_raise {A} (body : M A) (e : exn) : M A :=
  fun h =>
    match body h with
    | (inl _, h') => (inl e, h')
    | (inr x, h') => (inr x, h')
    end.

Definition when (b : bool) (m : M unit) : M unit :=
  if b then m else ret tt.

Definition logger_info (msg : string) : M unit :=
  fun h => (inr tt, emit (EvLogInfo msg) h).

(** ** The helpers of the script *)

Section Script.

Variable P : platform.

(** [op.exists(path)] *)
Definition op_exists (path : string) : M bool :=
  fun h => (inr (bool_decide (path ∈ fs h)), emit (EvExists path) h).

(** [os.environ[key]] *)
Definition environ_get (key : string) : M string :=
  fun h =>
    match environ h !! key with
    | Some v => (inr v, h)
    | None => (inl (KeyError key), h)
    end.

(** [os.environ[key] = value] *)
Definition environ_set (key value : string) : M unit :=
  fun h => (inr tt, with_environ (<[key := value]> (environ h)) h).

(** [subprocess.Popen(cmd, ...)] followed by [proc.communicate(input)]:
    the exit status and the standard output. *)
Definition popen (cmd : command) (input : option string) : M (Z * string) :=
  fun h =>
    let '(rc, out, fs') := process P cmd input (fs h) (environ h) in
    (inr (rc, out), emit (EvPopen cmd input) (with_fs fs' h)).

(** [to_unicode]: on text the conversion keeps the characters. *)
Definition to_unicode (obj : string) : string := obj.

(** [tempfile.mkdtemp()] *)
Definition mkdtemp : M string :=
  fun h =>
    let name := mkdtemp_name P in
    (inr name, emit (EvMkdtemp name) (with_fs ({[name]} ∪ fs h) h)).

(** The path [p] is [name] or lies beneath it. *)
Definition beneath (name p : string) : bool :=
  String.eqb p name || Py.startswith (name +:+ "/") p.

(** [shutil.rmtree(name)] removes the directory with all that lies beneath
    it; a directory that is not there makes it raise. *)
Definition rmtree (name : string) : M unit :=
  fun h =>
    if bool_decide (name ∈ fs h) then
      (inr tt,
       emit (EvRmtree name)
         (with_fs (filter (fun p => beneath name p = false) (fs h)) h))
    else
      (inl (OSError ("[Errno 2] No such file or directory: '" +:+ name +:+ "'")),
       emit (EvRmtree name) h).

(** [with temporary_directory() as name: body] *)
Definition temporary_directory {A} (body : string -> M A) : M A :=
  let* name := mkdtemp in
  try_finally (body name) (rmtree name).

(** [shutil.move(src, dst)] on a destination that is not a directory. *)
Definition shutil_move (src dst : string) : M unit :=
  fun h =>
    if bool_decide (src ∈ fs h) then
      (inr tt, emit (EvMove src dst) (with_fs ({[dst]} ∪ fs h ∖ {[src]}) h))
    else
      (inl (IOError ("[Errno 2] No such file or directory: '" +:+ src +:+ "'")),
       emit (EvMove src dst) h).

(** [os.remove(path)] *)
Definition os_remove (path : string) : M unit :=
  fun h =>
    if bool_decide (path ∈ fs h) then
      (inr tt, emit (EvRemove path) (with_fs (fs h ∖ {[path]}) h))
    else
      (inl (OSError ("[Errno 2] No such file or directory: '" +:+ path +:+ "'")),
       emit (EvRemove path) h).

(** [os.path.split]: the part up to the last slash, and the rest. *)
Fixpoint split_last_slash (p : string) : string * string :=
  match p with
  | EmptyString => (EmptyString, EmptyString)
  | String c p' =>
      let '(hd, tl) := split_last_slash p' in
      if Py.nonempty hd then (String c hd, tl)
      else if Ascii.eqb c "/" then (String c EmptyString, tl)
      else (EmptyString, String c tl)
  end.

Definition os_path_split (p : string) : string * string :=
  let '(hd, tl) := split_last_slash p in
  if Py.nonempty (Py.lstrip (Py.is_char "/") hd)
  then (Py.rstrip (Py.is_char "/") hd, tl)
  else (hd, tl).

(** [os.path.join(a, b)] *)
Definition os_path_join (a b : string) : string :=
  if Py.startswith "/" b then b
  else if negb (Py.nonempty a) || Py.endswith_char "/" a then a +:+ b
  else a +:+ "/" +:+ b.

Definition is_exe (fpath : string) : bool := executable P fpath.

(** [which(command)]: the first executable of that name on [PATH]. *)
Definition which (command : string) : M string :=
  let not_found : M string :=
    raise (ValueError ("Command '" +:+ command +:+ "' not found")) in
  let '(fpath, fname) := os_path_split command in
  if Py.nonempty fpath then
    if is_exe command then ret command else not_found
  else
    let* path_var := environ_get "PATH" in
    let candidates :=
      map (fun path => os_path_join (Py.strip (Py.is_char "034") path) command)
          (Py.split ":" path_var) in
    match List.find is_exe candidates with
    | Some exe_file => ret exe_file
    | None => not_found
    end.

(** [file_type(path)]: the description the [file] tool prints after the
    first colon. *)
Definition file_type (path : string) : M string :=
  let* present := op_exists path in
  if negb present then
    raise (Exception ("cannot open '" +:+ path
                      +:+ "' (No such file or directory)"))
  else
    let* file := which "file" in
    let cmd := [file; path] in
    let* (returncode, output) := popen (Argv cmd) None in
    if negb (returncode =? 0) then
      raise (CalledProcessError returncode (Py.join " " cmd))
    else
      match Py.split ":" output with
      | _ :: x :: _ => ret (Py.strip Py.is_uspace x)
      | _ => raise (IndexError "list index out of range")
      end.

(** [qemu_convert(disk, output_fmt, output_filename)] *)
Definition qemu_convert (disk output_fmt output_filename : string) : M unit :=
  let* binary := which "qemu-img" in
  let cmd := [binary; "convert"; "-p"; "-O"; output_fmt; disk;
              output_filename] in
  let cmd :=
    if String.eqb output_fmt "qcow" || String.eqb output_fmt "qcow2"
    then Py.list_insert_at 2 "-c" cmd else cmd in
  let* (returncode, _) := popen (Argv cmd) None in
  if negb (returncode =? 0) then
    raise (CalledProcessError returncode (Py.join " " cmd))
  else ret tt.

(** The text that [run_guestfish_script] feeds to guestfish. *)
Definition guestfish_input (script : string) (mount : bool) : string :=
  if mount then "run" +:+ nl +:+ "mount /dev/sda1 /" +:+ nl +:+ script
  else "run" +:+ nl +:+ script.

(** [run_guestfish_script(disk, script, mount, piped_output)]: the captured
    output when [piped_output] is set, [None] otherwise. *)
Definition run_guestfish_script (disk script : string)
    (mount piped_output : bool) : M (option string) :=
  let* guestfish := which "guestfish" in
  let args := [guestfish; "-a"; disk] in
  let script := guestfish_input script mount in
  let* (returncode, stdout) := popen (Argv args) (Some script) in
  if negb (returncode =? 0) then
    raise (CalledProcessError returncode (Py.join " " args))
  else
    ret (if piped_output then Some stdout else None).

Definition search_paths : list string :=
  [ "/usr/share/syslinux/mbr.bin";
    "/usr/lib/bios/syslinux/mbr.bin";
    "/usr/lib/syslinux/bios/mbr.bin";
    "/usr/lib/extlinux/mbr.bin";
    "/usr/lib/syslinux/mbr.bin";
    "/usr/lib/syslinux/mbr/mbr.bin";
    "/usr/lib/EXTLINUX/mbr.bin" ].

(** The loop of [find_mbr] over the paths still to try. *)
Fixpoint find_mbr_from (paths : list string) : M string :=
  match paths with
  | [] => raise (Exception "syslinux MBR not found")
  | path :: rest =>
      let* present := op_exists path in
      if present then ret path else find_mbr_from rest
  end.

Definition find_mbr : M string := find_mbr_from search_paths.

(** [get_boot_information]: the guestfish queries. *)
Definition script_1 : string := "
blkid /dev/sda1 | grep ^UUID: | awk '{print $2}'
ls /boot/ | grep ^vmlinuz | head -n 1
ls /boot/ | grep ^init | grep -v fallback | head -n 1
ls /boot/ | grep ^init | grep fallback | head -n 1".

Definition get_boot_information_doc : string := "Looking for boot information".

(** [a, b, c = infos] and [a, b, c, d = infos] *)
Definition unpack3 (infos : list string) : M (string * string * string) :=
  match infos with
  | [a; b; c] => ret (a, b, c)
  | _ :: _ :: _ :: _ :: _ => raise (ValueError "too many values to unpack")
  | _ => raise (ValueError "need more than 2 values to unpack")
  end.

Definition unpack4 (infos : list string)
    : M (string * string * string * string) :=
  match infos with
  | [a; b; c; d] => ret (a, b, c, d)
  | _ :: _ :: _ :: _ :: _ :: _ => raise (ValueError "too many values to unpack")
  | _ => raise (ValueError "need more than 3 values to unpack")
  end.

(** The body of the [try] block of [get_boot_information], on the output
    of the queries. *)
Definition boot_information_of (output_1 : string)
    : M (string * string * string) :=
  let infos := Py.split "010" (Py.strip Py.is_space output_1) in
  if (length infos =? 4)%nat then
    let* (uuid, vmlinuz, initrd, initrd_fallback) := unpack4 infos in
    if Py.nonempty initrd then ret (uuid, vmlinuz, initrd)
    else ret (uuid, vmlinuz, initrd_fallback)
  else
    let* (uuid, vmlinuz, initrd) := unpack3 infos in
    ret (uuid, vmlinuz, initrd).

Definition invalid_boot_information : exn :=
  Exception "Invalid boot information (missing kernel ?)".

(** [get_boot_information(disk)] *)
Definition get_boot_information (disk : string)
    : M (string * string * string) :=
  let* _ := logger_info get_boot_information_doc in
  let* output_1 := run_guestfish_script disk script_1 true true in
  try_except_raise
    (match output_1 with
     | Some output_1 => boot_information_of output_1
     | None => raise (ValueError "'NoneType' object has no attribute 'strip'")
     end)
    invalid_boot_information.

(** The guestfish script of [generate_fstab]. *)
Definition fstab_script (uuid filesystem_type : string) : string :=
  "
write /etc/fstab " +:+ dq +:+ "# /etc/fstab: static file system information.\n" +:+ dq +:+ "
write-append  /etc/fstab " +:+ dq +:+ "# Generated by kameleon-helpers.\n\n" +:+ dq +:+ "
write-append /etc/fstab " +:+ dq +:+ "UUID=" +:+ uuid +:+ "\t/\t" +:+ filesystem_type +:+ "\tdefaults\t0\t1\n" +:+ dq +:+ "
".

(** [generate_fstab(disk, uuid, filesystem_type)] *)
Definition generate_fstab (disk uuid filesystem_type : string) : M unit :=
  let* _ := logger_info "Generating /etc/fstab" in
  let script := fstab_script uuid filesystem_type in
  let* _ := run_guestfish_script disk script true false in
  ret tt.

(** The guestfish script of [install_bootloader]. *)
Definition bootloader_script (mbr_path vmlinuz initrd uuid append : string)
    : string :=
  "
echo " +:+ dq +:+ "[guestfish] Upload the master boot record" +:+ dq +:+ "
upload " +:+ mbr_path +:+ " /boot/mbr.bin

echo " +:+ dq +:+ "[guestfish] Generate /boot/syslinux.cfg" +:+ dq +:+ "
write /boot/syslinux.cfg " +:+ dq +:+ "DEFAULT linux\n" +:+ dq +:+ "
write-append /boot/syslinux.cfg " +:+ dq +:+ "LABEL linux\n" +:+ dq +:+ "
write-append /boot/syslinux.cfg " +:+ dq +:+ "SAY Booting the kernel\n" +:+ dq +:+ "
write-append /boot/syslinux.cfg " +:+ dq +:+ "KERNEL /boot/" +:+ vmlinuz +:+ "\n" +:+ dq +:+ "
write-append /boot/syslinux.cfg " +:+ dq +:+ "INITRD /boot/" +:+ initrd +:+ "\n" +:+ dq +:+ "
write-append /boot/syslinux.cfg " +:+ dq +:+ "APPEND ro root=UUID=" +:+ uuid +:+ " " +:+ append +:+ "\n" +:+ dq +:+ "

echo " +:+ dq +:+ "[guestfish] Put the MBR into the boot sector" +:+ dq +:+ "
copy-file-to-device /boot/mbr.bin /dev/sda size:440

echo " +:+ dq +:+ "[guestfish] Install extlinux on the first partition" +:+ dq +:+ "
extlinux /boot

echo " +:+ dq +:+ "[guestfish] Set the first partition as bootable" +:+ dq +:+ "
part-set-bootable /dev/sda 1 true

echo " +:+ dq +:+ "[guestfish] Generate empty fstab" +:+ dq +:+ "
write /etc/fstab " +:+ dq +:+ "# UNCONFIGURED FSTAB FOR BASE SYSTEM\n" +:+ dq +:+ "
".

(** [mbr or find_mbr()]: [None] and the empty string are both false. *)
Definition mbr_or_find_mbr (mbr : option string) : M string :=
  match mbr with
  | Some path => if Py.nonempty path then ret path else find_mbr
  | None => find_mbr
  end.

(** [install_bootloader(disk, mbr, append)] *)
Definition install_bootloader (disk : string) (mbr : option string)
    (append : string) : M (string * string * string) :=
  let* mbr_path := mbr_or_find_mbr mbr in
  let mbr_path := abspath P (to_unicode mbr_path) in
  let* (uuid, vmlinuz, initrd) := get_boot_information disk in
  let* _ := logger_info ("Root partition UUID: " +:+ uuid) in
  let* _ := logger_info ("Kernel image: /boot/" +:+ vmlinuz) in
  let* _ := logger_info ("Initrd image: /boot/" +:+ initrd) in
  let script := bootloader_script mbr_path vmlinuz initrd uuid append in
  let* _ := run_guestfish_script disk script true false in
  ret (uuid, vmlinuz, initrd).

(** The first part of [create_disk]: the decompressor chosen from the
    probed type. *)
Definition decompress_cmd (input_type input_ : string) : M string :=
  if Py.contains "xz compressed data" input_type then
    let* xzcat := which "xzcat" in ret (xzcat +:+ " " +:+ input_)
  else if Py.contains "bzip2 compressed data" input_type then
    let* bzcat := which "bzcat" in ret (bzcat +:+ " " +:+ input_)
  else if Py.contains "gzip compressed data" input_type then
    let* zcat := which "zcat" in ret (zcat +:+ " " +:+ input_)
  else ret "".

Definition excludes : list string :=
  ["dev/*"; "proc/*"; "sys/*"; "tmp/*"; "run/*"; "/mnt/*"].

Definition tar_options : string :=
  Py.join " "
    ["--numeric-owner"; "--one-file-system";
     Py.join " " (map (fun s => "--exclude=" +:+ dq +:+ s +:+ dq) excludes)].

(** The command that tars a directory payload. *)
Definition directory_cmd (tar input_ : string) : string :=
  tar +:+ " -cf - " +:+ tar_options +:+ " -C " +:+ input_
  +:+ " $(cd " +:+ input_ +:+ "; ls -A)".

(** The second part: a directory replaces whatever was chosen before. *)
Definition make_tar_cmd_of (input_type input_ make_tar_cmd : string)
    : M string :=
  if Py.contains "directory" input_type then
    let* tar := which "tar" in ret (directory_cmd tar input_)
  else ret make_tar_cmd.

(** The shell command that fills the disk. *)
Definition piped_cmd (make_tar_cmd guestfish output_filename : string)
    : string :=
  make_tar_cmd +:+ " | " +:+ guestfish +:+ " -a " +:+ output_filename
  +:+ " -m /dev/sda1:/ tar-in - /".

Definition plain_cmd (guestfish output_filename input_ : string) : string :=
  guestfish +:+ " -a " +:+ output_filename +:+ " -m /dev/sda1:/ tar-in "
  +:+ input_ +:+ " /".

Definition population_cmd (make_tar_cmd input_ output_filename : string)
    : M string :=
  if Py.nonempty make_tar_cmd then
    let* guestfish := which "guestfish" in
    ret (piped_cmd make_tar_cmd guestfish output_filename)
  else
    let* guestfish := which "guestfish" in
    ret (plain_cmd guestfish output_filename input_).

(** The creation of the empty disk, inside the temporary directory. *)
Definition make_empty_disk (output_filename size filesystem : string)
    (verbose : bool) (empty_dir : string) : M unit :=
  let* virt_make_fs := which "virt-make-fs" in
  let cmd := [virt_make_fs; "--partition"; "--size"; size; "--type";
              filesystem; "--format"; "qcow2"; "--"; empty_dir;
              output_filename] in
  let cmd := if verbose then Py.list_insert_at 1 "--verbose" cmd else cmd in
  let* (returncode, _) := popen (Argv cmd) None in
  if negb (returncode =? 0) then
    raise (CalledProcessError returncode (Py.join " " cmd))
  else ret tt.

(** [create_disk(input_, output_filename, fmt, size, filesystem, verbose)] *)
Definition create_disk (input_ output_filename fmt size filesystem : string)
    (verbose : bool) : M unit :=
  let* probed := file_type input_ in
  let input_type := Py.lower probed in
  let* make_tar_cmd := decompress_cmd input_type input_ in
  let* _ := logger_info "Creating an empty disk image" in
  let* _ := temporary_directory
              (make_empty_disk output_filename size filesystem verbose) in
  let* _ := logger_info "Copying the data into the disk image" in
  let* make_tar_cmd := make_tar_cmd_of input_type input_ make_tar_cmd in
  let* cmd := population_cmd make_tar_cmd input_ output_filename in
  let* (returncode, _) := popen (Shell cmd) None in
  if negb (returncode =? 0) then raise (CalledProcessError returncode cmd)
  else ret tt.

(** The namespace that [parser.parse_args()] returns. *)
Record namespace : Type := Namespace {
  ns_input : string;
  ns_format : string;
  ns_filesystem : string;
  ns_size : string;
  ns_output : string;
  ns_extlinux_mbr : option string;
  ns_append : string;
  ns_verbose : bool
}.

Definition temp_file_of : string :=
  abspath P (to_unicode ("." +:+ to_unicode (candidate_name P))).

Definition output_filename_of (args : namespace) : string :=
  abspath P (to_unicode (ns_output args)) +:+ "."
  +:+ Py.lower (ns_format args).

(** [create_appliance(args)] *)
Definition create_appliance (args : namespace) : M unit :=
  let input_ := abspath P (to_unicode (ns_input args)) in
  let output := abspath P (to_unicode (ns_output args)) in
  let temp_filename := to_unicode (candidate_name P) in
  let temp_file := abspath P (to_unicode ("." +:+ temp_filename)) in
  let output_fmt := Py.lower (ns_format args) in
  let output_filename := output +:+ "." +:+ output_fmt in
  let* _ := environ_set "LIBGUESTFS_CACHEDIR" (getcwd P) in
  let* _ := when (ns_verbose args) (environ_set "LIBGUESTFS_DEBUG" "1") in
  let* _ := create_disk input_ temp_file (ns_format args) (ns_size args)
              (ns_filesystem args) (ns_verbose args) in
  let* _ := logger_info "Installing bootloader" in
  let* (uuid, _, _) := install_bootloader temp_file (ns_extlinux_mbr args)
                         (ns_append args) in
  let* _ := generate_fstab temp_file uuid (ns_filesystem args) in
  let* _ := logger_info ("Exporting appliance to " +:+ output_filename) in
  if String.eqb output_fmt "qcow2" then
    shutil_move temp_file output_filename
  else
    let* _ := qemu_convert temp_file output_fmt output_filename in
    let* present := op_exists temp_file in
    if present then os_remove temp_file else ret tt.

End Script.

(** ** The command line

    [argparse] is a library; it is modelled on the declarations the script
    makes, for command lines in which every option is spelled as declared,
    with its value as the next argument or after an equals sign.  An
    argument that starts with a dash and is no declared option (an
    abbreviated long option, a value glued to a short option, a negative
    number, [--]) is outside this fragment and gives [None]. *)

Module Argparse.

Inductive action : Type := Store | StoreTrue | Help.

Inductive value : Type :=
  | VNone
  | VStr (s : string)
  | VBool (b : bool).

Record argument : Type := Argument {
  option_strings : list string;
  dest : string;
  act : action;
  default : value;
  required : bool;
  choices : option (list string)
}.

Inductive outcome (A : Type) : Type :=
  | Parsed (x : A)
  | SystemExit (status : Z).
Arguments Parsed {A} x.
Arguments SystemExit {A} status.

Definition in_list (s : string) (l : list string) : bool :=
  existsb (String.eqb s) l.

Definition is_positional (a : argument) : bool :=
  match option_strings a with [] => true | _ => false end.

(** The declared option an argument string names, with the value given
    after an equals sign, if any. *)
Definition find_option (parser : list argument) (arg_string : string)
    : option (argument * option string) :=
  match List.find (fun a => in_list arg_string (option_strings a)) parser with
  | Some a => Some (a, None)
  | None =>
      match Py.split "=" arg_string with
      | name :: v :: vs =>
          match List.find (fun a => in_list name (option_strings a)) parser with
          | Some a => Some (a, Some (Py.join "=" (v :: vs)))
          | None => None
          end
      | _ => None
      end
  end.

(** An argument string that cannot be an option. *)
Definition is_plain (arg_string : string) : bool :=
  negb (Py.startswith "-" arg_string) || String.eqb arg_string "-".

(** [_check_value]: a declared set of choices restricts the value. *)
Definition check_value (a : argument) (v : string) : bool :=
  match choices a with
  | Some allowed => in_list v allowed
  | None => true
  end.

Definition store (a : argument) (v : string) (ns : gmap string value)
    : outcome (gmap string value) :=
  if check_value a v then Parsed (<[dest a := VStr v]> ns) else SystemExit 2.

(** The scan of the command line: options are stored as they come, the
    other strings are collected for the positional arguments. *)
Fixpoint scan (parser : list argument) (argv : list string)
    (ns : gmap string value) (plain : list string)
    : option (outcome (gmap string value * list string)) :=
  match argv with
  | [] => Some (Parsed (ns, plain))
  | arg_string :: rest =>
      if is_plain arg_string then scan parser rest ns (plain ++ [arg_string])
      else
        match find_option parser arg_string with
        | None => None
        | Some (a, explicit) =>
            match act a, explicit with
            | Help, None => Some (SystemExit 0)
            | Help, Some _ => Some (SystemExit 2)
            | StoreTrue, Some _ => Some (SystemExit 2)
            | StoreTrue, None =>
                scan parser rest (<[dest a := VBool true]> ns) plain
            | Store, Some v =>
                match store a v ns with
                | Parsed ns' => scan parser rest ns' plain
                | SystemExit status => Some (SystemExit status)
                end
            | Store, None =>
                match rest with
                | [] => Some (SystemExit 2)
                | v :: rest' =>
                    if is_plain v then
                      match store a v ns with
                      | Parsed ns' => scan parser rest' ns' plain
                      | SystemExit status => Some (SystemExit status)
                      end
                    else
                      match find_option parser v with
                      | Some _ => Some (SystemExit 2)
                      | None => None
                      end
                end
            end
        end
  end.

Definition defaults (parser : list argument) : gmap string value :=
  fold_right
    (fun a ns =>
       match act a with
       | Help => ns
       | _ => if is_positional a then ns else <[dest a := default a]> ns
       end)
    ∅ parser.

(** Each positional argument takes one of the collected strings, in
    order; a string left over or a positional left without one is an
    error. *)
Fixpoint fill_positionals (positionals : list argument) (plain : list string)
    (ns : gmap string value) : outcome (gmap string value) :=
  match positionals, plain with
  | [], [] => Parsed ns
  | [], _ :: _ => SystemExit 2
  | _ :: _, [] => SystemExit 2
  | a :: positionals', v :: plain' =>
      match store a v ns with
      | Parsed ns' => fill_positionals positionals' plain' ns'
      | SystemExit status => SystemExit status
      end
  end.

Definition missing_required (parser : list argument)
    (seen : gmap string value) : bool :=
  existsb
    (fun a => required a && negb (bool_decide (is_Some (seen !! dest a))))
    parser.

(** [parser.parse_args(argv)] *)
Definition parse_args (parser : list argument) (argv : list string)
    : option (outcome (gmap string value)) :=
  match scan parser argv ∅ [] with
  | None => None
  | Some (SystemExit status) => Some (SystemExit status)
  | Some (Parsed (seen, plain)) =>
      match fill_positionals (List.filter is_positional parser) plain seen with
      | SystemExit status => Some (SystemExit status)
      | Parsed seen' =>
          if missing_required parser seen' then Some (SystemExit 2)
          else Some (Parsed (seen' ∪ defaults parser))
      end
  end.

End Argparse.

Import Argparse.

Definition allowed_formats : list string :=
  ["qcow"; "qcow2"; "qed"; "vdi"; "raw"; "vmdk"].

Definition allowed_formats_help : string :=
  "Allowed values are " +:+ Py.join ", " allowed_formats.

(** The arguments the script declares, after the [-h] that
    [ArgumentParser] adds; no argument declares [choices]. *)
Definition parser : list argument :=
  [ Argument ["-h"; "--help"] "help" Help VNone false None;
    Argument [] "input" Store VNone true None;
    Argument ["-F"; "--format"] "format" Store (VStr "qcow2") false None;
    Argument ["-t"; "--filesystem"] "filesystem" Store (VStr "ext2") false None;
    Argument ["-s"; "--size"] "size" Store (VStr "10G") false None;
    Argument ["-o"; "--output"] "output" Store VNone true None;
    Argument ["--extlinux-mbr"] "extlinux_mbr" Store VNone false None;
    Argument ["--append"] "append" Store (VStr "") false None;
    Argument ["--verbose"] "verbose" StoreTrue (VBool false) false None ].

Definition attr_str (ns : gmap string value) (name : string) : string :=
  match ns !! name with Some (VStr s) => s | _ => "" end.

Definition attr_opt (ns : gmap string value) (name : string) : option string :=
  match ns !! name with Some (VStr s) => Some s | _ => None end.

Definition attr_bool (ns : gmap string value) (name : string) : bool :=
  match ns !! name with Some (VBool b) => b | _ => false end.

(** The attributes of [args] that the script reads. *)
Definition namespace_of (ns : gmap string value) : namespace :=
  Namespace (attr_str ns "input") (attr_str ns "format")
    (attr_str ns "filesystem") (attr_str ns "size") (attr_str ns "output")
    (attr_opt ns "extlinux_mbr") (attr_str ns "append")
    (attr_bool ns "verbose").

(** The main block: the exit status of the process and the final state of
    the host.  [argparse] prints its own usage or help text and exits
    before the build starts; a build that raises is reported on the
    standard error stream. *)
Definition main (P : platform) (argv : list string) (h : host)
    : option (Z * host) :=
  match parse_args parser argv with
  | None => None
  | Some (SystemExit status) => Some (status, h)
  | Some (Parsed ns) =>
      match create_appliance P (namespace_of ns) h with
      | (inr _, h') => Some (0, h')
      | (inl exc, h') =>
          Some (1, emit (EvStderr (nl +:+ "Error: " +:+ str_of_exn exc +:+ nl)) h')
      end
  end.

(** ** What guestfish does with the scripts

    guestfish is an external tool; the commands the scripts of
    [generate_fstab] use are modelled from its manual: one command per
    line, words separated by blanks, a word in double quotes read with its
    backslash escapes, [write] replacing the content of a file of the guest
    and [write-append] adding to it. *)

Module Guestfish.

Inductive lex_state : Type := Outside | InWord | InQuote | InEscape | Closed.

Definition is_blank (c : ascii) : bool :=
  Ascii.eqb c " " || Ascii.eqb c "009".

Definition escape (c : ascii) : option ascii :=
  if Ascii.eqb c "n" then Some "010"%char
  else if Ascii.eqb c "t" then Some "009"%char
  else if Ascii.eqb c "r" then Some "013"%char
  else if Ascii.eqb c "\" then Some "\"%char
  else if Ascii.eqb c "034" then Some "034"%char
  else None.

Definition snoc (s : string) (c : ascii) : string := s +:+ String c EmptyString.

Definition snoc_word (acc : list string) (w : string) : list string :=
  app acc [w].

(** The words of one line; [None] when a quote is left open, an escape is
    not one of the above, or a closing quote is not followed by a blank. *)
Fixpoint lex (s : string) (st : lex_state) (cur : string)
    (acc : list string) : option (list string) :=
  match s with
  | EmptyString =>
      match st with
      | Outside => Some acc
      | InWord | Closed => Some (snoc_word acc cur)
      | InQuote | InEscape => None
      end
  | String c s' =>
      match st with
      | Outside =>
          if is_blank c then lex s' Outside EmptyString acc
          else if Ascii.eqb c "034" then lex s' InQuote EmptyString acc
          else lex s' InWord (String c EmptyString) acc
      | InWord =>
          if is_blank c then lex s' Outside EmptyString (snoc_word acc cur)
          else lex s' InWord (snoc cur c) acc
      | InQuote =>
          if Ascii.eqb c "034" then lex s' Closed cur acc
          else if Ascii.eqb c "\" then lex s' InEscape cur acc
          else lex s' InQuote (snoc cur c) acc
      | InEscape =>
          match escape c with
          | Some c' => lex s' InQuote (snoc cur c') acc
          | None => None
          end
      | Closed =>
          if is_blank c then lex s' Outside EmptyString (snoc_word acc cur)
          else None
      end
  end.

Definition words (line : string) : option (list string) :=
  lex line Outside EmptyString [].

(** One command on the files of the mounted guest; [None] for a command
    outside the modelled ones. *)
Definition exec (line : string) (files : gmap string string)
    : option (gmap string string) :=
  match words line with
  | None => None
  | Some [] => Some files
  | Some (cmd :: args) =>
      if Py.startswith "#" cmd then Some files
      else if String.eqb cmd "run" then
        match args with [] => Some files | _ => None end
      else if String.eqb cmd "mount" then
        match args with [_; _] => Some files | _ => None end
      else if String.eqb cmd "echo" then Some files
      else if String.eqb cmd "write" then
        match args with
        | [path; content] => Some (<[path := content]> files)
        | _ => None
        end
      else if String.eqb cmd "write-append" then
        match args with
        | [path; content] =>
            let old := match files !! path with
                       | Some text => text
                       | None => EmptyString
                       end in
            Some (<[path := old +:+ content]> files)
        | _ => None
        end
      else None
  end.

Fixpoint exec_lines (lines : list string) (files : gmap string string)
    : option (gmap string string) :=
  match lines with
  | [] => Some files
  | line :: rest =>
      match exec line files with
      | Some files' => exec_lines rest files'
      | None => None
      end
  end.

(** The files of the guest after guestfish has read [input]. *)
Definition run (input : string) (files : gmap string string)
    : option (gmap string string) :=
  exec_lines (Py.split "010" input) files.

End Guestfish.

(** The filesystem table, as fstab(5) reads it: one entry per line that is
    neither blank nor a comment, its fields separated by blanks. *)
Module Fstab.

Fixpoint fields_from (s : string) (cur : string) (acc : list string)
    : list string :=
  match s with
  | EmptyString =>
      if Py.nonempty cur then Guestfish.snoc_word acc cur else acc
  | String c s' =>
      if Guestfish.is_blank c then
        fields_from s' EmptyString (if Py.nonempty cur then Guestfish.snoc_word acc cur else acc)
      else fields_from s' (Guestfish.snoc cur c) acc
  end.

Definition fields (line : string) : list string :=
  fields_from line EmptyString [].

Definition is_entry (fs : list string) : bool :=
  match fs with
  | [] => false
  | f :: _ => negb (Py.startswith "#" f)
  end.

Definition entries (content : string) : list (list string) :=
  List.filter is_entry (map fields (Py.split "010" content)).

End Fstab.

(** The content of [/etc/fstab] in the guest once guestfish has read what
    [generate_fstab] sends it. *)
Definition fstab_written (uuid filesystem_type : string)
    (files : gmap string string) : option string :=
  match Guestfish.run (guestfish_input (fstab_script uuid filesystem_type) true)
          files with
  | Some files' => files' !! "/etc/fstab"
  | None => None
  end.

(** Characters that stand for themselves inside a quoted word and inside a
    field of the table. *)
Definition plain_char (c : ascii) : bool :=
  negb (Ascii.eqb c "034" || Ascii.eqb c "\" || Ascii.eqb c "010"
        || Guestfish.is_blank c).

Fixpoint plain (s : string) : bool :=
  match s with
  | EmptyString => true
  | String c s' => plain_char c && plain s'
  end.

(** ** Vocabulary of the properties *)

(** The events a computation adds to the trace. *)
Definition new_events {A} (m : M A) (h : host) : list event :=
  drop (length (trace h)) (trace (snd (m h))).

(** [m] only adds events that satisfy [E], only raises exceptions that
    satisfy [X], and only returns values that satisfy [V]. *)
Definition okay {A} (E : event -> Prop) (X : exn -> Prop) (V : A -> Prop)
    (m : M A) : Prop :=
  forall h,
    (exists t, trace (snd (m h)) = trace h ++ t /\ Forall E t) /\
    match fst (m h) with
    | inl e => X e
    | inr v => V v
    end.

(** The last component of a path. *)
Definition basename (p : string) : string := snd (split_last_slash p).

(** The event starts the external tool of that name. *)
Definition runs_tool (tool : string) (ev : event) : bool :=
  match ev with
  | EvPopen (Argv (binary :: _)) _ => String.eqb (basename binary) tool
  | _ => false
  end.

Definition is_exists (ev : event) : bool :=
  match ev with EvExists _ => true | _ => false end.

Definition is_popen (ev : event) : bool :=
  match ev with EvPopen _ _ => true | _ => false end.

Definition is_move (ev : event) : bool :=
  match ev with EvMove _ _ => true | _ => false end.

Definition is_remove (ev : event) : bool :=
  match ev with EvRemove _ => true | _ => false end.

Definition is_stderr (ev : event) : bool :=
  match ev with EvStderr _ => true | _ => false end.

Definition is_mkdtemp (ev : event) : bool :=
  match ev with EvMkdtemp _ => true | _ => false end.

Definition mbr_not_found : exn := Exception "syslinux MBR not found".

(** ** A host to run the script on

    A build machine with the tools under [/usr/bin]: [file] prints
    [file_output], guestfish answers the boot queries with [boot_output],
    the disk formatter and the converter leave their last argument on
    disk, and every tool exits with status 0. *)
Module Demo.

Definition tool_process (file_output boot_output : string) (cmd : command)
    (input : option string) (paths : gset string) (env : gmap string string)
    : Z * string * gset string :=
  match cmd with
  | Shell _ => (0, EmptyString, paths)
  | Argv [] => (127, EmptyString, paths)
  | Argv (binary :: args) =>
      let tool := basename binary in
      if String.eqb tool "file" then (0, file_output, paths)
      else if String.eqb tool "guestfish" then
        match input with
        | Some script =>
            if Py.contains "blkid" script then (0, boot_output, paths)
            else (0, EmptyString, paths)
        | None => (0, EmptyString, paths)
        end
      else if String.eqb tool "virt-make-fs" || String.eqb tool "qemu-img" then
        (0, EmptyString, {[List.last args EmptyString]} ∪ paths)
      else (127, EmptyString, paths)
  end.

Definition machine (file_output boot_output : string) : platform :=
  {| executable := fun p => Py.startswith "/usr/bin/" p;
     abspath := fun p => if Py.startswith "/" p then p else "/work/" +:+ p;
     getcwd := "/work";
     candidate_name := "tmpq3x9ab";
     mkdtemp_name := "/tmp/tmpk2m4cd";
     process := tool_process file_output boot_output |}.

(** The same machine without the tool [missing]. *)
Definition machine_without (missing file_output boot_output : string)
    : platform :=
  {| executable := fun p => Py.startswith "/usr/bin/" p
                            && negb (String.eqb (basename p) missing);
     abspath := fun p => if Py.startswith "/" p then p else "/work/" +:+ p;
     getcwd := "/work";
     candidate_name := "tmpq3x9ab";
     mkdtemp_name := "/tmp/tmpk2m4cd";
     process := tool_process file_output boot_output |}.

(** The host before the build: the payload is there, and so is the MBR of
    the extlinux package. *)
Definition start : host :=
  {| fs := {["/work/rootfs.tar.gz"; "/usr/lib/extlinux/mbr.bin"]};
     environ := {["PATH" := "/usr/local/bin:/usr/bin"]};
     trace := [] |}.

Definition boot_lines : string :=
  "3f2a-77c1" +:+ nl +:+ "vmlinuz-5.10" +:+ nl +:+ "initrd.img-5.10" +:+ nl.

Definition gzip_output : string :=
  "/work/rootfs.tar.gz: gzip compressed data, from Unix".

(** A gzip archive that remembers the name [directory.tar]. *)
Definition gzip_was_directory : string :=
  "/work/rootfs.tar.gz: gzip compressed data, was " +:+ dq
  +:+ "directory.tar" +:+ dq +:+ ", from Unix".


Definition working_disk : string := "/work/.tmpq3x9ab".

Definition request (format : string) : namespace :=
  {| ns_input := "rootfs.tar.gz"; ns_format := format;
     ns_filesystem := "ext2"; ns_size := "2G"; ns_output := "appliance";
     ns_extlinux_mbr := None; ns_append := ""; ns_verbose := false |}.

Definition absent_request : namespace :=
  {| ns_input := "absent.tar"; ns_format := "qcow2";
     ns_filesystem := "ext2"; ns_size := "2G"; ns_output := "appliance";
     ns_extlinux_mbr := None; ns_append := ""; ns_verbose := false |}.

Definition argv : list string := ["rootfs.tar.gz"; "-o"; "appliance"].

Definition parsed : gmap string value :=
  match parse_args parser argv with
  | Some (Parsed ns) => ns
  | _ => ∅
  end.

End Demo.

(** The kind of an event: what was done, and for a child process started
    from an argument vector, the tool that was started. *)
Inductive kind : Type :=
  | KExists | KTool (tool : string) | KNoTool | KShell | KMkdtemp | KRmtree
  | KMove | KRemove | KLog | KStderr.

Definition kind_of (ev : event) : kind :=
  match ev with
  | EvExists _ => KExists
  | EvPopen (Argv (binary :: _)) _ => KTool (basename binary)
  | EvPopen (Argv []) _ => KNoTool
  | EvPopen (Shell _) _ => KShell
  | EvMkdtemp _ => KMkdtemp
  | EvRmtree _ => KRmtree
  | EvMove _ _ => KMove
  | EvRemove _ => KRemove
  | EvLogInfo _ => KLog
  | EvStderr _ => KStderr
  end.

(** The event is of one of the kinds [ks]. *)
Definition of_kinds (ks : list kind) (ev : event) : Prop := In (kind_of ev) ks.

(** The kinds of events of [create_disk], of all the stages of
    [create_appliance] before the export, and of the whole build. *)
Definition disk_kinds : list kind :=
  [KExists; KTool "file"; KLog; KMkdtemp; KTool "virt-make-fs"; KRmtree;
   KShell].

Definition before_population_kinds : list kind :=
  [KExists; KTool "file"; KLog; KMkdtemp; KTool "virt-make-fs"; KRmtree].

Definition stage_kinds : list kind :=
  [KExists; KTool "file"; KLog; KMkdtemp; KTool "virt-make-fs"; KRmtree;
   KShell; KTool "guestfish"].

(** The kinds of events of the stages between [create_disk] and the
    export. *)
Definition boot_kinds : list kind := [KExists; KLog; KTool "guestfish"].

Definition build_kinds : list kind :=
  [KExists; KTool "file"; KLog; KMkdtemp; KTool "virt-make-fs"; KRmtree;
   KShell; KTool "guestfish"; KTool "qemu-img"; KMove; KRemove].

Definition any_exn (e : exn) : Prop := True.
Definition any_value {A} (x : A) : Prop := True.
Definition not_mbr_not_found (e : exn) : Prop := e <> mbr_not_found.

(** When [m] raises, it has only added events that satisfy [E]. *)
Definition fails_within {A} (E : event -> Prop) (m : M A) : Prop :=
  forall h e h',
    m h = (inl e, h') -> exists t, trace h' = trace h ++ t /\ Forall E t.

(** [m] leaves the environment variables as they are. *)
Definition keeps_environ {A} (m : M A) : Prop :=
  forall h, environ (snd (m h)) = environ h.

(** The kinds of events of a build that does not remove anything. *)
Definition no_removal_kinds : list kind :=
  [KExists; KTool "file"; KLog; KMkdtemp; KTool "virt-make-fs"; KRmtree;
   KShell; KTool "guestfish"; KTool "qemu-img"; KMove].

(** The kinds of events of a build outside [create_disk] and apart from
    the runs of guestfish. *)
Definition other_kinds : list kind :=
  [KExists; KLog; KTool "qemu-img"; KMove; KRemove].

Definition is_rmtree (ev : event) : bool :=
  match ev with EvRmtree _ => true | _ => false end.

Definition is_shell (ev : event) : bool :=
  match ev with EvPopen (Shell _) _ => true | _ => false end.

(** The event starts a shell command or guestfish itself. *)
Definition shell_or_guestfish (ev : event) : bool :=
  is_shell ev || runs_tool "guestfish" ev.

(** The events of [create_disk] around its temporary directory: the
    directory made and removed, virt-make-fs, the shell command. *)
Definition disk_mark (ev : event) : bool :=
  is_mkdtemp ev || is_rmtree ev || is_shell ev || runs_tool "virt-make-fs" ev.

(** [m] extends the trace, and the events it adds that [f] selects
    satisfy [Q] together with the outcome. *)
Definition shape {A} (f : event -> bool)
    (Q : exn + A -> list event -> Prop) (m : M A) : Prop :=
  forall h,
    exists t, trace (snd (m h)) = trace h ++ t /\
              Q (fst (m h)) (List.filter f t).

(** The run of virt-make-fs on the directory [dir] for the image [out]. *)
Definition make_fs_run (dir out : string) (ev : event) : Prop :=
  exists binary options,
    basename binary = "virt-make-fs" /\
    ev = EvPopen (Argv (binary :: options ++ ["--"; dir; out])) None.

(** * Properties *)

#[local] Arguments String.append : simpl nomatch.

(** ** Strings *)

Lemma split_not_nil sep s : Py.split sep s <> [].
Proof.
  destruct s as [|c s]; simpl; [discriminate|].
  destruct (Ascii.eqb c sep); [discriminate|].
  destruct (Py.split sep s); discriminate.
Qed.

Lemma lstrip_head p s c r : Py.lstrip p s = String c r -> p c = false.
Proof.
  induction s as [|a s IH]; simpl; [discriminate|].
  destruct (p a) eqn:Ha; [exact IH|].
  intros H; injection H as -> _; exact Ha.
Qed.

Lemma rstrip_head p c s :
  p c = false -> exists r, Py.rstrip p (String c s) = String c r.
Proof.
  intros Hc. simpl. destruct (Py.rstrip p s); [rewrite Hc|]; eauto.
Qed.

Lemma strip_head p s c r : Py.strip p s = String c r -> p c = false.
Proof.
  unfold Py.strip. destruct (Py.lstrip p s) as [|a l] eqn:Hl; [discriminate|].
  pose proof (lstrip_head _ _ _ _ Hl) as Ha.
  destruct (rstrip_head p a l Ha) as [r' Hr]. rewrite Hr.
  intros H; injection H as -> _; exact Ha.
Qed.

Lemma split_head sep c s :
  Ascii.eqb c sep = false ->
  exists w ws, Py.split sep (String c s) = String c w :: ws.
Proof.
  intros Hc. simpl. rewrite Hc.
  destruct (Py.split sep s) eqn:Hs; [destruct (split_not_nil _ _ Hs)|eauto].
Qed.

(** The first line of stripped text is not empty, unless there is no text
    at all, and then there is one line only. *)
Lemma first_line_nonempty out u rest :
  Py.split "010" (Py.strip Py.is_space out) = u :: rest ->
  rest <> [] -> u <> EmptyString.
Proof.
  destruct (Py.strip Py.is_space out) as [|c s] eqn:Hs.
  - simpl. intros H; injection H as _ <-. congruence.
  - intros H _. pose proof (strip_head _ _ _ _ Hs) as Hc.
    assert (Hnl : Ascii.eqb c "010" = false).
    { destruct (Ascii.eqb_spec c "010"%char) as [->|]; [discriminate Hc|done]. }
    destruct (split_head "010" c s Hnl) as (w & ws & Hw).
    rewrite Hw in H. injection H as <- _. discriminate.
Qed.

Lemma append_nil_r (s : string) : s +:+ EmptyString = s.
Proof. induction s as [|a s IH]; simpl; [reflexivity|]. rewrite IH. reflexivity. Qed.

Lemma append_assoc (s1 s2 s3 : string) :
  (s1 +:+ s2) +:+ s3 = s1 +:+ (s2 +:+ s3).
Proof. induction s1 as [|a s1 IH]; simpl; [reflexivity|]. rewrite IH. reflexivity. Qed.

(** ** Paths *)

Lemma split_last_slash_dir x c :
  Py.endswith_char "/" x = true ->
  split_last_slash c = (EmptyString, c) ->
  split_last_slash (x +:+ c) = (x, c).
Proof.
  intros Hx Hc. induction x as [|a x IH]; [discriminate|].
  simpl in Hx |- *. destruct x as [|b x].
  - simpl. rewrite Hc. simpl. rewrite Hx. reflexivity.
  - rewrite (IH Hx). reflexivity.
Qed.

Lemma endswith_char_snoc x c : Py.endswith_char c (x +:+ String c EmptyString) = true.
Proof.
  induction x as [|a x IH]; simpl; [apply Ascii.eqb_refl|].
  destruct (x +:+ String c EmptyString) eqn:E; [destruct x; discriminate|exact IH].
Qed.

Lemma os_path_split_bare c :
  split_last_slash c = (EmptyString, c) -> os_path_split c = (EmptyString, c).
Proof. intros Hc. unfold os_path_split. rewrite Hc. reflexivity. Qed.

Lemma basename_join x c :
  split_last_slash c = (EmptyString, c) -> basename (os_path_join x c) = c.
Proof.
  intros Hc. unfold basename, os_path_join.
  destruct (Py.startswith "/" c); [rewrite Hc; reflexivity|].
  destruct (Py.nonempty x) eqn:Hn; simpl negb; cbv iota.
  - simpl orb. destruct (Py.endswith_char "/" x) eqn:Hx.
    + rewrite split_last_slash_dir; auto.
    + change (x +:+ "/" +:+ c) with (x +:+ (String "/" EmptyString +:+ c)).
      rewrite <- append_assoc.
      rewrite split_last_slash_dir; auto using endswith_char_snoc.
  - destruct x; [|discriminate]. simpl. rewrite Hc. reflexivity.
Qed.

(** ** The monad *)

Lemma bind_inr {A B} (m : M A) (k : A -> M B) h v h' :
  bind m k h = (inr v, h') ->
  exists x h1, m h = (inr x, h1) /\ k x h1 = (inr v, h').
Proof.
  unfold bind. destruct (m h) as [[e|x] h1]; [discriminate|]. eauto.
Qed.

Lemma bind_result {A B} (m : M A) (k : A -> M B) h :
  bind m k h =
  match m h with
  | (inl e, h') => (inl e, h')
  | (inr x, h') => k x h'
  end.
Proof. reflexivity. Qed.

Lemma bind_eq_inl {A B} (m : M A) (k : A -> M B) h e h' :
  m h = (inl e, h') -> bind m k h = (inl e, h').
Proof. intros Hm. unfold bind. rewrite Hm. reflexivity. Qed.

Lemma bind_eq_inr {A B} (m : M A) (k : A -> M B) h x h' :
  m h = (inr x, h') -> bind m k h = k x h'.
Proof. intros Hm. unfold bind. rewrite Hm. reflexivity. Qed.

Lemma okay_run {A} E X (V : A -> Prop) m h r h' :
  okay E X V m -> m h = (r, h') ->
  (exists t, trace h' = trace h ++ t /\ Forall E t) /\
  match r with inl e => X e | inr v => V v end.
Proof. intros Hm Hr. specialize (Hm h). rewrite Hr in Hm. exact Hm. Qed.

Lemma okay_ret {A} E X (V : A -> Prop) x : V x -> okay E X V (ret x).
Proof.
  intros Hx h. split; [|exact Hx].
  exists []. simpl. rewrite app_nil_r. auto.
Qed.

Lemma okay_raise {A} E X (V : A -> Prop) e : X e -> okay E X V (raise e).
Proof.
  intros He h. split; [|exact He].
  exists []. simpl. rewrite app_nil_r. auto.
Qed.

Lemma okay_bind {A B} E X (V : A -> Prop) (W : B -> Prop) m k :
  okay E X V m -> (forall x, V x -> okay E X W (k x)) ->
  okay E X W (bind m k).
Proof.
  intros Hm Hk h. specialize (Hm h). rewrite bind_result.
  destruct (m h) as [[e|x] h1]; simpl in Hm |- *; [exact Hm|].
  destruct Hm as [(t1 & Ht1 & HE1) Hx].
  destruct (Hk x Hx h1) as [(t2 & Ht2 & HE2) Hr].
  split; [|exact Hr].
  exists (t1 ++ t2). rewrite Ht2, Ht1, app_assoc. split; [done|].
  apply Forall_app; auto.
Qed.

Lemma okay_weaken {A} (E E' : event -> Prop) (X X' : exn -> Prop)
    (V V' : A -> Prop) m :
  okay E X V m ->
  (forall ev, E ev -> E' ev) -> (forall e, X e -> X' e) ->
  (forall v, V v -> V' v) ->
  okay E' X' V' m.
Proof.
  intros Hm HE HX HV h. destruct (Hm h) as [(t & Ht & Ft) Hr]. split.
  - exists t. split; [done|]. eapply Forall_impl; eauto.
  - destruct (fst (m h)); auto.
Qed.

(** A computation that adds one event and cannot fail. *)
Lemma okay_emit {A} E X (V : A -> Prop) (m : M A) ev :
  (forall h, exists x h1, m h = (inr x, h1) /\ trace h1 = trace h ++ [ev] /\ V x) ->
  E ev -> okay E X V m.
Proof.
  intros Hm Hev h. destruct (Hm h) as (x & h1 & -> & Ht & Hx). simpl.
  split; [|exact Hx]. exists [ev]. auto.
Qed.

(** A computation that adds nothing to the trace. *)
Lemma okay_silent {A} E (X : exn -> Prop) (V : A -> Prop) (m : M A) :
  (forall h, trace (snd (m h)) = trace h /\
             match fst (m h) with inl e => X e | inr v => V v end) ->
  okay E X V m.
Proof.
  intros Hm h. destruct (Hm h) as [Ht Hr]. split; [|exact Hr].
  exists []. rewrite app_nil_r. auto.
Qed.

Lemma okay_try_finally {A} E X (V : A -> Prop) body cleanup :
  okay E X V body -> okay E X (fun _ => True) cleanup ->
  okay E X V (try_finally body cleanup).
Proof.
  intros Hb Hc h. unfold try_finally. specialize (Hb h).
  destruct (body h) as [r h1]. simpl in Hb.
  destruct Hb as [(t1 & Ht1 & F1) Hr]. specialize (Hc h1).
  destruct (cleanup h1) as [[e'|u] h2]; simpl in Hc;
    destruct Hc as [(t2 & Ht2 & F2) Hr2];
    (assert (Htr : exists t, trace h2 = trace h ++ t /\ Forall E t)
      by (exists (t1 ++ t2); rewrite Ht2, Ht1, app_assoc; split;
          [done|apply Forall_app; auto]));
    destruct r; simpl; auto.
Qed.

Lemma okay_try_except_raise {A} E (X X' : exn -> Prop) (V : A -> Prop) body e :
  okay E X' V body -> X e -> okay E X V (try_except_raise body e).
Proof.
  intros Hb He h. unfold try_except_raise. specialize (Hb h).
  destruct (body h) as [[e0|x] h1]; simpl in Hb |- *; destruct Hb; auto.
Qed.

(** ** The primitives *)

Section Effects.

Variable P : platform.
Variable E : event -> Prop.
Variable X : exn -> Prop.

Lemma okay_logger_info msg :
  E (EvLogInfo msg) -> okay E X (fun _ => True) (logger_info msg).
Proof. apply okay_emit. intros h. eexists _, _. split; [reflexivity|]. auto. Qed.

Lemma okay_op_exists path :
  E (EvExists path) -> okay E X (fun _ => True) (op_exists path).
Proof. apply okay_emit. intros h. eexists _, _. split; [reflexivity|]. auto. Qed.

Lemma okay_popen cmd input :
  E (EvPopen cmd input) -> okay E X (fun _ => True) (popen P cmd input).
Proof.
  apply okay_emit. intros h. unfold popen.
  destruct (process P cmd input (fs h) (environ h)) as [[rc out] fs'].
  eexists _, _. split; [reflexivity|]. auto.
Qed.

Lemma okay_mkdtemp :
  E (EvMkdtemp (mkdtemp_name P)) -> okay E X (fun _ => True) (mkdtemp P).
Proof. apply okay_emit. intros h. eexists _, _. split; [reflexivity|]. auto. Qed.

Lemma okay_rmtree name :
  E (EvRmtree name) -> (forall msg, X (OSError msg)) ->
  okay E X (fun _ => True) (rmtree name).
Proof.
  intros Hev HX h. unfold rmtree.
  destruct (bool_decide (name ∈ fs h)); simpl; (split; [exists [EvRmtree name]|]); auto.
Qed.

Lemma okay_environ_set key value :
  okay E X (fun _ => True) (environ_set key value).
Proof. apply okay_silent. intros h. simpl. auto. Qed.

Lemma okay_shutil_move src dst :
  E (EvMove src dst) -> (forall msg, X (IOError msg)) ->
  okay E X (fun _ => True) (shutil_move src dst).
Proof.
  intros Hev HX h. unfold shutil_move.
  destruct (bool_decide (src ∈ fs h)); simpl; (split; [exists [EvMove src dst]|]); auto.
Qed.

Lemma okay_os_remove path :
  E (EvRemove path) -> (forall msg, X (OSError msg)) ->
  okay E X (fun _ => True) (os_remove path).
Proof.
  intros Hev HX h. unfold os_remove.
  destruct (bool_decide (path ∈ fs h)); simpl; (split; [exists [EvRemove path]|]); auto.
Qed.

(** [which] leaves the host as it is. *)
Lemma which_state command h : snd (which P command h) = h.
Proof.
  unfold which. cbv zeta. destruct (os_path_split command) as [fpath fname].
  destruct (Py.nonempty fpath).
  - destruct (is_exe P command); reflexivity.
  - unfold bind, environ_get.
    destruct (environ h !! "PATH"); [|reflexivity].
    destruct (List.find _ _); reflexivity.
Qed.

(** What [which] finds for a bare command name is a file of that name. *)
Lemma which_basename command h p :
  split_last_slash command = (EmptyString, command) ->
  fst (which P command h) = inr p -> basename p = command.
Proof.
  intros Hc. unfold which. cbv zeta. rewrite (os_path_split_bare _ Hc).
  cbn beta iota. change (Py.nonempty EmptyString) with false. cbn iota.
  unfold bind, environ_get. cbn beta.
  destruct (environ h !! "PATH") as [path_var|]; [|discriminate].
  destruct (List.find _ _) as [exe|] eqn:Hf; [|discriminate].
  simpl. intros [= <-]. apply find_some in Hf as [Hin _].
  apply in_map_iff in Hin as (x & <- & _). apply basename_join, Hc.
Qed.

Lemma which_raises command h e :
  fst (which P command h) = inl e ->
  e = ValueError ("Command '" +:+ command +:+ "' not found") \/
  e = KeyError "PATH".
Proof.
  unfold which. cbv zeta. destruct (os_path_split command) as [fpath fname].
  destruct (Py.nonempty fpath).
  - destruct (is_exe P command); simpl; [discriminate|]. intros [= <-]. auto.
  - unfold bind, environ_get.
    destruct (environ h !! "PATH"); simpl; [|intros [= <-]; auto].
    destruct (List.find _ _); simpl; [discriminate|]. intros [= <-]. auto.
Qed.

Hypothesis X_other : forall e, e <> mbr_not_found -> X e.

Lemma okay_which command :
  split_last_slash command = (EmptyString, command) ->
  okay E X (fun p => basename p = command) (which P command).
Proof.
  intros Hc. apply okay_silent. intros h. rewrite which_state. split; [done|].
  destruct (fst (which P command h)) as [e|p] eqn:Hw.
  - apply X_other. destruct (which_raises _ _ _ Hw) as [-> | ->]; discriminate.
  - eapply which_basename; eauto.
Qed.

End Effects.

(** ** The kinds of events of each function *)

Ltac kinds_side Hks :=
  cbn beta in *; unfold of_kinds; cbv zeta;
  repeat match goal with
         | |- context [if ?b then _ else _] => destruct b
         end;
  cbn [kind_of Py.list_insert_at];
  repeat match goal with
         | H : basename _ = _ |- _ => rewrite H
         end;
  apply Hks; simpl; tauto.

Ltac exn_side X_other :=
  first
    [ exact I
    | assumption
    | apply X_other; unfold mbr_not_found, invalid_boot_information;
      let H := fresh in intros H; simpl in H; discriminate H ].

Ltac okay_step X_other :=
  lazymatch goal with
  | |- okay _ _ _ (bind _ _) =>
      eapply okay_bind; [|intros ? ?; cbn beta in *]
  | |- okay _ _ _ (ret _) =>
      first [ apply (okay_ret _ _ (fun _ => True)); exact I
            | apply okay_ret; exact I ]
  | |- okay _ _ _ (raise _) => apply okay_raise; exn_side X_other
  | |- okay _ _ _ (logger_info _) => apply okay_logger_info
  | |- okay _ _ _ (op_exists _) => apply okay_op_exists
  | |- okay _ _ _ (popen _ _ _) => apply okay_popen
  | |- okay _ _ _ (environ_set _ _) => apply okay_environ_set
  | |- okay _ _ _ (which _ _) => apply okay_which; [exact X_other|reflexivity]
  | |- okay _ _ _ (if ?b then _ else _) => destruct b eqn:?
  | |- okay _ _ _ (match ?x with _ => _ end) => destruct x eqn:?
  end.

Section Stages.

Variable P : platform.
Variable ks : list kind.
Variable X : exn -> Prop.
Hypothesis X_other : forall e, e <> mbr_not_found -> X e.

Local Abbreviation E := (of_kinds ks).

Lemma okay_run_guestfish_script disk script mount piped :
  incl [KTool "guestfish"] ks ->
  okay E X (fun _ => True) (run_guestfish_script P disk script mount piped).
Proof.
  intros Hks. unfold run_guestfish_script. cbv zeta.
  repeat okay_step X_other. kinds_side Hks.
Qed.

Lemma okay_boot_information_of output_1 :
  okay E (fun _ => True) (fun _ => True) (boot_information_of output_1).
Proof.
  unfold boot_information_of, unpack3, unpack4. cbv zeta.
  assert (Hany : forall e : exn, e <> mbr_not_found -> True) by done.
  repeat okay_step Hany.
Qed.

Lemma okay_get_boot_information disk :
  incl [KLog; KTool "guestfish"] ks ->
  okay E X (fun _ => True) (get_boot_information P disk).
Proof.
  intros Hks. unfold get_boot_information.
  okay_step X_other; [okay_step X_other; kinds_side Hks|].
  okay_step X_other;
    [apply okay_run_guestfish_script; intros k Hk; apply Hks; simpl in *; tauto|].
  eapply okay_try_except_raise; [|exn_side X_other].
  destruct x0; [apply okay_boot_information_of|].
  apply okay_raise. exact I.
Qed.

Lemma okay_generate_fstab disk uuid filesystem_type :
  incl [KLog; KTool "guestfish"] ks ->
  okay E X (fun _ => True) (generate_fstab P disk uuid filesystem_type).
Proof.
  intros Hks. unfold generate_fstab. cbv zeta.
  okay_step X_other; [okay_step X_other; kinds_side Hks|].
  okay_step X_other;
    [apply okay_run_guestfish_script; intros k Hk; apply Hks; simpl in *; tauto|].
  okay_step X_other.
Qed.

Lemma okay_find_mbr_from paths :
  incl [KExists] ks -> X mbr_not_found ->
  okay E X (fun _ => True) (find_mbr_from paths).
Proof.
  intros Hks Hx. induction paths as [|path rest IH]; simpl.
  - apply okay_raise. exact Hx.
  - okay_step X_other; [okay_step X_other; kinds_side Hks|].
    destruct x; [okay_step X_other|exact IH].
Qed.

(** After the MBR has been chosen. *)
Lemma okay_install_bootloader_from disk mbr_path append :
  incl [KLog; KTool "guestfish"] ks ->
  okay E X (fun _ => True)
    (let mbr_path := abspath P (to_unicode mbr_path) in
     let* (uuid, vmlinuz, initrd) := get_boot_information P disk in
     let* _ := logger_info ("Root partition UUID: " +:+ uuid) in
     let* _ := logger_info ("Kernel image: /boot/" +:+ vmlinuz) in
     let* _ := logger_info ("Initrd image: /boot/" +:+ initrd) in
     let script := bootloader_script mbr_path vmlinuz initrd uuid append in
     let* _ := run_guestfish_script P disk script true false in
     ret (uuid, vmlinuz, initrd)).
Proof.
  intros Hks. cbv zeta.
  okay_step X_other; [apply okay_get_boot_information, Hks|].
  destruct x as [[uuid vmlinuz] initrd].
  do 3 (okay_step X_other; [okay_step X_other; kinds_side Hks|]).
  okay_step X_other;
    [apply okay_run_guestfish_script; intros k Hk; apply Hks; simpl in *; tauto|].
  okay_step X_other.
Qed.

Lemma okay_mbr_or_find_mbr mbr :
  incl [KExists] ks -> X mbr_not_found ->
  okay E X (fun _ => True) (mbr_or_find_mbr mbr).
Proof.
  intros Hks Hx. unfold mbr_or_find_mbr, find_mbr.
  destruct mbr as [[|c path]|]; simpl Py.nonempty; cbv iota;
    auto using okay_find_mbr_from.
  apply okay_ret. exact I.
Qed.

Lemma okay_install_bootloader_override disk c path append :
  incl [KLog; KTool "guestfish"] ks ->
  okay E X (fun _ => True)
    (install_bootloader P disk (Some (String c path)) append).
Proof.
  intros Hks. unfold install_bootloader, mbr_or_find_mbr. simpl Py.nonempty.
  cbv iota. eapply okay_bind; [apply (okay_ret _ _ (fun _ => True)); exact I|].
  intros p _. apply (okay_install_bootloader_from disk p append Hks).
Qed.

Lemma okay_install_bootloader disk mbr append :
  incl [KExists; KLog; KTool "guestfish"] ks -> X mbr_not_found ->
  okay E X (fun _ => True) (install_bootloader P disk mbr append).
Proof.
  intros Hks Hx. unfold install_bootloader.
  eapply okay_bind.
  - apply okay_mbr_or_find_mbr; [intros k Hk; apply Hks; simpl in *; tauto|done].
  - intros p _. apply (okay_install_bootloader_from disk p append).
    intros k Hk; apply Hks; simpl in *; tauto.
Qed.

End Stages.

Section Build.

Variable P : platform.
Variable ks : list kind.
Variable X : exn -> Prop.
Hypothesis X_other : forall e, e <> mbr_not_found -> X e.

Local Abbreviation E := (of_kinds ks).

Lemma okay_file_type path :
  incl [KExists; KTool "file"] ks ->
  okay E X (fun _ => True) (file_type P path).
Proof.
  intros Hks. unfold file_type. cbv zeta.
  repeat okay_step X_other; kinds_side Hks.
Qed.

Lemma okay_decompress_cmd input_type input_ :
  okay E X (fun _ => True) (decompress_cmd P input_type input_).
Proof. unfold decompress_cmd. repeat okay_step X_other. Qed.

Lemma okay_make_tar_cmd_of input_type input_ make_tar_cmd :
  okay E X (fun _ => True) (make_tar_cmd_of P input_type input_ make_tar_cmd).
Proof. unfold make_tar_cmd_of. repeat okay_step X_other. Qed.

Lemma okay_population_cmd make_tar_cmd input_ output_filename :
  okay E X (fun _ => True)
    (population_cmd P make_tar_cmd input_ output_filename).
Proof. unfold population_cmd. repeat okay_step X_other. Qed.

Lemma okay_make_empty_disk output_filename size filesystem verbose empty_dir :
  incl [KTool "virt-make-fs"] ks ->
  okay E X (fun _ => True)
    (make_empty_disk P output_filename size filesystem verbose empty_dir).
Proof.
  intros Hks. unfold make_empty_disk. cbv zeta.
  repeat okay_step X_other. kinds_side Hks.
Qed.

Lemma okay_temporary_directory {A} (body : string -> M A) :
  incl [KMkdtemp; KRmtree] ks ->
  (forall name, okay E X (fun _ => True) (body name)) ->
  okay E X (fun _ => True) (temporary_directory P body).
Proof.
  intros Hks Hb. unfold temporary_directory.
  eapply okay_bind; [apply okay_mkdtemp; kinds_side Hks|]. intros name _.
  apply okay_try_finally; [apply Hb|]. apply okay_rmtree; [kinds_side Hks|].
  intros msg. apply X_other. discriminate.
Qed.

Lemma okay_create_disk input_ output_filename fmt size filesystem verbose :
  incl disk_kinds ks ->
  okay E X (fun _ => True)
    (create_disk P input_ output_filename fmt size filesystem verbose).
Proof.
  unfold disk_kinds. intros Hks. unfold create_disk. cbv zeta.
  okay_step X_other;
    [apply okay_file_type; intros k Hk; apply Hks; simpl in *; tauto|].
  okay_step X_other; [apply okay_decompress_cmd|].
  okay_step X_other; [okay_step X_other; kinds_side Hks|].
  okay_step X_other.
  { apply okay_temporary_directory;
      [intros k Hk; apply Hks; simpl in *; tauto|].
    intros name. apply okay_make_empty_disk.
    intros k Hk; apply Hks; simpl in *; tauto. }
  okay_step X_other; [okay_step X_other; kinds_side Hks|].
  okay_step X_other; [apply okay_make_tar_cmd_of|].
  okay_step X_other; [apply okay_population_cmd|].
  repeat okay_step X_other. kinds_side Hks.
Qed.

Lemma okay_qemu_convert disk output_fmt output_filename :
  incl [KTool "qemu-img"] ks ->
  okay E X (fun _ => True) (qemu_convert P disk output_fmt output_filename).
Proof.
  intros Hks. unfold qemu_convert. cbv zeta.
  repeat okay_step X_other. kinds_side Hks.
Qed.

End Build.

Lemma all_but_mbr (e : exn) : e <> mbr_not_found -> any_exn e.
Proof. done. Qed.

Ltac sub_kinds Hks := intros ? ?; apply Hks; simpl in *; tauto.

Lemma okay_export P ks temp_file output_fmt output_filename :
  incl [KExists; KTool "qemu-img"; KMove; KRemove] ks ->
  okay (of_kinds ks) any_exn (fun _ => True)
    (if String.eqb output_fmt "qcow2" then
       shutil_move temp_file output_filename
     else
       let* _ := qemu_convert P temp_file output_fmt output_filename in
       let* present := op_exists temp_file in
       if present then os_remove temp_file else ret tt).
Proof.
  intros Hks. destruct (String.eqb output_fmt "qcow2").
  - apply okay_shutil_move; [kinds_side Hks|done].
  - eapply okay_bind;
      [apply (okay_qemu_convert P ks any_exn all_but_mbr); sub_kinds Hks|].
    intros _ _.
    eapply okay_bind; [apply okay_op_exists; kinds_side Hks|]. intros present _.
    destruct present; [|apply okay_ret; exact I].
    apply okay_os_remove; [kinds_side Hks|done].
Qed.

Lemma okay_create_appliance P args :
  okay (of_kinds build_kinds) any_exn (fun _ => True) (create_appliance P args).
Proof.
  assert (Hks : incl build_kinds build_kinds) by (intros k Hk; exact Hk).
  unfold build_kinds in Hks at 1.
  unfold create_appliance. cbv zeta.
  eapply okay_bind; [apply okay_environ_set|]. intros _ _.
  eapply okay_bind.
  { unfold when. destruct (ns_verbose args);
      [apply okay_environ_set|apply okay_ret; exact I]. }
  intros _ _.
  eapply okay_bind;
    [apply (okay_create_disk P _ any_exn all_but_mbr); unfold disk_kinds;
     sub_kinds Hks|].
  intros _ _.
  eapply okay_bind; [apply okay_logger_info; kinds_side Hks|]. intros _ _.
  eapply okay_bind;
    [apply (okay_install_bootloader P _ any_exn all_but_mbr);
     [sub_kinds Hks|done]|].
  intros [[uuid vmlinuz] initrd] _.
  eapply okay_bind;
    [apply (okay_generate_fstab P _ any_exn all_but_mbr); sub_kinds Hks|].
  intros _ _.
  eapply okay_bind; [apply okay_logger_info; kinds_side Hks|]. intros _ _.
  apply okay_export. sub_kinds Hks.
Qed.

(** ** New events *)

Lemma new_events_app {A} (m : M A) h t :
  trace (snd (m h)) = trace h ++ t -> new_events m h = t.
Proof. intros Ht. unfold new_events. rewrite Ht. apply drop_app_length. Qed.

Lemma okay_new_events {A} E X (V : A -> Prop) m h :
  okay E X V m -> Forall E (new_events m h).
Proof.
  intros Hm. destruct (Hm h) as [(t & Ht & Ft) _].
  rewrite (new_events_app _ _ _ Ht). exact Ft.
Qed.

Lemma new_events_bind {A B} E X (V : A -> Prop) (W : B -> Prop)
    (m : M A) (k : A -> M B) h :
  okay E X V m -> (forall x, V x -> okay E X W (k x)) ->
  exists t, new_events (bind m k) h = new_events m h ++ t.
Proof.
  intros Hm Hk. destruct (Hm h) as [(t1 & Ht1 & _) Hv].
  rewrite (new_events_app m h t1 Ht1).
  destruct (m h) as [[e|x] h1] eqn:Hmh; simpl in Ht1, Hv.
  - exists []. apply new_events_app. unfold bind. rewrite Hmh. simpl.
    rewrite app_nil_r. exact Ht1.
  - destruct (Hk x Hv h1) as [(t2 & Ht2 & _) _]. exists t2.
    apply new_events_app. unfold bind. rewrite Hmh, Ht2, Ht1, app_assoc.
    reflexivity.
Qed.

Lemma of_kinds_not ks k ev : of_kinds ks ev -> ~ In k ks -> kind_of ev <> k.
Proof. unfold of_kinds. intros Hin Hk <-. contradiction. Qed.

(** ** The guestfish preamble *)

(** C8: the script that [run_guestfish_script] hands to guestfish is the
    given text after a [run] line and, when mounting is requested, a line
    mounting the first partition at the root; without mounting, after the
    [run] line only.  Nothing is run when guestfish is not found. *)
Theorem run_guestfish_script_preamble P disk script (mount piped : bool) h :
  match fst (which P "guestfish" h) with
  | inl e => run_guestfish_script P disk script mount piped h = (inl e, h)
  | inr guestfish =>
      new_events (run_guestfish_script P disk script mount piped) h =
      [EvPopen (Argv [guestfish; "-a"; disk])
         (Some ((if mount
                 then "run" +:+ nl +:+ "mount /dev/sda1 /" +:+ nl
                 else "run" +:+ nl) +:+ script))]
  end.
Proof.
  pose proof (which_state P "guestfish" h) as Hs.
  destruct (which P "guestfish" h) as [[e|guestfish] h1] eqn:Hw;
    simpl in Hs; subst h1; simpl fst; cbv iota.
  - unfold run_guestfish_script, bind. rewrite Hw. reflexivity.
  - apply new_events_app. unfold run_guestfish_script, bind. rewrite Hw.
    unfold popen. destruct (process P _ _ _ _) as [[rc out] fs'].
    destruct (negb (rc =? 0)); simpl; destruct mount; reflexivity.
Qed.

(** ** The master boot record *)

Lemma find_mbr_from_spec paths h :
  exists h',
    find_mbr_from paths h =
    (match List.find (fun p => bool_decide (p ∈ fs h)) paths with
     | Some p => inr p
     | None => inl mbr_not_found
     end, h') /\ fs h' = fs h /\ environ h' = environ h.
Proof.
  revert h. induction paths as [|p rest IH]; intros h; simpl.
  - eexists. split; [reflexivity|]. auto.
  - unfold bind, op_exists. destruct (bool_decide (p ∈ fs h)).
    + eexists. split; [reflexivity|]. auto.
    + destruct (IH (emit (EvExists p) h)) as (h' & Hf & Hfs & Henv).
      exists h'. split; [exact Hf|]. auto.
Qed.

Lemma find_none_iff {A} (f : A -> bool) l :
  List.find f l = None <-> Forall (fun x => f x = false) l.
Proof.
  induction l as [|x l IH]; simpl.
  - split; auto.
  - destruct (f x) eqn:Hx.
    + split; [discriminate|]. intros H. inversion H; congruence.
    + rewrite IH. split; [auto|]. intros H. inversion H; auto.
Qed.

(** C3: with a non-empty MBR override no path is looked up at all, so the
    well-known locations are never consulted; without an override the
    first existing one of the seven locations is chosen, and
    [install_bootloader] raises the MBR-not-found error exactly when none
    of them exists. *)
Theorem mbr_selection P disk append h :
  (forall c path,
     Forall (fun ev => is_exists ev = false)
       (new_events (install_bootloader P disk (Some (String c path)) append) h)) /\
  length search_paths = 7%nat /\
  fst (mbr_or_find_mbr None h) =
    match List.find (fun p => bool_decide (p ∈ fs h)) search_paths with
    | Some p => inr p
    | None => inl (Exception "syslinux MBR not found")
    end /\
  (fst (install_bootloader P disk None append h) =
     inl (Exception "syslinux MBR not found") <->
   Forall (fun p => p ∉ fs h) search_paths).
Proof.
  split; [|split; [reflexivity|split]].
  - intros c path.
    pose proof (okay_install_bootloader_override P [KLog; KTool "guestfish"]
                  any_exn all_but_mbr disk c path append
                  (fun k Hk => Hk)) as Hok.
    eapply Forall_impl; [exact (okay_new_events _ _ _ _ h Hok)|].
    intros ev Hev. destruct ev; try reflexivity.
    unfold of_kinds in Hev. simpl in Hev.
    destruct Hev as [|[|[]]]; discriminate.
  - unfold mbr_or_find_mbr, find_mbr.
    destruct (find_mbr_from_spec search_paths h) as (h' & -> & _). reflexivity.
  - unfold install_bootloader, mbr_or_find_mbr, find_mbr, bind at 1.
    destruct (find_mbr_from_spec search_paths h) as (h' & -> & _).
    destruct (List.find _ search_paths) as [p|] eqn:Hf.
    + split.
      * intros Hbad.
        match type of Hbad with
        | fst ?r = _ =>
            assert (Hr : match fst r with
                         | inl e => not_mbr_not_found e
                         | inr _ => True
                         end)
              by exact (proj2 (okay_install_bootloader_from P
                                 [KLog; KTool "guestfish"] not_mbr_not_found
                                 (fun e He => He) disk p append
                                 (fun k Hk => Hk) h'))
        end.
        rewrite Hbad in Hr. destruct (Hr eq_refl).
      * intros Hall. apply find_some in Hf as [Hin Hp].
        rewrite List.Forall_forall in Hall. apply Hall in Hin.
        apply bool_decide_eq_true in Hp. contradiction.
    + split; [intros _|reflexivity].
      apply find_none_iff in Hf. eapply Forall_impl; [exact Hf|].
      intros p Hp. cbn beta in Hp. apply bool_decide_eq_false in Hp. exact Hp.
Qed.

(** C10: an empty MBR override counts as no override: the call behaves
    exactly as the call without one, and starts by looking up the first
    of the well-known locations. *)
Theorem empty_mbr_override P disk append h :
  install_bootloader P disk (Some EmptyString) append h =
  install_bootloader P disk None append h /\
  exists t,
    new_events (install_bootloader P disk (Some EmptyString) append) h =
    EvExists "/usr/share/syslinux/mbr.bin" :: t.
Proof.
  split; [reflexivity|].
  assert (Hks : incl build_kinds build_kinds) by (intros k Hk; exact Hk).
  unfold build_kinds in Hks at 1.
  destruct (new_events_bind (of_kinds build_kinds) any_exn
              (fun _ => True) (fun _ => True)
              (mbr_or_find_mbr (Some EmptyString))
              (fun mbr_path =>
                 let mbr_path := abspath P (to_unicode mbr_path) in
                 let* (uuid, vmlinuz, initrd) := get_boot_information P disk in
                 let* _ := logger_info ("Root partition UUID: " +:+ uuid) in
                 let* _ := logger_info ("Kernel image: /boot/" +:+ vmlinuz) in
                 let* _ := logger_info ("Initrd image: /boot/" +:+ initrd) in
                 let script :=
                   bootloader_script mbr_path vmlinuz initrd uuid append in
                 let* _ := run_guestfish_script P disk script true false in
                 ret (uuid, vmlinuz, initrd)) h) as (t & Ht).
  { apply okay_mbr_or_find_mbr; [sub_kinds Hks|done]. }
  { intros p _.
    apply (okay_install_bootloader_from P build_kinds any_exn all_but_mbr
             disk p append). sub_kinds Hks. }
  destruct (new_events_bind (of_kinds build_kinds) any_exn
              (fun _ => True) (fun _ => True)
              (op_exists "/usr/share/syslinux/mbr.bin")
              (fun present : bool =>
                 if present then ret "/usr/share/syslinux/mbr.bin"
                 else find_mbr_from (tl search_paths)) h) as (t' & Ht').
  { apply okay_op_exists. kinds_side Hks. }
  { intros present _. destruct present; [apply okay_ret; exact I|].
    apply okay_find_mbr_from; [sub_kinds Hks|done]. }
  exists (t' ++ t).
  change (new_events (install_bootloader P disk (Some EmptyString) append) h)
    with (new_events
            (bind (mbr_or_find_mbr (Some EmptyString))
               (fun mbr_path =>
                  let mbr_path := abspath P (to_unicode mbr_path) in
                  let* (uuid, vmlinuz, initrd) := get_boot_information P disk in
                  let* _ := logger_info ("Root partition UUID: " +:+ uuid) in
                  let* _ := logger_info ("Kernel image: /boot/" +:+ vmlinuz) in
                  let* _ := logger_info ("Initrd image: /boot/" +:+ initrd) in
                  let script :=
                    bootloader_script mbr_path vmlinuz initrd uuid append in
                  let* _ := run_guestfish_script P disk script true false in
                  ret (uuid, vmlinuz, initrd))) h).
  rewrite Ht.
  change (mbr_or_find_mbr (Some EmptyString))
    with (bind (op_exists "/usr/share/syslinux/mbr.bin")
            (fun present : bool =>
               if present then ret "/usr/share/syslinux/mbr.bin"
               else find_mbr_from (tl search_paths))).
  rewrite Ht'.
  rewrite (new_events_app (op_exists "/usr/share/syslinux/mbr.bin") h
             [EvExists "/usr/share/syslinux/mbr.bin"] eq_refl).
  reflexivity.
Qed.

(** ** Boot information *)


(** ** A missing payload *)

Lemma file_type_missing P path h :
  path ∉ fs h ->
  file_type P path h =
    (inl (Exception ("cannot open '" +:+ path
                     +:+ "' (No such file or directory)")),
     emit (EvExists path) h).
Proof.
  intros Hmissing. unfold file_type.
  erewrite bind_eq_inr by reflexivity.
  rewrite (bool_decide_eq_false_2 _ Hmissing). reflexivity.
Qed.

Lemma create_disk_missing P input_ output_filename fmt size filesystem verbose h :
  input_ ∉ fs h ->
  create_disk P input_ output_filename fmt size filesystem verbose h =
    (inl (Exception ("cannot open '" +:+ input_
                     +:+ "' (No such file or directory)")),
     emit (EvExists input_) h).
Proof.
  intros Hmissing. unfold create_disk.
  apply bind_eq_inl, file_type_missing, Hmissing.
Qed.

(** C9: when the payload path does not exist, the build fails in the
    file-type probe: the only thing done is the existence test, so no
    child process is started, no working disk is made, and the paths on
    the host are those there were. *)
Theorem missing_payload_fails_first P args h :
  abspath P (ns_input args) ∉ fs h ->
  exists h',
    create_appliance P args h =
      (inl (Exception ("cannot open '" +:+ abspath P (ns_input args)
                       +:+ "' (No such file or directory)")), h') /\
    fs h' = fs h /\
    new_events (create_appliance P args) h =
      [EvExists (abspath P (ns_input args))].
Proof.
  intros Hmissing. unfold create_appliance, to_unicode. cbv zeta.
  erewrite bind_eq_inr by reflexivity.
  destruct (ns_verbose args); unfold when;
    (erewrite bind_eq_inr by reflexivity);
    (erewrite bind_eq_inl by (apply create_disk_missing; exact Hmissing));
    (eexists; split; [reflexivity|]; split; [reflexivity|]);
    apply new_events_app;
    (erewrite bind_eq_inr by reflexivity);
    (erewrite bind_eq_inr by reflexivity);
    (erewrite bind_eq_inl by (apply create_disk_missing; exact Hmissing));
    reflexivity.
Qed.

(** ** The exit status *)

Lemma build_kinds_not_stderr ev :
  of_kinds build_kinds ev -> is_stderr ev = false.
Proof.
  unfold of_kinds, build_kinds. destruct ev; try reflexivity.
  simpl. intros H. repeat (destruct H as [H|H]; [discriminate H|]). destruct H.
Qed.

(** C7: a build that succeeds ends the process with status 0 and writes
    nothing to the error stream; a build that raises ends it with status 1
    after one write to the error stream, of a line break, the line
    [Error: <message>] and its line break. *)
Theorem main_exit_status P argv h ns :
  parse_args parser argv = Some (Parsed ns) ->
  match create_appliance P (namespace_of ns) h with
  | (inr _, h1) =>
      main P argv h = Some (0, h1) /\
      Forall (fun ev => is_stderr ev = false)
        (drop (length (trace h)) (trace h1))
  | (inl exc, h1) =>
      exists h2,
        main P argv h = Some (1, h2) /\
        exists t,
          drop (length (trace h)) (trace h2) =
            t ++ [EvStderr (nl +:+ "Error: " +:+ str_of_exn exc +:+ nl)] /\
          Forall (fun ev => is_stderr ev = false) t
  end.
Proof.
  intros Hparse. unfold main. rewrite Hparse.
  pose proof (okay_create_appliance P (namespace_of ns) h) as [(t & Ht & Ft) _].
  assert (Fs : Forall (fun ev => is_stderr ev = false) t)
    by (eapply Forall_impl; [exact Ft|exact build_kinds_not_stderr]).
  destruct (create_appliance P (namespace_of ns) h) as [[exc|u] h1];
    simpl in Ht.
  - eexists. split; [reflexivity|]. exists t. split; [|exact Fs].
    simpl. rewrite Ht, <- app_assoc. apply drop_app_length.
  - split; [reflexivity|]. rewrite Ht, drop_app_length. exact Fs.
Qed.

(** ** The output format *)

(** C6 fails on the code: the parser declares no choices for [-F], so a
    format outside the six that the help text lists is accepted, and the
    build is started on the output path [<path>.iso]. *)
Theorem format_not_restricted :
  exists ns,
    parse_args parser ["-F"; "iso"; "-o"; "out"; "rootfs.tar"] =
      Some (Parsed ns) /\
    ns_format (namespace_of ns) = "iso" /\
    ~ In "iso" allowed_formats /\
    forall P, output_filename_of P (namespace_of ns) = abspath P "out" +:+ ".iso".
Proof.
  eexists. split; [vm_compute; reflexivity|].
  split; [vm_compute; reflexivity|]. split.
  - unfold allowed_formats. simpl. intros H.
    repeat (destruct H as [H|H]; [discriminate H|]). destruct H.
  - intros P. unfold output_filename_of, to_unicode.
    replace (ns_output _) with "out" by (vm_compute; reflexivity).
    replace (ns_format _) with "iso" by (vm_compute; reflexivity).
    reflexivity.
Qed.

(** Without [-F] the format is [qcow2]. *)
Lemma format_default :
  exists ns,
    parse_args parser ["-o"; "out"; "rootfs.tar"] = Some (Parsed ns) /\
    ns_format (namespace_of ns) = "qcow2".
Proof. eexists. split; vm_compute; reflexivity. Qed.

(** ** The export *)

Lemma bind_okay_inr {A B} E X (V : A -> Prop) (m : M A) (k : A -> M B) h v h' :
  okay E X V m -> bind m k h = (inr v, h') ->
  exists x h1 t,
    m h = (inr x, h1) /\ V x /\ trace h1 = trace h ++ t /\ Forall E t /\
    k x h1 = (inr v, h').
Proof.
  intros Hm Hb. apply bind_inr in Hb as (x & h1 & Hx & Hk).
  destruct (okay_run _ _ _ _ _ _ _ Hm Hx) as [(t & Ht & Ft) Hv].
  exists x, h1, t. auto.
Qed.

Lemma qemu_convert_inr P disk output_fmt output_filename h u h' :
  qemu_convert P disk output_fmt output_filename h = (inr u, h') ->
  exists qemu_img,
    basename qemu_img = "qemu-img" /\
    trace h' = trace h ++
      [EvPopen
         (Argv (qemu_img :: "convert" ::
                (if String.eqb output_fmt "qcow" || String.eqb output_fmt "qcow2"
                 then ["-c"] else []) ++
                ["-p"; "-O"; output_fmt; disk; output_filename])) None].
Proof.
  unfold qemu_convert. cbv zeta. intros H.
  apply (bind_okay_inr (fun _ => True) any_exn _ _ _ _ _ _
           (okay_which P _ _ all_but_mbr "qemu-img" eq_refl)) in H
    as (qemu_img & h1 & t & Hw & Hb & _ & _ & H).
  pose proof (which_state P "qemu-img" h) as Hs. rewrite Hw in Hs.
  simpl in Hs. subst h1. exists qemu_img. split; [exact Hb|].
  apply bind_inr in H as ([rc out] & h2 & Hp & H).
  unfold popen in Hp. destruct (process P _ _ _ _) as [[rc' out'] fs'].
  injection Hp as -> -> <-.
  destruct (negb (rc =? 0)); [discriminate|]. injection H as _ <-.
  simpl. destruct (String.eqb output_fmt "qcow" || String.eqb output_fmt "qcow2");
    reflexivity.
Qed.

Lemma stage_kinds_event ev :
  of_kinds stage_kinds ev ->
  runs_tool "qemu-img" ev = false /\ is_move ev = false /\ is_remove ev = false.
Proof.
  unfold of_kinds, stage_kinds. intros H.
  destruct ev as [| [[|binary argv]|] | | | | | |]; simpl in *;
    repeat split; try reflexivity;
    repeat (destruct H as [H|H];
            [first [discriminate H | injection H as <-; reflexivity]|]);
    destruct H.
Qed.

(** ** The population of the disk *)

Lemma which_inr P command h p h' :
  which P command h = (inr p, h') ->
  split_last_slash command = (EmptyString, command) ->
  h' = h /\ basename p = command.
Proof.
  intros Hw Hc. pose proof (which_state P command h) as Hs.
  pose proof (which_basename P command h p Hc) as Hb.
  rewrite Hw in Hs, Hb. simpl in Hs, Hb. auto.
Qed.

Lemma tool_then_inr P tool (f : string -> string) h c h' :
  split_last_slash tool = (EmptyString, tool) ->
  (let* path := which P tool in ret (f path)) h = (inr c, h') ->
  h' = h /\ exists path, basename path = tool /\ c = f path.
Proof.
  intros Ht H. apply bind_inr in H as (path & h1 & Hw & H).
  apply which_inr in Hw as [-> Hb]; [|exact Ht].
  injection H as <- <-. eauto.
Qed.

Lemma decompress_cmd_inr P input_type input_ h c h' :
  decompress_cmd P input_type input_ h = (inr c, h') ->
  h' = h /\
  if Py.contains "xz compressed data" input_type then
    exists xzcat, basename xzcat = "xzcat" /\ c = xzcat +:+ " " +:+ input_
  else if Py.contains "bzip2 compressed data" input_type then
    exists bzcat, basename bzcat = "bzcat" /\ c = bzcat +:+ " " +:+ input_
  else if Py.contains "gzip compressed data" input_type then
    exists zcat, basename zcat = "zcat" /\ c = zcat +:+ " " +:+ input_
  else c = EmptyString.
Proof.
  unfold decompress_cmd.
  destruct (Py.contains "xz compressed data" input_type);
    [apply tool_then_inr; reflexivity|].
  destruct (Py.contains "bzip2 compressed data" input_type);
    [apply tool_then_inr; reflexivity|].
  destruct (Py.contains "gzip compressed data" input_type);
    [apply tool_then_inr; reflexivity|].
  intros [= <- <-]. auto.
Qed.

Lemma make_tar_cmd_of_inr P input_type input_ make_tar_cmd h c h' :
  make_tar_cmd_of P input_type input_ make_tar_cmd h = (inr c, h') ->
  h' = h /\
  if Py.contains "directory" input_type then
    exists tar, basename tar = "tar" /\ c = directory_cmd tar input_
  else c = make_tar_cmd.
Proof.
  unfold make_tar_cmd_of. destruct (Py.contains "directory" input_type);
    [apply tool_then_inr; reflexivity|].
  intros [= <- <-]. auto.
Qed.

Lemma population_cmd_inr P make_tar_cmd input_ output_filename h cmd h' :
  population_cmd P make_tar_cmd input_ output_filename h = (inr cmd, h') ->
  h' = h /\
  exists guestfish,
    basename guestfish = "guestfish" /\
    cmd = if Py.nonempty make_tar_cmd
          then piped_cmd make_tar_cmd guestfish output_filename
          else plain_cmd guestfish output_filename input_.
Proof.
  unfold population_cmd. destruct (Py.nonempty make_tar_cmd); intros H;
    apply (tool_then_inr P "guestfish") in H as [-> (g & Hg & ->)];
    eauto.
Qed.

Lemma nonempty_command tool input_ :
  Py.nonempty (tool +:+ " " +:+ input_) = true.
Proof. destruct tool; reflexivity. Qed.

Lemma nonempty_directory_cmd tar input_ :
  Py.nonempty (directory_cmd tar input_) = true.
Proof. unfold directory_cmd. destruct tar; reflexivity. Qed.

(** The kinds of events of [create_disk] before it fills the disk. *)
Lemma before_population_event ev :
  of_kinds before_population_kinds ev -> kind_of ev <> KShell.
Proof.
  intros H. apply (of_kinds_not _ _ _ H). simpl. intros Hin.
  repeat (destruct Hin as [Hin|Hin]; [discriminate Hin|]). destruct Hin.
Qed.

(** The dispatch as the code has it: the probed type is compared in
    lower case, and the one command that fills the disk is chosen by the
    first of these that applies: a type containing "directory" has the directory
    tarred into the tar-in of guestfish; else one containing "xz
    compressed data" goes through xzcat, one containing "bzip2 compressed
    data" through bzcat, one containing "gzip compressed data" through
    zcat, each into the same tar-in; any other type is given to tar-in as
    it is, without a decompressor. *)
Theorem population_dispatch P input_ output_filename fmt size filesystem
    verbose h h' :
  create_disk P input_ output_filename fmt size filesystem verbose h =
    (inr tt, h') ->
  exists probed guestfish cmd before,
    fst (file_type P input_ h) = inr probed /\
    basename guestfish = "guestfish" /\
    new_events
      (create_disk P input_ output_filename fmt size filesystem verbose) h =
      before ++ [EvPopen (Shell cmd) None] /\
    Forall (fun ev => kind_of ev <> KShell) before /\
    let input_type := Py.lower probed in
    let tar_in := " | " +:+ guestfish +:+ " -a " +:+ output_filename
                  +:+ " -m /dev/sda1:/ tar-in - /" in
    if Py.contains "directory" input_type then
      exists tar, basename tar = "tar" /\
                  cmd = directory_cmd tar input_ +:+ tar_in
    else if Py.contains "xz compressed data" input_type then
      exists xzcat, basename xzcat = "xzcat" /\
                    cmd = (xzcat +:+ " " +:+ input_) +:+ tar_in
    else if Py.contains "bzip2 compressed data" input_type then
      exists bzcat, basename bzcat = "bzcat" /\
                    cmd = (bzcat +:+ " " +:+ input_) +:+ tar_in
    else if Py.contains "gzip compressed data" input_type then
      exists zcat, basename zcat = "zcat" /\
                   cmd = (zcat +:+ " " +:+ input_) +:+ tar_in
    else
      cmd = guestfish +:+ " -a " +:+ output_filename
            +:+ " -m /dev/sda1:/ tar-in " +:+ input_ +:+ " /".
Proof.
  intros Hrun. pose proof Hrun as H. unfold create_disk in H. cbv zeta in H.
  assert (Hks : incl before_population_kinds before_population_kinds)
    by (intros k Hk; exact Hk).
  unfold before_population_kinds in Hks at 1.
  assert (Hfile : incl [KExists; KTool "file"] before_population_kinds)
    by sub_kinds Hks.
  apply (bind_okay_inr _ _ _ _ _ _ _ _
           (okay_file_type P before_population_kinds any_exn all_but_mbr _
              Hfile)) in H
    as (probed & h1 & t1 & Hprobe & _ & Ht1 & F1 & H).
  apply bind_inr in H as (c & h2 & Hc & H).
  apply decompress_cmd_inr in Hc as [-> Hc].
  assert (Hlog : forall msg,
            okay (of_kinds before_population_kinds) any_exn (fun _ => True)
              (logger_info msg))
    by (intros msg; apply okay_logger_info; kinds_side Hks).
  apply (bind_okay_inr _ _ _ _ _ _ _ _ (Hlog _)) in H
    as (_ & h3 & t3 & _ & _ & Ht3 & F3 & H).
  assert (Htmp : okay (of_kinds before_population_kinds) any_exn
                   (fun _ => True)
                   (temporary_directory P
                      (make_empty_disk P output_filename size filesystem
                         verbose))).
  { apply okay_temporary_directory; [exact all_but_mbr|sub_kinds Hks|].
    intros name.
    apply okay_make_empty_disk; [exact all_but_mbr|sub_kinds Hks]. }
  apply (bind_okay_inr _ _ _ _ _ _ _ _ Htmp) in H
    as (_ & h4 & t4 & _ & _ & Ht4 & F4 & H).
  apply (bind_okay_inr _ _ _ _ _ _ _ _ (Hlog _)) in H
    as (_ & h5 & t5 & _ & _ & Ht5 & F5 & H).
  apply bind_inr in H as (c' & h6 & Hc' & H).
  apply make_tar_cmd_of_inr in Hc' as [-> Hc'].
  apply bind_inr in H as (cmd & h7 & Hcmd & H).
  apply population_cmd_inr in Hcmd as [-> (guestfish & Hg & Hcmd)].
  apply bind_inr in H as ([rc out] & h8 & Hp & H).
  unfold popen in Hp. destruct (process P _ _ _ _) as [[rc' out'] fs'].
  injection Hp as -> -> <-.
  destruct (negb (rc =? 0)); [discriminate|]. injection H as <-.
  exists probed, guestfish, cmd, (t1 ++ t3 ++ t4 ++ t5).
  split; [rewrite Hprobe; reflexivity|]. split; [exact Hg|]. split; [|split].
  - apply new_events_app. rewrite Hrun. simpl.
    rewrite Ht5, Ht4, Ht3, Ht1, <- !app_assoc. reflexivity.
  - repeat (apply Forall_app; split);
      (eapply Forall_impl; [eassumption|exact before_population_event]).
  - cbv zeta. destruct (Py.contains "directory" (Py.lower probed)).
    + destruct Hc' as (tar & Htar & ->). exists tar.
      rewrite nonempty_directory_cmd in Hcmd. split; [exact Htar|exact Hcmd].
    + subst c'.
      destruct (Py.contains "xz compressed data" (Py.lower probed));
        [destruct Hc as (tool & Htool & ->); exists tool;
         rewrite nonempty_command in Hcmd; split; [exact Htool|exact Hcmd]|].
      destruct (Py.contains "bzip2 compressed data" (Py.lower probed));
        [destruct Hc as (tool & Htool & ->); exists tool;
         rewrite nonempty_command in Hcmd; split; [exact Htool|exact Hcmd]|].
      destruct (Py.contains "gzip compressed data" (Py.lower probed));
        [destruct Hc as (tool & Htool & ->); exists tool;
         rewrite nonempty_command in Hcmd; split; [exact Htool|exact Hcmd]|].
      subst c. exact Hcmd.
Qed.

(** ** A disk creation that returns *)

Lemma runs_tool_kind tool ev :
  runs_tool tool ev = true -> kind_of ev = KTool tool.
Proof.
  destruct ev as [| [[|binary argv]|] | | | | | |]; simpl; try discriminate.
  intros H. apply String.eqb_eq in H. rewrite H. reflexivity.
Qed.

Lemma filter_other_tools tool ks t :
  Forall (of_kinds ks) t -> ~ In (KTool tool) ks ->
  List.filter (runs_tool tool) t = [].
Proof.
  intros Ft Hno. induction Ft as [|ev t Hev _ IH]; [reflexivity|]. simpl.
  destruct (runs_tool tool ev) eqn:Hr; [|exact IH].
  apply runs_tool_kind in Hr. unfold of_kinds in Hev. rewrite Hr in Hev.
  contradiction.
Qed.

Lemma temporary_directory_unfold {A} P (body : string -> M A) h :
  temporary_directory P body h =
  let name := mkdtemp_name P in
  let inside :=
    body name (emit (EvMkdtemp name) (with_fs ({[name]} ∪ fs h) h)) in
  if bool_decide (name ∈ fs (snd inside)) then
    (fst inside,
     emit (EvRmtree name)
       (with_fs (filter (fun p => beneath name p = false) (fs (snd inside)))
          (snd inside)))
  else
    (inl (OSError ("[Errno 2] No such file or directory: '" +:+ name +:+ "'")),
     emit (EvRmtree name) (snd inside)).
Proof.
  unfold temporary_directory, bind, mkdtemp, try_finally, rmtree. cbv zeta.
  destruct (body _ _) as [[e|x] h1]; simpl;
    destruct (bool_decide (mkdtemp_name P ∈ fs h1)); reflexivity.
Qed.


Lemma file_type_trace P path h ty h' :
  file_type P path h = (inr ty, h') ->
  exists file,
    basename file = "file" /\
    trace h' = trace h ++ [EvExists path; EvPopen (Argv [file; path]) None].
Proof.
  unfold file_type. cbv zeta. intros H.
  apply bind_inr in H as (present & h1 & He & H).
  unfold op_exists in He. injection He as <- <-.
  destruct (negb (bool_decide (path ∈ fs h))); [discriminate H|].
  apply bind_inr in H as (file & h2 & Hw & H).
  apply which_inr in Hw as [-> Hb]; [|reflexivity].
  exists file. split; [exact Hb|].
  apply bind_inr in H as ([rc out] & h3 & Hp & H).
  unfold popen in Hp. destruct (process P _ _ _ _) as [[rc' out'] fs'].
  injection Hp as -> -> <-.
  destruct (negb (rc =? 0)); [discriminate H|].
  destruct (Py.split ":" out) as [|a [|b l]]; try discriminate H.
  injection H as _ <-. simpl. rewrite <- app_assoc. reflexivity.
Qed.

Lemma make_empty_disk_inr P output_filename size filesystem verbose dir h u
    h' :
  make_empty_disk P output_filename size filesystem verbose dir h =
    (inr u, h') ->
  exists virt_make_fs,
    basename virt_make_fs = "virt-make-fs" /\
    trace h' = trace h ++
      [EvPopen
         (Argv (virt_make_fs ::
                (if verbose then ["--verbose"] else []) ++
                ["--partition"; "--size"; size; "--type"; filesystem;
                 "--format"; "qcow2"; "--"; dir; output_filename])) None].
Proof.
  unfold make_empty_disk. cbv zeta. intros H.
  apply bind_inr in H as (virt_make_fs & h1 & Hw & H).
  apply which_inr in Hw as [-> Hb]; [|reflexivity].
  exists virt_make_fs. split; [exact Hb|].
  apply bind_inr in H as ([rc out] & h2 & Hp & H).
  unfold popen in Hp. destruct (process P _ _ _ _) as [[rc' out'] fs'].
  injection Hp as -> -> <-.
  destruct (negb (rc =? 0)); [discriminate H|]. injection H as _ <-.
  destruct verbose; reflexivity.
Qed.

Lemma temporary_directory_inr {A} P (body : string -> M A) h x h' :
  temporary_directory P body h = (inr x, h') ->
  exists h1,
    body (mkdtemp_name P)
      (emit (EvMkdtemp (mkdtemp_name P))
         (with_fs ({[mkdtemp_name P]} ∪ fs h) h)) = (inr x, h1) /\
    trace h' = trace h1 ++ [EvRmtree (mkdtemp_name P)].
Proof.
  rewrite temporary_directory_unfold. cbv zeta.
  destruct (body _ _) as [r h1]. cbn [fst snd].
  destruct (bool_decide (mkdtemp_name P ∈ fs h1)); [|discriminate].
  intros [= -> <-]. exists h1. split; reflexivity.
Qed.

(** The events of a disk creation that returns. *)
Lemma create_disk_inr P input_ output_filename fmt size filesystem verbose h
    u h' :
  create_disk P input_ output_filename fmt size filesystem verbose h =
    (inr u, h') ->
  exists file virt_make_fs guestfish make_tar_cmd,
    basename file = "file" /\
    basename virt_make_fs = "virt-make-fs" /\
    basename guestfish = "guestfish" /\
    trace h' = trace h ++
      [EvExists input_;
       EvPopen (Argv [file; input_]) None;
       EvLogInfo "Creating an empty disk image";
       EvMkdtemp (mkdtemp_name P);
       EvPopen
         (Argv (virt_make_fs ::
                (if verbose then ["--verbose"] else []) ++
                ["--partition"; "--size"; size; "--type"; filesystem;
                 "--format"; "qcow2"; "--"; mkdtemp_name P;
                 output_filename])) None;
       EvRmtree (mkdtemp_name P);
       EvLogInfo "Copying the data into the disk image";
       EvPopen
         (Shell (if Py.nonempty make_tar_cmd
                 then piped_cmd make_tar_cmd guestfish output_filename
                 else plain_cmd guestfish output_filename input_)) None].
Proof.
  unfold create_disk. cbv zeta. intros H.
  apply bind_inr in H as (probed & h1 & Hprobe & H).
  apply file_type_trace in Hprobe as (file & Hfile & Ht1).
  apply bind_inr in H as (c & h2 & Hc & H).
  apply decompress_cmd_inr in Hc as [-> _].
  apply bind_inr in H as ([] & h3 & Hl & H). injection Hl as <-.
  apply bind_inr in H as ([] & h4 & Htmp & H).
  apply temporary_directory_inr in Htmp as (h3' & Hmk & Ht4).
  apply make_empty_disk_inr in Hmk as (virt_make_fs & Hvmf & Ht3).
  apply bind_inr in H as ([] & h5 & Hl & H). injection Hl as <-.
  apply bind_inr in H as (c' & h6 & Hc' & H).
  apply make_tar_cmd_of_inr in Hc' as [-> _].
  apply bind_inr in H as (cmd & h7 & Hcmd & H).
  apply population_cmd_inr in Hcmd as [-> (guestfish & Hg & ->)].
  apply bind_inr in H as ([rc out] & h8 & Hp & H).
  unfold popen in Hp. destruct (process P _ _ _ _) as [[rc' out'] fs'].
  injection Hp as -> -> <-.
  destruct (negb (rc =? 0)); [discriminate H|]. injection H as _ <-.
  exists file, virt_make_fs, guestfish, c'.
  repeat (split; [assumption|]).
  simpl. rewrite Ht4, Ht3. simpl. rewrite Ht1.
  rewrite <- !app_assoc. reflexivity.
Qed.

Lemma of_kinds_incl ks ks' ev : incl ks ks' -> of_kinds ks ev -> of_kinds ks' ev.
Proof. intros Hi H. apply Hi. exact H. Qed.

(** ** The export of the working disk *)

(** C4: on a successful build, the working disk is made by the one run of
    virt-make-fs, with [--format qcow2].  When the requested format (in
    lower case) is that format, [qcow2], the last thing done is the move
    of the working disk to the output path, and before it nothing was
    converted, moved or removed; otherwise the build ends with the run of
    [qemu-img convert] from the working disk to the output path, the test
    that the working disk exists and its removal when it does, and the
    working disk is gone.  The working disk is never both moved and
    removed. *)
Theorem export_policy P args h h' :
  create_appliance P args h = (inr tt, h') ->
  let temp_file := abspath P ("." +:+ candidate_name P) in
  let output_fmt := Py.lower (ns_format args) in
  let output_filename := abspath P (ns_output args) +:+ "." +:+ output_fmt in
  exists stages virt_make_fs,
    basename virt_make_fs = "virt-make-fs" /\
    List.filter (runs_tool "virt-make-fs") stages =
      [EvPopen
         (Argv (virt_make_fs ::
                (if ns_verbose args then ["--verbose"] else []) ++
                ["--partition"; "--size"; ns_size args; "--type";
                 ns_filesystem args; "--format"; "qcow2"; "--";
                 mkdtemp_name P; temp_file])) None] /\
    Forall (fun ev => runs_tool "qemu-img" ev = false /\
                      is_move ev = false /\ is_remove ev = false) stages /\
    if String.eqb output_fmt "qcow2" then
      new_events (create_appliance P args) h =
        stages ++ [EvMove temp_file output_filename] /\
      output_filename ∈ fs h'
    else
      exists qemu_img removal,
        basename qemu_img = "qemu-img" /\
        new_events (create_appliance P args) h =
          stages ++
          [EvPopen
             (Argv (qemu_img :: "convert" ::
                    (if String.eqb output_fmt "qcow" then ["-c"] else []) ++
                    ["-p"; "-O"; output_fmt; temp_file; output_filename]))
             None;
           EvExists temp_file] ++ removal /\
        (removal = [EvRemove temp_file] \/ removal = []) /\
        temp_file ∉ fs h'.
Proof.
  intros Hrun temp_file output_fmt output_filename.
  assert (Hks : incl boot_kinds boot_kinds) by (intros k Hk; exact Hk).
  unfold boot_kinds in Hks at 1.
  assert (Hstage : forall ev,
            of_kinds boot_kinds ev ->
            runs_tool "qemu-img" ev = false /\ is_move ev = false /\
            is_remove ev = false).
  { intros ev Hev. apply stage_kinds_event.
    apply (of_kinds_incl boot_kinds); [|exact Hev].
    unfold boot_kinds, stage_kinds. intros k Hk. simpl in *. tauto. }
  assert (Hno : ~ In (KTool "virt-make-fs") boot_kinds).
  { unfold boot_kinds. simpl. intros Hin.
    repeat (destruct Hin as [Hin|Hin]; [discriminate Hin|]). destruct Hin. }
  pose proof Hrun as H. unfold create_appliance, to_unicode in H.
  cbv zeta in H. fold temp_file output_fmt output_filename in H.
  apply (bind_okay_inr (of_kinds boot_kinds) any_exn (fun _ => True)
           _ _ _ _ _ (okay_environ_set _ _ _ _)) in H
    as (_ & h1 & t1 & _ & _ & Ht1 & F1 & H).
  assert (Hwhen : okay (of_kinds boot_kinds) any_exn (fun _ => True)
                    (when (ns_verbose args)
                       (environ_set "LIBGUESTFS_DEBUG" "1"))).
  { unfold when. destruct (ns_verbose args);
      [apply okay_environ_set|apply okay_ret; exact I]. }
  apply (bind_okay_inr _ _ _ _ _ _ _ _ Hwhen) in H
    as (_ & h2 & t2 & _ & _ & Ht2 & F2 & H).
  apply bind_inr in H as (u3 & h3 & Hdisk & H).
  assert (Hincl : incl disk_kinds stage_kinds)
    by (unfold disk_kinds, stage_kinds; intros k Hk; simpl in *; tauto).
  pose proof (okay_run _ _ _ _ _ _ _
                (okay_create_disk P stage_kinds any_exn all_but_mbr _ _ _ _
                   _ _ Hincl) Hdisk) as [(t3 & Ht3 & F3) _].
  apply create_disk_inr in Hdisk
    as (file & virt_make_fs & guestfish & make_tar_cmd & Hfile & Hvmf &
        Hguestfish & Hdisk).
  rewrite Ht3 in Hdisk. apply app_inv_head in Hdisk.
  assert (Hmade : List.filter (runs_tool "virt-make-fs") t3 =
                  [EvPopen
                     (Argv (virt_make_fs ::
                            (if ns_verbose args then ["--verbose"] else []) ++
                            ["--partition"; "--size"; ns_size args; "--type";
                             ns_filesystem args; "--format"; "qcow2"; "--";
                             mkdtemp_name P; temp_file])) None]).
  { rewrite Hdisk. simpl. rewrite Hfile, Hvmf. reflexivity. }
  assert (Hlog : forall msg,
            okay (of_kinds boot_kinds) any_exn (fun _ => True)
              (logger_info msg))
    by (intros msg; apply okay_logger_info; kinds_side Hks).
  apply (bind_okay_inr _ _ _ _ _ _ _ _ (Hlog _)) in H
    as (_ & h4 & t4 & _ & _ & Ht4 & F4 & H).
  assert (Hboot : incl [KExists; KLog; KTool "guestfish"] boot_kinds)
    by sub_kinds Hks.
  apply (bind_okay_inr _ _ _ _ _ _ _ _
           (okay_install_bootloader P boot_kinds any_exn all_but_mbr _ _ _
              Hboot I)) in H
    as ([[uuid vmlinuz] initrd] & h5 & t5 & _ & _ & Ht5 & F5 & H).
  assert (Hfstab : incl [KLog; KTool "guestfish"] boot_kinds)
    by sub_kinds Hks.
  apply (bind_okay_inr _ _ _ _ _ _ _ _
           (okay_generate_fstab P boot_kinds any_exn all_but_mbr _ _ _
              Hfstab)) in H
    as (_ & h6 & t6 & _ & _ & Ht6 & F6 & H).
  apply (bind_okay_inr _ _ _ _ _ _ _ _ (Hlog _)) in H
    as (_ & h7 & t7 & _ & _ & Ht7 & F7 & H).
  set (stages := t1 ++ t2 ++ t3 ++ t4 ++ t5 ++ t6 ++ t7).
  assert (Htr : trace h7 = trace h ++ stages).
  { subst stages. rewrite Ht7, Ht6, Ht5, Ht4, Ht3, Ht2, Ht1.
    rewrite <- !app_assoc. reflexivity. }
  assert (Fst : Forall (fun ev => runs_tool "qemu-img" ev = false /\
                        is_move ev = false /\ is_remove ev = false) stages).
  { subst stages. repeat (apply Forall_app; split);
      first [ eapply Forall_impl; [exact F3|exact stage_kinds_event]
            | eapply Forall_impl; [eassumption|exact Hstage] ]. }
  exists stages, virt_make_fs. split; [exact Hvmf|]. split.
  { subst stages. rewrite !List.filter_app, Hmade.
    rewrite (filter_other_tools _ _ t1 F1 Hno).
    rewrite (filter_other_tools _ _ t2 F2 Hno).
    rewrite (filter_other_tools _ _ t4 F4 Hno).
    rewrite (filter_other_tools _ _ t5 F5 Hno).
    rewrite (filter_other_tools _ _ t6 F6 Hno).
    rewrite (filter_other_tools _ _ t7 F7 Hno). reflexivity. }
  split; [exact Fst|].
  assert (Hsnd : snd (create_appliance P args h) = h') by (rewrite Hrun; done).
  destruct (String.eqb output_fmt "qcow2") eqn:Hfmt.
  - unfold shutil_move in H.
    destruct (bool_decide (temp_file ∈ fs h7)); [|discriminate].
    injection H as <-. split.
    + apply new_events_app. rewrite Hsnd. simpl. rewrite Htr, <- app_assoc.
      reflexivity.
    + simpl. set_solver.
  - apply bind_inr in H as (u & h8 & Hq & H).
    apply qemu_convert_inr in Hq as (qemu_img & Hb & Ht8).
    rewrite Hfmt, orb_false_r in Ht8.
    apply bind_inr in H as (present & h9 & He & H).
    unfold op_exists in He. injection He as <- <-.
    exists qemu_img.
    destruct (bool_decide (temp_file ∈ fs h8)) eqn:Hpresent.
    + unfold os_remove in H. simpl fs in H. rewrite Hpresent in H.
      injection H as <-. exists [EvRemove temp_file].
      split; [exact Hb|]. split; [|split; [auto|simpl; set_solver]].
      apply new_events_app. rewrite Hsnd. simpl.
      rewrite Ht8, Htr, <- !app_assoc. reflexivity.
    + injection H as <-. exists [].
      split; [exact Hb|]. split; [|split; [auto|]].
      * apply new_events_app. rewrite Hsnd. simpl.
        rewrite Ht8, Htr, <- !app_assoc. reflexivity.
      * simpl. apply bool_decide_eq_false in Hpresent. exact Hpresent.
Qed.

(** ** The filesystem table *)

Lemma plain_cons c u :
  plain (String c u) = true ->
  Ascii.eqb c "034" = false /\ Ascii.eqb c "\" = false /\
  Ascii.eqb c "010" = false /\ Guestfish.is_blank c = false /\
  plain u = true.
Proof.
  simpl. unfold plain_char. intros H.
  apply andb_true_iff in H as [Hc Hu]. apply negb_true_iff in Hc.
  repeat (apply orb_false_iff in Hc as [Hc ?]). auto.
Qed.

Lemma split_plain_app u s :
  plain u = true ->
  Py.split "010" (u +:+ s) =
  match Py.split "010" s with
  | [] => []
  | w :: ws => (u +:+ w) :: ws
  end.
Proof.
  intros Hu. induction u as [|c u IH].
  - simpl. destruct (Py.split "010" s); reflexivity.
  - apply plain_cons in Hu as (_ & _ & Hnl & _ & Hu). simpl.
    rewrite Hnl, (IH Hu).
    destruct (Py.split "010" s) eqn:Hs; [|reflexivity].
    destruct (split_not_nil _ _ Hs).
Qed.

Lemma snoc_append cur c u :
  Guestfish.snoc cur c +:+ u = cur +:+ String c u.
Proof. unfold Guestfish.snoc. rewrite append_assoc. reflexivity. Qed.

Lemma lex_plain_app u s cur acc :
  plain u = true ->
  Guestfish.lex (u +:+ s) Guestfish.InQuote cur acc =
  Guestfish.lex s Guestfish.InQuote (cur +:+ u) acc.
Proof.
  revert cur. induction u as [|c u IH]; intros cur Hu.
  - simpl. rewrite append_nil_r. reflexivity.
  - apply plain_cons in Hu as (Hq & Hb & _ & _ & Hu). simpl.
    rewrite Hq, Hb, (IH _ Hu), snoc_append. reflexivity.
Qed.

Lemma fields_plain_app u s cur acc :
  plain u = true ->
  Fstab.fields_from (u +:+ s) cur acc = Fstab.fields_from s (cur +:+ u) acc.
Proof.
  revert cur. induction u as [|c u IH]; intros cur Hu.
  - simpl. rewrite append_nil_r. reflexivity.
  - apply plain_cons in Hu as (_ & _ & _ & Hb & Hu). simpl.
    rewrite Hb, (IH _ Hu), snoc_append. reflexivity.
Qed.

Lemma fstab_script_lines uuid filesystem_type :
  plain uuid = true -> plain filesystem_type = true ->
  Py.split "010" (guestfish_input (fstab_script uuid filesystem_type) true) =
  [ "run"; "mount /dev/sda1 /"; "";
    "write /etc/fstab " +:+ dq
      +:+ "# /etc/fstab: static file system information.\n" +:+ dq;
    "write-append  /etc/fstab " +:+ dq
      +:+ "# Generated by kameleon-helpers.\n\n" +:+ dq;
    "write-append /etc/fstab " +:+ dq +:+ "UUID=" +:+ uuid +:+ "\t/\t"
      +:+ filesystem_type +:+ "\tdefaults\t0\t1\n" +:+ dq;
    "" ].
Proof.
  intros Hu Hf. unfold guestfish_input, fstab_script, dq, nl.
  simpl String.append. simpl Py.split.
  rewrite (split_plain_app uuid) by exact Hu. simpl Py.split.
  rewrite (split_plain_app filesystem_type) by exact Hf. simpl Py.split.
  reflexivity.
Qed.

Lemma words_entry_line uuid filesystem_type :
  plain uuid = true -> plain filesystem_type = true ->
  Guestfish.words
    ("write-append /etc/fstab " +:+ dq +:+ "UUID=" +:+ uuid +:+ "\t/\t"
     +:+ filesystem_type +:+ "\tdefaults\t0\t1\n" +:+ dq) =
  Some ["write-append"; "/etc/fstab";
        "UUID=" +:+ uuid +:+ tab +:+ "/" +:+ tab +:+ filesystem_type +:+ tab
        +:+ "defaults" +:+ tab +:+ "0" +:+ tab +:+ "1" +:+ nl].
Proof.
  intros Hu Hf. unfold Guestfish.words, dq, tab, nl. simpl.
  rewrite (lex_plain_app uuid) by exact Hu. simpl.
  rewrite (lex_plain_app filesystem_type) by exact Hf. simpl.
  unfold Guestfish.snoc, Guestfish.snoc_word. simpl.
  repeat (rewrite append_assoc; simpl). reflexivity.
Qed.

Lemma which_environ P command h h' :
  environ h' = environ h ->
  fst (which P command h') = fst (which P command h).
Proof.
  intros Henv. unfold which. cbv zeta.
  destruct (os_path_split command) as [fpath fname].
  destruct (Py.nonempty fpath).
  - destruct (is_exe P command); reflexivity.
  - unfold bind, environ_get. rewrite Henv.
    destruct (environ h !! "PATH"); [|reflexivity].
    destruct (List.find _ _); reflexivity.
Qed.

Lemma exec_entry_line uuid filesystem_type files :
  plain uuid = true -> plain filesystem_type = true ->
  Guestfish.exec
    ("write-append /etc/fstab " +:+ dq +:+ "UUID=" +:+ uuid +:+ "\t/\t"
     +:+ filesystem_type +:+ "\tdefaults\t0\t1\n" +:+ dq) files =
  Some (<["/etc/fstab" :=
           match files !! "/etc/fstab" with
           | Some text => text
           | None => EmptyString
           end +:+
           ("UUID=" +:+ uuid +:+ tab +:+ "/" +:+ tab +:+ filesystem_type
            +:+ tab +:+ "defaults" +:+ tab +:+ "0" +:+ tab +:+ "1" +:+ nl)]>
          files).
Proof.
  intros Hu Hf. unfold Guestfish.exec.
  rewrite (words_entry_line uuid filesystem_type Hu Hf). reflexivity.
Qed.

Lemma fields_entry_line uuid filesystem_type :
  plain uuid = true -> plain filesystem_type = true ->
  Py.nonempty filesystem_type = true ->
  Fstab.fields
    ("UUID=" +:+ uuid +:+ tab +:+ "/" +:+ tab +:+ filesystem_type +:+ tab
     +:+ "defaults" +:+ tab +:+ "0" +:+ tab +:+ "1") =
  ["UUID=" +:+ uuid; "/"; filesystem_type; "defaults"; "0"; "1"].
Proof.
  intros Hu Hf Hne. unfold Fstab.fields, tab. simpl.
  rewrite (fields_plain_app uuid) by exact Hu. simpl.
  rewrite (fields_plain_app filesystem_type) by exact Hf. simpl.
  rewrite Hne. unfold Guestfish.snoc, Guestfish.snoc_word. simpl.
  repeat (rewrite append_assoc; simpl). rewrite ?append_nil_r. reflexivity.
Qed.

(** C5, as the code has it: the table that [generate_fstab] writes has
    two comment lines, an empty line and one entry, which mounts the
    filesystem of the given UUID at the root with the given type, the
    options [defaults], dump frequency 0 and fsck pass 1.  The UUID and
    the type are taken free of blanks, quotes, backslashes and line
    breaks, as the script quotes them as they are. *)
Theorem fstab_content uuid filesystem_type files :
  plain uuid = true -> plain filesystem_type = true ->
  filesystem_type <> EmptyString ->
  let table :=
    "# /etc/fstab: static file system information." +:+ nl
    +:+ "# Generated by kameleon-helpers." +:+ nl +:+ nl
    +:+ "UUID=" +:+ uuid +:+ tab +:+ "/" +:+ tab +:+ filesystem_type +:+ tab
    +:+ "defaults" +:+ tab +:+ "0" +:+ tab +:+ "1" +:+ nl in
  fstab_written uuid filesystem_type files = Some table /\
  Fstab.entries table =
    [["UUID=" +:+ uuid; "/"; filesystem_type; "defaults"; "0"; "1"]] /\
  forall P disk h guestfish,
    fst (which P "guestfish" h) = inr guestfish ->
    new_events (generate_fstab P disk uuid filesystem_type) h =
      [EvLogInfo "Generating /etc/fstab";
       EvPopen (Argv [guestfish; "-a"; disk])
         (Some (guestfish_input (fstab_script uuid filesystem_type) true))].
Proof.
  intros Hu Hf Hne table.
  assert (Hne' : Py.nonempty filesystem_type = true)
    by (destruct filesystem_type; [congruence|reflexivity]).
  split; [|split].
  - unfold fstab_written, Guestfish.run.
    rewrite (fstab_script_lines uuid filesystem_type Hu Hf).
    unfold Guestfish.exec_lines.
    change (Guestfish.exec "run" files) with (Some files). cbv iota.
    change (Guestfish.exec "mount /dev/sda1 /" files) with (Some files).
    cbv iota.
    change (Guestfish.exec "" files) with (Some files). cbv iota.
    match goal with
    | |- context [Guestfish.exec ?l files] =>
        change (Guestfish.exec l files)
          with (Some (<["/etc/fstab" :=
                        "# /etc/fstab: static file system information."
                        +:+ nl]> files))
    end.
    cbv iota.
    match goal with
    | |- context [Guestfish.exec ?l ?f] =>
        lazymatch l with
        | context [uuid] => fail
        | _ =>
            change (Guestfish.exec l f)
              with (Some (<["/etc/fstab" :=
                            match f !! "/etc/fstab" with
                            | Some text => text
                            | None => EmptyString
                            end +:+ ("# Generated by kameleon-helpers."
                                     +:+ nl +:+ nl)]> f))
        end
    end.
    cbv iota. rewrite lookup_insert_eq.
    rewrite (exec_entry_line uuid filesystem_type _ Hu Hf).
    rewrite lookup_insert_eq.
    match goal with
    | |- context [Guestfish.exec "" ?f] =>
        change (Guestfish.exec "" f) with (Some f)
    end.
    cbv iota. rewrite lookup_insert_eq. reflexivity.
  - subst table. unfold Fstab.entries, nl. simpl String.append.
    simpl Py.split. rewrite (split_plain_app uuid) by exact Hu.
    unfold tab. simpl Py.split.
    rewrite (split_plain_app filesystem_type) by exact Hf. simpl Py.split.
    cbv iota. unfold map.
    change (Fstab.fields "# /etc/fstab: static file system information.")
      with ["#"; "/etc/fstab:"; "static"; "file"; "system"; "information."].
    change (Fstab.fields "# Generated by kameleon-helpers.")
      with ["#"; "Generated"; "by"; "kameleon-helpers."].
    change (Fstab.fields "") with (@nil string).
    pose proof (fields_entry_line uuid filesystem_type Hu Hf Hne') as Hfields.
    unfold tab in Hfields. simpl String.append in Hfields.
    simpl String.append. rewrite Hfields. reflexivity.
  - intros P disk h guestfish Hw. apply new_events_app.
    unfold generate_fstab. cbv zeta.
    erewrite bind_eq_inr by reflexivity.
    set (h1 := emit (EvLogInfo "Generating /etc/fstab") h).
    assert (Hw1 : which P "guestfish" h1 = (inr guestfish, h1)).
    { pose proof (which_state P "guestfish" h1) as Hs.
      pose proof (which_environ P "guestfish" h h1 eq_refl) as He.
      rewrite Hw in He. destruct (which P "guestfish" h1) as [r h2].
      simpl in Hs, He. subst. reflexivity. }
    unfold run_guestfish_script. cbv zeta.
    unfold bind at 1. unfold bind at 1. rewrite Hw1.
    unfold bind at 1, popen.
    destruct (process P _ _ _ _) as [[rc out] fs'].
    destruct (negb (rc =? 0)); simpl; rewrite <- app_assoc; reflexivity.
Qed.

(** * The properties on the demonstration host *)

Lemma run_guestfish_script_preamble_witness :
  new_events
    (run_guestfish_script (Demo.machine Demo.gzip_output Demo.boot_lines)
       Demo.working_disk "list-filesystems" false false)
    Demo.start =
  [EvPopen (Argv ["/usr/bin/guestfish"; "-a"; Demo.working_disk])
     (Some ("run" +:+ nl +:+ "list-filesystems"))].
Proof.
  exact (run_guestfish_script_preamble
           (Demo.machine Demo.gzip_output Demo.boot_lines)
           Demo.working_disk "list-filesystems" false false Demo.start).
Defined.



Lemma mbr_selection_witness :
  fst (mbr_or_find_mbr None Demo.start) = inr "/usr/lib/extlinux/mbr.bin".
Proof.
  pose proof (mbr_selection (Demo.machine Demo.gzip_output Demo.boot_lines)
                Demo.working_disk EmptyString Demo.start)
    as (_ & _ & Hfirst & _).
  rewrite Hfirst. vm_compute. reflexivity.
Defined.

Lemma missing_payload_fails_first_witness :
  ("/work/absent.tar" ∉ fs Demo.start) /\
  exists h',
    create_appliance (Demo.machine Demo.gzip_output Demo.boot_lines)
      Demo.absent_request Demo.start =
      (inl (Exception
              "cannot open '/work/absent.tar' (No such file or directory)"),
       h') /\
    fs h' = fs Demo.start /\
    new_events
      (create_appliance (Demo.machine Demo.gzip_output Demo.boot_lines)
         Demo.absent_request)
      Demo.start = [EvExists "/work/absent.tar"].
Proof.
  assert (Hmissing : "/work/absent.tar" ∉ fs Demo.start).
  { apply (proj1 (bool_decide_eq_false _)). vm_compute. reflexivity. }
  split; [exact Hmissing|].
  exact (missing_payload_fails_first
           (Demo.machine Demo.gzip_output Demo.boot_lines)
           Demo.absent_request Demo.start Hmissing).
Defined.

Lemma main_exit_status_witness :
  parse_args parser Demo.argv = Some (Parsed Demo.parsed) /\
  main (Demo.machine Demo.gzip_output Demo.boot_lines) Demo.argv Demo.start =
    Some (0, snd (create_appliance
                    (Demo.machine Demo.gzip_output Demo.boot_lines)
                    (namespace_of Demo.parsed) Demo.start)).
Proof.
  assert (Hparse : parse_args parser Demo.argv = Some (Parsed Demo.parsed))
    by (vm_compute; reflexivity).
  split; [exact Hparse|].
  pose proof (main_exit_status
                (Demo.machine Demo.gzip_output Demo.boot_lines)
                Demo.argv Demo.start Demo.parsed Hparse) as H.
  destruct (create_appliance (Demo.machine Demo.gzip_output Demo.boot_lines)
              (namespace_of Demo.parsed) Demo.start) as [[exc|u] h1] eqn:Hrun.
  - exfalso. vm_compute in Hrun. discriminate Hrun.
  - exact (proj1 H).
Defined.

Lemma fstab_content_witness :
  fstab_written "3f2a-77c1" "ext2" ∅ =
  Some ("# /etc/fstab: static file system information." +:+ nl
        +:+ "# Generated by kameleon-helpers." +:+ nl +:+ nl
        +:+ "UUID=3f2a-77c1" +:+ tab +:+ "/" +:+ tab +:+ "ext2" +:+ tab
        +:+ "defaults" +:+ tab +:+ "0" +:+ tab +:+ "1" +:+ nl).
Proof.
  assert (Hne : "ext2" <> EmptyString) by discriminate.
  exact (proj1 (fstab_content "3f2a-77c1" "ext2" ∅ eq_refl eq_refl Hne)).
Defined.

(** C5 fails on the code: the table written has one entry, not two. *)
Lemma fstab_has_one_entry :
  exists table,
    fstab_written "3f2a-77c1" "ext2" ∅ = Some table /\
    Fstab.entries table =
      [["UUID=3f2a-77c1"; "/"; "ext2"; "defaults"; "0"; "1"]] /\
    length (Fstab.entries table) <> 2%nat.
Proof.
  eexists. split; [vm_compute; reflexivity|].
  split; [vm_compute; reflexivity|]. vm_compute. discriminate.
Qed.

Lemma export_policy_witness :
  Demo.working_disk ∉
  fs (snd (create_appliance (Demo.machine Demo.gzip_output Demo.boot_lines)
             (Demo.request "raw") Demo.start)).
Proof.
  assert (Hrun : create_appliance
                   (Demo.machine Demo.gzip_output Demo.boot_lines)
                   (Demo.request "raw") Demo.start =
                 (inr tt,
                  snd (create_appliance
                         (Demo.machine Demo.gzip_output Demo.boot_lines)
                         (Demo.request "raw") Demo.start)))
    by (vm_compute; reflexivity).
  pose proof (export_policy _ _ _ _ Hrun) as H. cbv zeta in H.
  change (String.eqb (Py.lower (ns_format (Demo.request "raw"))) "qcow2")
    with false in H.
  destruct H as (stages & virt_make_fs & _ & _ & _ & qemu_img & removal & _ &
                 _ & _ & Hgone).
  exact Hgone.
Defined.

Lemma population_dispatch_witness :
  exists probed guestfish cmd before,
    fst (file_type (Demo.machine Demo.gzip_output Demo.boot_lines)
           "/work/rootfs.tar.gz" Demo.start) = inr probed /\
    basename guestfish = "guestfish" /\
    new_events
      (create_disk (Demo.machine Demo.gzip_output Demo.boot_lines)
         "/work/rootfs.tar.gz" Demo.working_disk "qcow2" "2G" "ext2" false)
      Demo.start =
    before ++ [EvPopen (Shell cmd) None].
Proof.
  assert (Hrun : create_disk (Demo.machine Demo.gzip_output Demo.boot_lines)
                   "/work/rootfs.tar.gz" Demo.working_disk "qcow2" "2G"
                   "ext2" false Demo.start =
                 (inr tt,
                  snd (create_disk
                         (Demo.machine Demo.gzip_output Demo.boot_lines)
                         "/work/rootfs.tar.gz" Demo.working_disk "qcow2" "2G"
                         "ext2" false Demo.start)))
    by (vm_compute; reflexivity).
  destruct (population_dispatch _ _ _ _ _ _ _ _ _ Hrun)
    as (probed & guestfish & cmd & before & Hprobe & Hg & Hev & _).
  exists probed, guestfish, cmd, before. auto.
Defined.

(** C2 fails on the code by a slip.  For a gzip archive whose description
    also holds the word "directory" (here in the name the archive
    remembers) the code does choose zcat, as the claim says: without zcat
    on the machine the creation fails for want of it.  But the test for a
    directory that follows overwrites that choice: with zcat there, the
    archive is not sent through zcat; its path is tarred as if it were a
    directory. *)
Theorem gzip_named_directory_is_tarred :
  let input_ := "/work/rootfs.tar.gz" in
  let probed := "gzip compressed data, was " +:+ dq +:+ "directory.tar"
                +:+ dq +:+ ", from Unix" in
  let tarred :=
    piped_cmd (directory_cmd "/usr/bin/tar" input_) "/usr/bin/guestfish"
      Demo.working_disk in
  fst (file_type (Demo.machine Demo.gzip_was_directory Demo.boot_lines)
         input_ Demo.start) = inr probed /\
  Py.contains "gzip compressed data" (Py.lower probed) = true /\
  fst (create_disk
         (Demo.machine_without "zcat" Demo.gzip_was_directory
            Demo.boot_lines)
         input_ Demo.working_disk "qcow2" "2G" "ext2" false Demo.start) =
    inl (ValueError "Command 'zcat' not found") /\
  fst (create_disk (Demo.machine Demo.gzip_was_directory Demo.boot_lines)
         input_ Demo.working_disk "qcow2" "2G" "ext2" false Demo.start) =
    inr tt /\
  (exists before,
     new_events
       (create_disk (Demo.machine Demo.gzip_was_directory Demo.boot_lines)
          input_ Demo.working_disk "qcow2" "2G" "ext2" false)
       Demo.start = before ++ [EvPopen (Shell tarred) None]) /\
  Py.startswith "/usr/bin/tar -cf - " tarred = true /\
  Py.contains "zcat" tarred = false.
Proof.
  cbv zeta. split; [vm_compute; reflexivity|].
  split; [vm_compute; reflexivity|]. split; [vm_compute; reflexivity|].
  split; [vm_compute; reflexivity|]. split.
  - exists (removelast
              (new_events
                 (create_disk
                    (Demo.machine Demo.gzip_was_directory Demo.boot_lines)
                    "/work/rootfs.tar.gz" Demo.working_disk "qcow2" "2G"
                    "ext2" false)
                 Demo.start)).
    vm_compute. reflexivity.
  - split; vm_compute; reflexivity.
Qed.

(** * Further properties *)

(** ** Locating a command *)

Lemma prefix_char c a s :
  String.prefix (String c EmptyString) (String a s) = Ascii.eqb c a.
Proof.
  simpl. destruct (ascii_dec c a) as [->|Hne].
  - rewrite Ascii.eqb_refl. destruct s; reflexivity.
  - symmetry. apply Ascii.eqb_neq. exact Hne.
Qed.

Lemma contains_char_cons c a s :
  Py.contains (String c EmptyString) (String a s) =
  Ascii.eqb c a || Py.contains (String c EmptyString) s.
Proof.
  change (Py.contains (String c EmptyString) (String a s))
    with (String.prefix (String c EmptyString) (String a s)
          || Py.contains (String c EmptyString) s).
  rewrite prefix_char. reflexivity.
Qed.

Lemma contains_char_nil c : Py.contains (String c EmptyString) EmptyString = false.
Proof. reflexivity. Qed.

Lemma split_last_slash_bare command :
  Py.contains "/" command = false ->
  split_last_slash command = (EmptyString, command).
Proof.
  induction command as [|a s IH]; [reflexivity|].
  rewrite contains_char_cons. intros H.
  apply orb_false_iff in H as [Ha Hs]. simpl. rewrite (IH Hs). simpl.
  rewrite Ascii.eqb_sym, Ha. reflexivity.
Qed.

Lemma split_last_slash_head command :
  Py.contains "/" command = true ->
  Py.nonempty (fst (split_last_slash command)) = true.
Proof.
  induction command as [|a s IH]; [discriminate|].
  rewrite contains_char_cons. intros H. simpl.
  destruct (split_last_slash s) as [hd tl] eqn:Hs. simpl in IH.
  destruct (Py.nonempty hd) eqn:Hhd; [reflexivity|].
  apply orb_true_iff in H as [Ha|Hc].
  - rewrite Ascii.eqb_sym, Ha. reflexivity.
  - specialize (IH Hc). congruence.
Qed.

Lemma rstrip_keeps_core p s :
  Py.nonempty (Py.lstrip p s) = true -> Py.nonempty (Py.rstrip p s) = true.
Proof.
  induction s as [|c s IH]; [discriminate|]. simpl.
  destruct (p c) eqn:Hc.
  - intros H. specialize (IH H).
    destruct (Py.rstrip p s); [discriminate IH|reflexivity].
  - intros _. destruct (Py.rstrip p s); reflexivity.
Qed.

Lemma os_path_split_head command :
  Py.contains "/" command = true ->
  Py.nonempty (fst (os_path_split command)) = true.
Proof.
  intros H. apply split_last_slash_head in H. unfold os_path_split.
  destruct (split_last_slash command) as [hd tl]. simpl in H.
  destruct (Py.nonempty (Py.lstrip (Py.is_char "/") hd)) eqn:Hl; simpl.
  - apply rstrip_keeps_core. exact Hl.
  - exact H.
Qed.

(** X1: what [which] returns for a command name without a slash is an
    executable file of that name, reached from an entry of [PATH], and the
    lookup leaves the host as it was. *)
Theorem which_finds_named_executable P command h p :
  Py.contains "/" command = false ->
  fst (which P command h) = inr p ->
  executable P p = true /\ basename p = command /\
  (exists path_var dir,
     environ h !! "PATH" = Some path_var /\ In dir (Py.split ":" path_var) /\
     p = os_path_join (Py.strip (Py.is_char "034") dir) command) /\
  snd (which P command h) = h.
Proof.
  intros Hbare Hp.
  pose proof (split_last_slash_bare command Hbare) as Hc.
  split; [|split; [eapply which_basename; eauto|split; [|apply which_state]]].
  - revert Hp. unfold which. cbv zeta. rewrite (os_path_split_bare _ Hc).
    cbn beta iota. change (Py.nonempty EmptyString) with false. cbn iota.
    unfold bind, environ_get. cbn beta.
    destruct (environ h !! "PATH") as [path_var|]; [|discriminate].
    destruct (List.find _ _) as [exe|] eqn:Hf; [|discriminate].
    simpl. intros [= <-]. apply find_some in Hf as [_ He]. exact He.
  - revert Hp. unfold which. cbv zeta. rewrite (os_path_split_bare _ Hc).
    cbn beta iota. change (Py.nonempty EmptyString) with false. cbn iota.
    unfold bind, environ_get. cbn beta.
    destruct (environ h !! "PATH") as [path_var|]; [|discriminate].
    destruct (List.find _ _) as [exe|] eqn:Hf; [|discriminate].
    simpl. intros [= <-]. apply find_some in Hf as [Hin _].
    apply in_map_iff in Hin as (dir & <- & Hdir). eauto.
Qed.

(** X2: [which] fails in two ways only.  For a command name without a
    slash it raises [KeyError] when [PATH] is not set, and [ValueError]
    with the message "Command '<name>' not found" when no entry of [PATH]
    holds an executable of that name; for a command with a slash it raises
    that [ValueError] when the command itself is not executable. *)
Theorem which_failure P command h e :
  fst (which P command h) = inl e ->
  (e = KeyError "PATH" /\ Py.contains "/" command = false /\
   environ h !! "PATH" = None) \/
  (e = ValueError ("Command '" +:+ command +:+ "' not found") /\
   if Py.contains "/" command then executable P command = false
   else exists path_var,
          environ h !! "PATH" = Some path_var /\
          Forall (fun dir =>
                    executable P
                      (os_path_join (Py.strip (Py.is_char "034") dir) command)
                    = false)
            (Py.split ":" path_var)).
Proof.
  destruct (Py.contains "/" command) eqn:Hslash.
  - pose proof (os_path_split_head command Hslash) as Hhd.
    unfold which. cbv zeta. destruct (os_path_split command) as [fpath fname].
    simpl in Hhd. rewrite Hhd. unfold is_exe.
    destruct (executable P command); simpl; [discriminate|].
    intros [= <-]. right. auto.
  - pose proof (split_last_slash_bare command Hslash) as Hc.
    unfold which. cbv zeta. rewrite (os_path_split_bare _ Hc).
    cbn beta iota. change (Py.nonempty EmptyString) with false. cbn iota.
    unfold bind, environ_get. cbn beta.
    destruct (environ h !! "PATH") as [path_var|]; simpl;
      [|intros [= <-]; left; auto].
    destruct (List.find _ _) as [exe|] eqn:Hf; simpl; [discriminate|].
    intros [= <-]. right. split; [reflexivity|]. exists path_var.
    split; [reflexivity|]. apply List.Forall_forall. intros dir Hdir.
    apply (List.find_none _ _ Hf).
    exact (in_map (fun path =>
                     os_path_join (Py.strip (Py.is_char "034") path) command)
             _ _ Hdir).
Qed.

(** X3: a command given with a directory part is never looked up on
    [PATH]: it is returned as it is when it is executable, and refused
    otherwise, whatever the environment holds. *)
Theorem which_with_directory P command h :
  Py.contains "/" command = true ->
  which P command h =
    (if executable P command then inr command
     else inl (ValueError ("Command '" +:+ command +:+ "' not found")), h).
Proof.
  intros Hslash. pose proof (os_path_split_head command Hslash) as Hhd.
  unfold which. cbv zeta. destruct (os_path_split command) as [fpath fname].
  simpl in Hhd. rewrite Hhd. unfold is_exe.
  destruct (executable P command); reflexivity.
Qed.

Lemma which_finds_named_executable_witness :
  executable (Demo.machine Demo.gzip_output Demo.boot_lines)
    "/usr/bin/guestfish" = true /\
  basename "/usr/bin/guestfish" = "guestfish".
Proof.
  assert (Hw : fst (which (Demo.machine Demo.gzip_output Demo.boot_lines)
                      "guestfish" Demo.start) = inr "/usr/bin/guestfish")
    by (vm_compute; reflexivity).
  destruct (which_finds_named_executable _ "guestfish" Demo.start _
              eq_refl Hw) as (He & Hb & _).
  split; [exact He|exact Hb].
Defined.

Lemma which_failure_witness :
  executable (Demo.machine Demo.gzip_output Demo.boot_lines) "./mkfs" = false.
Proof.
  assert (Hw : fst (which (Demo.machine Demo.gzip_output Demo.boot_lines)
                      "./mkfs" Demo.start) =
               inl (ValueError "Command './mkfs' not found"))
    by (vm_compute; reflexivity).
  destruct (which_failure _ "./mkfs" Demo.start _ Hw)
    as [(Hk & _)|(_ & Hx)]; [discriminate Hk|exact Hx].
Defined.

Lemma which_with_directory_witness :
  which (Demo.machine Demo.gzip_output Demo.boot_lines) "/usr/bin/file"
    Demo.start = (inr "/usr/bin/file", Demo.start).
Proof.
  exact (which_with_directory (Demo.machine Demo.gzip_output Demo.boot_lines)
           "/usr/bin/file" Demo.start eq_refl).
Defined.

(** ** Pieces of text *)

Lemma split_piece_no_sep sep s w :
  In w (Py.split sep s) -> Py.contains (String sep EmptyString) w = false.
Proof.
  revert w. induction s as [|c s IH]; intros w; simpl.
  - intros [<-|[]]. reflexivity.
  - destruct (Ascii.eqb c sep) eqn:Hc.
    + intros [<-|Hin]; [reflexivity|apply IH, Hin].
    + destruct (Py.split sep s) as [|w0 ws]; simpl.
      * intros [<-|[]]. rewrite contains_char_cons, Ascii.eqb_sym, Hc.
        reflexivity.
      * intros [<-|Hin].
        -- rewrite contains_char_cons, Ascii.eqb_sym, Hc. simpl.
           apply IH. left. reflexivity.
        -- apply IH. right. exact Hin.
Qed.

Lemma lstrip_no_char p c s :
  Py.contains (String c EmptyString) s = false ->
  Py.contains (String c EmptyString) (Py.lstrip p s) = false.
Proof.
  induction s as [|a s IH]; [auto|]. intros H. simpl.
  destruct (p a); [|exact H].
  rewrite contains_char_cons in H. apply orb_false_iff in H as [_ H]. auto.
Qed.

Lemma rstrip_no_char p c s :
  Py.contains (String c EmptyString) s = false ->
  Py.contains (String c EmptyString) (Py.rstrip p s) = false.
Proof.
  induction s as [|a s IH]; [auto|]. rewrite contains_char_cons.
  intros H. apply orb_false_iff in H as [Ha Hs]. specialize (IH Hs). simpl.
  destruct (Py.rstrip p s) as [|b r].
  - destruct (p a); [reflexivity|].
    rewrite contains_char_cons, Ha. reflexivity.
  - rewrite contains_char_cons, Ha. exact IH.
Qed.

Lemma strip_no_char p c s :
  Py.contains (String c EmptyString) s = false ->
  Py.contains (String c EmptyString) (Py.strip p s) = false.
Proof. intros H. apply rstrip_no_char, lstrip_no_char, H. Qed.

Lemma rstrip_idem p s : Py.rstrip p (Py.rstrip p s) = Py.rstrip p s.
Proof.
  induction s as [|c s IH]; [reflexivity|]. simpl.
  destruct (Py.rstrip p s) as [|a r] eqn:Hr.
  - destruct (p c) eqn:Hc; [reflexivity|]. simpl. rewrite Hc. reflexivity.
  - change (Py.rstrip p (String c (String a r)))
      with (match Py.rstrip p (String a r) with
            | EmptyString => if p c then EmptyString else String c EmptyString
            | r' => String c r'
            end).
    rewrite IH. reflexivity.
Qed.

Lemma strip_idem p s : Py.strip p (Py.strip p s) = Py.strip p s.
Proof.
  destruct (Py.strip p s) as [|c r] eqn:Hs; [reflexivity|].
  pose proof (strip_head _ _ _ _ Hs) as Hc.
  unfold Py.strip at 1. simpl Py.lstrip. rewrite Hc.
  rewrite <- Hs. unfold Py.strip. apply rstrip_idem.
Qed.

Lemma rstrip_end p sep s :
  p sep = true -> Py.endswith_char sep (Py.rstrip p s) = false.
Proof.
  intros Hsep. induction s as [|c s IH]; [reflexivity|]. simpl.
  destruct (Py.rstrip p s) as [|a r].
  - destruct (p c) eqn:Hc; [reflexivity|]. simpl.
    destruct (Ascii.eqb_spec c sep) as [->|]; [congruence|reflexivity].
  - exact IH.
Qed.

Lemma split_last_nonempty sep s :
  s <> EmptyString -> Py.endswith_char sep s = false ->
  List.last (Py.split sep s) EmptyString <> EmptyString.
Proof.
  induction s as [|c s IH]; [congruence|]. intros _ Hend.
  destruct s as [|a s].
  - simpl in Hend |- *. rewrite Hend. simpl. discriminate.
  - assert (Hs : List.last (Py.split sep (String a s)) EmptyString
                 <> EmptyString) by (apply IH; [discriminate|exact Hend]).
    change (Py.split sep (String c (String a s)))
      with (if Ascii.eqb c sep then EmptyString :: Py.split sep (String a s)
            else match Py.split sep (String a s) with
                 | [] => [String c EmptyString]
                 | w :: ws => String c w :: ws
                 end).
    destruct (Py.split sep (String a s)) as [|w ws] eqn:Hsp;
      [destruct (split_not_nil _ _ Hsp)|].
    destruct (Ascii.eqb c sep); [exact Hs|].
    destruct ws; [simpl; discriminate|exact Hs].
Qed.

(** The last line of stripped text is not empty when there is more than
    one line. *)
Lemma last_line_nonempty out :
  (2 <= length (Py.split "010" (Py.strip Py.is_space out)))%nat ->
  List.last (Py.split "010" (Py.strip Py.is_space out)) EmptyString
  <> EmptyString.
Proof.
  intros Hlen. apply split_last_nonempty.
  - intros Hs. rewrite Hs in Hlen. simpl in Hlen. lia.
  - unfold Py.strip. apply rstrip_end. reflexivity.
Qed.

(** ** The file-type probe *)

Lemma file_type_inr P path h ty :
  fst (file_type P path h) = inr ty ->
  path ∈ fs h /\
  exists output piece,
    In piece (Py.split ":" output) /\ ty = Py.strip Py.is_uspace piece.
Proof.
  intros H. unfold file_type, bind, op_exists, popen in H. cbv zeta in H.
  cbn beta in H.
  destruct (bool_decide (path ∈ fs h)) eqn:Hpresent; cbn [negb] in H;
    cbn beta iota in H; [|discriminate H].
  apply bool_decide_eq_true in Hpresent. split; [exact Hpresent|].
  destruct (which P "file" _) as [[e|file] h1]; [discriminate H|].
  destruct (process P _ _ _ _) as [[rc output] fs'].
  destruct (negb (rc =? 0)); [discriminate H|].
  destruct (Py.split ":" output) as [|a [|piece rest]] eqn:Hsp;
    [discriminate H|discriminate H|].
  simpl in H. injection H as <-. exists output, piece. rewrite Hsp.
  split; [right; left; reflexivity|reflexivity].
Qed.

(** X4: the type that [file_type] returns is clean: it holds no colon and
    has no white space at either end (stripping it again changes
    nothing); and a type is returned for an existing path only. *)
Theorem file_type_clean P path h ty :
  fst (file_type P path h) = inr ty ->
  Py.contains ":" ty = false /\ Py.strip Py.is_uspace ty = ty /\
  path ∈ fs h.
Proof.
  intros H. apply file_type_inr in H as (Hpath & output & piece & Hin & ->).
  split; [|split; [apply strip_idem|exact Hpath]].
  apply strip_no_char. eapply split_piece_no_sep. exact Hin.
Qed.

Lemma file_type_clean_witness :
  Py.contains ":" "gzip compressed data, from Unix" = false /\
  Py.strip Py.is_uspace "gzip compressed data, from Unix" =
    "gzip compressed data, from Unix" /\
  "/work/rootfs.tar.gz" ∈ fs Demo.start.
Proof.
  assert (H : fst (file_type (Demo.machine Demo.gzip_output Demo.boot_lines)
                     "/work/rootfs.tar.gz" Demo.start) =
              inr "gzip compressed data, from Unix")
    by (vm_compute; reflexivity).
  exact (file_type_clean _ _ _ _ H).
Defined.

(** ** More on the boot information *)

Lemma run_guestfish_script_result P disk script mount piped h r h' :
  run_guestfish_script P disk script mount piped h = (r, h') ->
  match r with
  | inl e =>
      (exists msg, e = ValueError msg) \/ (exists key, e = KeyError key) \/
      (exists rc cmd, e = CalledProcessError rc cmd /\ rc <> 0)
  | inr None => piped = false
  | inr (Some _) => piped = true
  end.
Proof.
  unfold run_guestfish_script, bind, popen. cbv zeta.
  destruct (which P "guestfish" h) as [[e|guestfish] h1] eqn:Hw.
  - intros [= <- <-].
    pose proof (which_raises P "guestfish" h e) as Hr. rewrite Hw in Hr.
    destruct (Hr eq_refl) as [-> | ->]; eauto.
  - destruct (process P _ _ _ _) as [[rc out] fs'].
    destruct (rc =? 0) eqn:Hrc; simpl; intros [= <- <-].
    + destruct piped; reflexivity.
    + right. right. exists rc. eexists. split; [reflexivity|].
      apply Z.eqb_neq. exact Hrc.
Qed.

Lemma boot_information_of_result output_1 h :
  let infos := Py.split "010" (Py.strip Py.is_space output_1) in
  boot_information_of output_1 h =
  (match infos with
   | [uuid; vmlinuz; initrd] => inr (uuid, vmlinuz, initrd)
   | [uuid; vmlinuz; initrd; fallback] =>
       inr (uuid, vmlinuz, if Py.nonempty initrd then initrd else fallback)
   | [] | [_] | [_; _] => inl (ValueError "need more than 2 values to unpack")
   | _ => inl (ValueError "too many values to unpack")
   end, h).
Proof.
  intros infos. unfold boot_information_of. cbv zeta. fold infos.
  destruct infos as [|a [|b [|c [|d [|e l]]]]]; try reflexivity.
  simpl. unfold bind, ret. simpl. destruct (Py.nonempty c); reflexivity.
Qed.

Lemma get_boot_information_unfold P disk h :
  get_boot_information P disk h =
  match run_guestfish_script P disk script_1 true true
          (emit (EvLogInfo get_boot_information_doc) h) with
  | (inl e, h1) => (inl e, h1)
  | (inr (Some out), h1) =>
      match fst (boot_information_of out h1) with
      | inl _ => (inl invalid_boot_information, h1)
      | inr x => (inr x, h1)
      end
  | (inr None, h1) => (inl invalid_boot_information, h1)
  end.
Proof.
  unfold get_boot_information, bind at 1, logger_info. unfold bind at 1.
  destruct (run_guestfish_script P disk script_1 true true _)
    as [[e|[out|]] h1]; try reflexivity.
  unfold try_except_raise. rewrite boot_information_of_result. simpl.
  destruct (Py.split "010" (Py.strip Py.is_space out))
    as [|a [|b [|c [|d [|e l]]]]]; reflexivity.
Qed.

(** X5: boot information that [get_boot_information] returns has a UUID
    and an initrd that are not empty (only the kernel may be empty), and
    none of the three holds a line break. *)
Theorem boot_information_fields P disk h uuid vmlinuz initrd :
  fst (get_boot_information P disk h) = inr (uuid, vmlinuz, initrd) ->
  uuid <> EmptyString /\ initrd <> EmptyString /\
  Forall (fun field => Py.contains nl field = false) [uuid; vmlinuz; initrd].
Proof.
  rewrite get_boot_information_unfold.
  destruct (run_guestfish_script P disk script_1 true true _)
    as [[e|[out|]] h1]; [discriminate| |discriminate].
  rewrite boot_information_of_result. cbv zeta. simpl fst.
  pose proof (first_line_nonempty out) as Hfirst.
  pose proof (last_line_nonempty out) as Hlast.
  pose proof (fun w => split_piece_no_sep "010" (Py.strip Py.is_space out) w)
    as Hnl.
  destruct (Py.split "010" (Py.strip Py.is_space out))
    as [|a [|b [|c [|d [|e l]]]]]; try discriminate.
  - simpl. intros [= <- <- <-]. split; [|split].
    + eapply Hfirst; [reflexivity|discriminate].
    + apply Hlast. simpl. lia.
    + repeat constructor; apply Hnl; simpl; auto.
  - simpl. intros [= <- <- <-]. split; [|split].
    + eapply Hfirst; [reflexivity|discriminate].
    + assert (Hd : d <> EmptyString) by (apply Hlast; simpl; lia).
      destruct c; simpl; [exact Hd|discriminate].
    + repeat constructor; try solve [apply Hnl; simpl; auto].
      destruct (Py.nonempty c); apply Hnl; simpl; auto.
Qed.

(** X6: [get_boot_information] raises "Invalid boot information (missing
    kernel ?)" exactly when guestfish ran to the end and its output has
    neither three nor four lines; a failure of the guestfish run itself
    comes out as it is. *)
Theorem invalid_boot_information_iff P disk h :
  fst (get_boot_information P disk h) =
    inl (Exception "Invalid boot information (missing kernel ?)") <->
  exists out h1,
    run_guestfish_script P disk script_1 true true
      (emit (EvLogInfo get_boot_information_doc) h) = (inr (Some out), h1) /\
    length (Py.split "010" (Py.strip Py.is_space out)) <> 3%nat /\
    length (Py.split "010" (Py.strip Py.is_space out)) <> 4%nat.
Proof.
  rewrite get_boot_information_unfold.
  destruct (run_guestfish_script P disk script_1 true true _)
    as [[e|[out|]] h1] eqn:Hrun.
  - simpl. split.
    + intros [= ->]. apply run_guestfish_script_result in Hrun.
      destruct Hrun as [[msg H]|[[key H]|(rc & cmd & H & _)]]; discriminate H.
    + intros (out & h2 & H & _). discriminate H.
  - rewrite boot_information_of_result. cbv zeta. simpl fst. split.
    + intros H. exists out, h1. split; [reflexivity|].
      destruct (Py.split "010" (Py.strip Py.is_space out))
        as [|a [|b [|c [|d [|e l]]]]]; simpl in *;
        solve [split; discriminate | discriminate H].
    + intros (out' & h2 & [= <- <-] & H3 & H4).
      destruct (Py.split "010" (Py.strip Py.is_space out))
        as [|a [|b [|c [|d [|e l]]]]]; simpl in *;
        solve [reflexivity | congruence].
  - apply run_guestfish_script_result in Hrun. discriminate Hrun.
Qed.

Lemma boot_information_fields_witness :
  "3f2a-77c1" <> EmptyString /\ "initrd.img-5.10" <> EmptyString /\
  Forall (fun field => Py.contains nl field = false)
    ["3f2a-77c1"; "vmlinuz-5.10"; "initrd.img-5.10"].
Proof.
  assert (H : fst (get_boot_information
                     (Demo.machine Demo.gzip_output Demo.boot_lines)
                     Demo.working_disk Demo.start) =
              inr ("3f2a-77c1", "vmlinuz-5.10", "initrd.img-5.10"))
    by (vm_compute; reflexivity).
  exact (boot_information_fields _ _ _ _ _ _ H).
Defined.

Lemma invalid_boot_information_iff_witness :
  fst (get_boot_information
         (Demo.machine Demo.gzip_output ("3f2a-77c1" +:+ nl +:+ "vmlinuz"))
         Demo.working_disk Demo.start) =
  inl (Exception "Invalid boot information (missing kernel ?)").
Proof.
  apply (proj2 (invalid_boot_information_iff _ _ _)).
  eexists _, _. split; [vm_compute; reflexivity|].
  split; vm_compute; discriminate.
Defined.

(** ** The search for the MBR *)

Lemma find_mbr_from_trace paths h :
  match fst (find_mbr_from paths h) with
  | inr p =>
      exists before after,
        paths = before ++ p :: after /\
        Forall (fun q => q ∉ fs h) before /\ p ∈ fs h /\
        trace (snd (find_mbr_from paths h)) =
          trace h ++ map EvExists (before ++ [p])
  | inl e =>
      e = Exception "syslinux MBR not found" /\
      Forall (fun q => q ∉ fs h) paths /\
      trace (snd (find_mbr_from paths h)) = trace h ++ map EvExists paths
  end.
Proof.
  revert h. induction paths as [|p rest IH]; intros h.
  - simpl. rewrite app_nil_r. auto.
  - simpl. unfold bind, op_exists.
    destruct (bool_decide (p ∈ fs h)) eqn:Hp.
    + apply bool_decide_eq_true in Hp. simpl.
      exists [], rest. auto.
    + apply bool_decide_eq_false in Hp.
      specialize (IH (emit (EvExists p) h)). simpl in IH.
      destruct (find_mbr_from rest (emit (EvExists p) h)) as [[e|q] h1];
        simpl in IH |- *.
      * destruct IH as (-> & Hall & Ht). split; [reflexivity|].
        split; [constructor; assumption|].
        rewrite Ht, <- app_assoc. reflexivity.
      * destruct IH as (before & after & -> & Hall & Hq & Ht).
        exists (p :: before), after. split; [reflexivity|].
        split; [constructor; assumption|]. split; [exact Hq|].
        rewrite Ht, <- app_assoc. reflexivity.
Qed.

(** X7: [find_mbr] tests the locations in order and stops at the first
    that exists: the locations tested are those before it, all absent,
    and the one returned; when it raises, every location was tested and
    none exists. *)
Theorem find_mbr_stops_at_first h :
  match fst (find_mbr h) with
  | inr p =>
      exists before after,
        search_paths = before ++ p :: after /\
        Forall (fun q => q ∉ fs h) before /\ p ∈ fs h /\
        new_events find_mbr h = map EvExists (before ++ [p])
  | inl e =>
      e = Exception "syslinux MBR not found" /\
      Forall (fun q => q ∉ fs h) search_paths /\
      new_events find_mbr h = map EvExists search_paths
  end.
Proof.
  unfold find_mbr. pose proof (find_mbr_from_trace search_paths h) as H.
  destruct (fst (find_mbr_from search_paths h)) as [e|p].
  - destruct H as (He & Hall & Ht). split; [exact He|].
    split; [exact Hall|]. apply new_events_app. exact Ht.
  - destruct H as (before & after & Hp & Hall & Hin & Ht).
    exists before, after. split; [exact Hp|]. split; [exact Hall|].
    split; [exact Hin|]. apply new_events_app. exact Ht.
Qed.

(** ** The temporary directory *)

(** X8: [temporary_directory] calls [shutil.rmtree] on the directory it
    made once, after the body, whether the body returned or raised.  When
    the directory is still there, what the body returned or raised comes
    out unchanged, and neither the directory nor a path beneath it exists
    afterwards.  When the body made the directory disappear, the error of
    [shutil.rmtree] comes out in the place of what the body returned or
    raised. *)
Theorem temporary_directory_cleans_up {A} P (body : string -> M A) h :
  let name := mkdtemp_name P in
  let inside :=
    body name (emit (EvMkdtemp name) (with_fs ({[name]} ∪ fs h) h)) in
  let after := temporary_directory P body h in
  trace (snd after) = trace (snd inside) ++ [EvRmtree name] /\
  if bool_decide (name ∈ fs (snd inside)) then
    fst after = fst inside /\
    (name ∉ fs (snd after)) /\
    (forall p, p ∈ fs (snd after) <->
               p ∈ fs (snd inside) /\ p <> name /\
               Py.startswith (name +:+ "/") p = false)
  else
    fst after =
      inl (OSError ("[Errno 2] No such file or directory: '" +:+ name
                    +:+ "'")) /\
    fs (snd after) = fs (snd inside).
Proof.
  intros name inside after. unfold after.
  rewrite temporary_directory_unfold. cbv zeta. fold name. fold inside.
  destruct (bool_decide (name ∈ fs (snd inside))); simpl.
  - split; [reflexivity|]. split; [reflexivity|].
    assert (Hin : forall p,
              p ∈ filter (fun p => beneath name p = false) (fs (snd inside))
              <-> p ∈ fs (snd inside) /\ p <> name /\
                  Py.startswith (name +:+ "/") p = false).
    { intros p. rewrite elem_of_filter. unfold beneath.
      rewrite orb_false_iff, String.eqb_neq. tauto. }
    split; [|exact Hin]. intros Hname. apply Hin in Hname.
    destruct Hname as (_ & Hne & _). apply Hne. reflexivity.
  - auto.
Qed.

(** ** Failures of the build *)

Lemma fails_within_okay {A} E X (V : A -> Prop) (m : M A) :
  okay E X V m -> fails_within E m.
Proof.
  intros Hm h e h' Hr. destruct (okay_run _ _ _ _ _ _ _ Hm Hr) as [Ht _].
  exact Ht.
Qed.

Lemma fails_within_bind {A B} E X (V : A -> Prop) (m : M A) (k : A -> M B) :
  okay E X V m -> (forall x, fails_within E (k x)) ->
  fails_within E (bind m k).
Proof.
  intros Hm Hk h e h' Hr. unfold bind in Hr.
  destruct (m h) as [[e0|x] h1] eqn:Hmh.
  - injection Hr as <- <-.
    destruct (okay_run _ _ _ _ _ _ _ Hm Hmh) as [Ht _]. exact Ht.
  - destruct (okay_run _ _ _ _ _ _ _ Hm Hmh) as [(t1 & Ht1 & F1) _].
    destruct (Hk x h1 e h' Hr) as (t2 & Ht2 & F2).
    exists (t1 ++ t2). rewrite Ht2, Ht1, app_assoc. split; [done|].
    apply Forall_app; auto.
Qed.

Lemma removal_succeeds_after_test path :
  fails_within (of_kinds no_removal_kinds)
    (let* present := op_exists path in
     if present then os_remove path else ret tt).
Proof.
  intros h e h' H. unfold bind, op_exists, os_remove in H. cbn beta in H.
  destruct (bool_decide (path ∈ fs h)) eqn:Hp; cbn beta iota in H.
  - simpl fs in H. rewrite Hp in H. discriminate H.
  - discriminate H.
Qed.

(** X9: a build that fails never removes the working disk: whatever the
    stage that raised, no file was removed before. *)
Theorem failed_build_removes_nothing P args h e h' :
  create_appliance P args h = (inl e, h') ->
  Forall (fun ev => is_remove ev = false)
    (new_events (create_appliance P args) h).
Proof.
  intros Hrun.
  assert (Hks : incl no_removal_kinds no_removal_kinds)
    by (intros k Hk; exact Hk).
  unfold no_removal_kinds in Hks at 1.
  assert (Hfail : fails_within (of_kinds no_removal_kinds)
                    (create_appliance P args)).
  { unfold create_appliance. cbv zeta.
    eapply fails_within_bind; [apply (okay_environ_set _ any_exn)|].
    intros _.
    eapply fails_within_bind.
    { unfold when. destruct (ns_verbose args);
        [apply (okay_environ_set _ any_exn)
        |apply (okay_ret _ any_exn (fun _ => True)); exact I]. }
    intros _.
    eapply fails_within_bind;
      [apply (okay_create_disk P _ any_exn all_but_mbr); unfold disk_kinds;
       sub_kinds Hks|].
    intros _.
    eapply fails_within_bind;
      [apply (okay_logger_info _ any_exn); kinds_side Hks|]. intros _.
    eapply fails_within_bind;
      [apply (okay_install_bootloader P _ any_exn all_but_mbr);
       [sub_kinds Hks|done]|].
    intros [[uuid vmlinuz] initrd].
    eapply fails_within_bind;
      [apply (okay_generate_fstab P _ any_exn all_but_mbr); sub_kinds Hks|].
    intros _.
    eapply fails_within_bind;
      [apply (okay_logger_info _ any_exn); kinds_side Hks|]. intros _.
    destruct (String.eqb _ "qcow2").
    - eapply fails_within_okay.
      apply (okay_shutil_move _ any_exn); [kinds_side Hks|done].
    - eapply fails_within_bind;
        [apply (okay_qemu_convert P _ any_exn all_but_mbr); sub_kinds Hks|].
      intros _. apply removal_succeeds_after_test. }
  destruct (Hfail h e h' Hrun) as (t & Ht & Ft).
  assert (Hnew : new_events (create_appliance P args) h = t)
    by (apply new_events_app; rewrite Hrun; exact Ht).
  rewrite Hnew. eapply Forall_impl; [exact Ft|].
  intros ev Hev. destruct ev; try reflexivity.
  unfold of_kinds, no_removal_kinds in Hev. simpl in Hev.
  repeat (destruct Hev as [Hev|Hev]; [discriminate Hev|]). destruct Hev.
Qed.

Lemma failed_build_removes_nothing_witness :
  Forall (fun ev => is_remove ev = false)
    (new_events
       (create_appliance (Demo.machine Demo.gzip_output Demo.boot_lines)
          Demo.absent_request)
       Demo.start).
Proof.
  assert (Hrun : create_appliance
                   (Demo.machine Demo.gzip_output Demo.boot_lines)
                   Demo.absent_request Demo.start =
                 (inl (Exception
                         "cannot open '/work/absent.tar' (No such file or directory)"),
                  snd (create_appliance
                         (Demo.machine Demo.gzip_output Demo.boot_lines)
                         Demo.absent_request Demo.start)))
    by (vm_compute; reflexivity).
  exact (failed_build_removes_nothing _ _ _ _ _ Hrun).
Defined.

(** ** The environment *)

Lemma keeps_environ_ret {A} (x : A) : keeps_environ (ret x).
Proof. intros h. reflexivity. Qed.

Lemma keeps_environ_raise {A} e : keeps_environ (@raise A e).
Proof. intros h. reflexivity. Qed.

Lemma keeps_environ_bind {A B} (m : M A) (k : A -> M B) :
  keeps_environ m -> (forall x, keeps_environ (k x)) ->
  keeps_environ (bind m k).
Proof.
  intros Hm Hk h. unfold bind. specialize (Hm h).
  destruct (m h) as [[e|x] h1]; simpl in Hm |- *; [exact Hm|].
  rewrite (Hk x h1). exact Hm.
Qed.

Lemma keeps_environ_try_finally {A} (body : M A) cleanup :
  keeps_environ body -> keeps_environ cleanup ->
  keeps_environ (try_finally body cleanup).
Proof.
  intros Hb Hc h. unfold try_finally. specialize (Hb h).
  destruct (body h) as [[e|x] h1]; simpl in Hb; specialize (Hc h1);
    destruct (cleanup h1) as [[e'|u] h2]; simpl in Hc |- *; congruence.
Qed.

Lemma keeps_environ_try_except_raise {A} (body : M A) e :
  keeps_environ body -> keeps_environ (try_except_raise body e).
Proof.
  intros Hb h. unfold try_except_raise. specialize (Hb h).
  destruct (body h) as [[e0|x] h1]; exact Hb.
Qed.

Lemma keeps_environ_logger_info msg : keeps_environ (logger_info msg).
Proof. intros h. reflexivity. Qed.

Lemma keeps_environ_op_exists path : keeps_environ (op_exists path).
Proof. intros h. reflexivity. Qed.

Lemma keeps_environ_popen P cmd input : keeps_environ (popen P cmd input).
Proof.
  intros h. unfold popen. destruct (process P _ _ _ _) as [[rc out] fs'].
  reflexivity.
Qed.

Lemma keeps_environ_which P command : keeps_environ (which P command).
Proof. intros h. rewrite which_state. reflexivity. Qed.

Lemma keeps_environ_shutil_move src dst : keeps_environ (shutil_move src dst).
Proof.
  intros h. unfold shutil_move. destruct (bool_decide _); reflexivity.
Qed.

Lemma keeps_environ_os_remove path : keeps_environ (os_remove path).
Proof.
  intros h. unfold os_remove. destruct (bool_decide _); reflexivity.
Qed.

Lemma keeps_environ_temporary_directory {A} P (body : string -> M A) :
  (forall name, keeps_environ (body name)) ->
  keeps_environ (temporary_directory P body).
Proof.
  intros Hb. unfold temporary_directory.
  apply keeps_environ_bind; [intros h; reflexivity|]. intros name.
  apply keeps_environ_try_finally; [apply Hb|]. intros h. unfold rmtree.
  destruct (bool_decide _); reflexivity.
Qed.

Ltac keeps_step :=
  lazymatch goal with
  | |- keeps_environ (bind _ _) => apply keeps_environ_bind; [|intros ?]
  | |- keeps_environ (ret _) => apply keeps_environ_ret
  | |- keeps_environ (raise _) => apply keeps_environ_raise
  | |- keeps_environ (logger_info _) => apply keeps_environ_logger_info
  | |- keeps_environ (op_exists _) => apply keeps_environ_op_exists
  | |- keeps_environ (popen _ _ _) => apply keeps_environ_popen
  | |- keeps_environ (which _ _) => apply keeps_environ_which
  | |- keeps_environ (shutil_move _ _) => apply keeps_environ_shutil_move
  | |- keeps_environ (os_remove _) => apply keeps_environ_os_remove
  | |- keeps_environ (try_except_raise _ _) =>
      apply keeps_environ_try_except_raise
  | |- keeps_environ (temporary_directory _ _) =>
      apply keeps_environ_temporary_directory; intros ?
  | |- keeps_environ (if ?b then _ else _) => destruct b
  | |- keeps_environ (match ?x with _ => _ end) => destruct x
  end.

Lemma keeps_environ_find_mbr_from paths : keeps_environ (find_mbr_from paths).
Proof. induction paths as [|p rest IH]; simpl; repeat keeps_step. exact IH. Qed.

Lemma keeps_environ_run_guestfish_script P disk script mount piped :
  keeps_environ (run_guestfish_script P disk script mount piped).
Proof. unfold run_guestfish_script. cbv zeta. repeat keeps_step. Qed.

Lemma keeps_environ_get_boot_information P disk :
  keeps_environ (get_boot_information P disk).
Proof.
  unfold get_boot_information. keeps_step; [keeps_step|].
  keeps_step; [apply keeps_environ_run_guestfish_script|].
  keeps_step. destruct x0; [|keeps_step].
  unfold boot_information_of, unpack3, unpack4. cbv zeta. repeat keeps_step.
Qed.

Lemma keeps_environ_install_bootloader P disk mbr append :
  keeps_environ (install_bootloader P disk mbr append).
Proof.
  unfold install_bootloader. cbv zeta. keeps_step.
  - unfold mbr_or_find_mbr, find_mbr.
    destruct mbr as [[|c s]|]; simpl Py.nonempty; cbv iota;
      auto using keeps_environ_find_mbr_from, keeps_environ_ret.
  - keeps_step; [apply keeps_environ_get_boot_information|].
    destruct x0 as [[uuid vmlinuz] initrd]. do 3 (keeps_step; [keeps_step|]).
    keeps_step; [apply keeps_environ_run_guestfish_script|]. keeps_step.
Qed.

Lemma keeps_environ_generate_fstab P disk uuid filesystem_type :
  keeps_environ (generate_fstab P disk uuid filesystem_type).
Proof.
  unfold generate_fstab. cbv zeta. keeps_step; [keeps_step|].
  keeps_step; [apply keeps_environ_run_guestfish_script|]. keeps_step.
Qed.

Lemma keeps_environ_create_disk P input_ output_filename fmt size filesystem
    verbose :
  keeps_environ
    (create_disk P input_ output_filename fmt size filesystem verbose).
Proof.
  unfold create_disk, file_type, decompress_cmd, make_tar_cmd_of,
    population_cmd, make_empty_disk. cbv zeta. repeat keeps_step.
Qed.

Lemma keeps_environ_qemu_convert P disk output_fmt output_filename :
  keeps_environ (qemu_convert P disk output_fmt output_filename).
Proof. unfold qemu_convert. cbv zeta. repeat keeps_step. Qed.

Lemma environ_after_bind {A B} (m : M A) (k : A -> M B) h :
  (forall x, keeps_environ (k x)) ->
  environ (snd (bind m k h)) = environ (snd (m h)).
Proof.
  intros Hk. unfold bind. destruct (m h) as [[e|x] h1]; [reflexivity|].
  apply Hk.
Qed.

(** X10: whether the build succeeds or fails, it leaves the environment
    as it found it but for two variables: [LIBGUESTFS_CACHEDIR] holds the
    current directory, and [LIBGUESTFS_DEBUG] holds [1] when the build is
    verbose (and is left alone otherwise). *)
Theorem build_environment P args h :
  environ (snd (create_appliance P args h)) =
  if ns_verbose args
  then <["LIBGUESTFS_DEBUG" := "1"]>
         (<["LIBGUESTFS_CACHEDIR" := getcwd P]> (environ h))
  else <["LIBGUESTFS_CACHEDIR" := getcwd P]> (environ h).
Proof.
  unfold create_appliance. cbv zeta.
  assert (Hrest : forall temp_file output_fmt output_filename,
            keeps_environ
              (let* _ := create_disk P (abspath P (to_unicode (ns_input args)))
                           temp_file (ns_format args) (ns_size args)
                           (ns_filesystem args) (ns_verbose args) in
               let* _ := logger_info "Installing bootloader" in
               let* (uuid, _, _) := install_bootloader P temp_file
                                      (ns_extlinux_mbr args) (ns_append args) in
               let* _ := generate_fstab P temp_file uuid (ns_filesystem args) in
               let* _ := logger_info
                           ("Exporting appliance to " +:+ output_filename) in
               if String.eqb output_fmt "qcow2" then
                 shutil_move temp_file output_filename
               else
                 let* _ := qemu_convert P temp_file output_fmt
                             output_filename in
                 let* present := op_exists temp_file in
                 if present then os_remove temp_file else ret tt)).
  { intros temp_file output_fmt output_filename.
    keeps_step; [apply keeps_environ_create_disk|].
    keeps_step; [keeps_step|].
    keeps_step; [apply keeps_environ_install_bootloader|].
    destruct x1 as [[uuid vmlinuz] initrd].
    keeps_step; [apply keeps_environ_generate_fstab|].
    keeps_step; [keeps_step|].
    keeps_step; [keeps_step|].
    keeps_step; [apply keeps_environ_qemu_convert|]. repeat keeps_step. }
  unfold bind at 1, environ_set at 1.
  rewrite environ_after_bind by (intros _; apply Hrest).
  unfold when, environ_set. destruct (ns_verbose args); reflexivity.
Qed.

(** ** The runs of guestfish in a build *)

Lemma run_guestfish_script_inr P disk script mount piped h r h' :
  run_guestfish_script P disk script mount piped h = (inr r, h') ->
  exists guestfish,
    basename guestfish = "guestfish" /\
    trace h' = trace h ++
      [EvPopen (Argv [guestfish; "-a"; disk])
         (Some (guestfish_input script mount))].
Proof.
  unfold run_guestfish_script. cbv zeta. intros H.
  apply bind_inr in H as (guestfish & h1 & Hw & H).
  apply which_inr in Hw as [-> Hb]; [|reflexivity].
  exists guestfish. split; [exact Hb|].
  apply bind_inr in H as ([rc out] & h2 & Hp & H).
  unfold popen in Hp. destruct (process P _ _ _ _) as [[rc' out'] fs'].
  injection Hp as -> -> <-.
  destruct (negb (rc =? 0)); [discriminate|]. injection H as _ <-.
  reflexivity.
Qed.

Lemma get_boot_information_inr P disk h info h' :
  get_boot_information P disk h = (inr info, h') ->
  exists guestfish,
    basename guestfish = "guestfish" /\
    trace h' = trace h ++
      [EvLogInfo get_boot_information_doc;
       EvPopen (Argv [guestfish; "-a"; disk])
         (Some (guestfish_input script_1 true))].
Proof.
  rewrite get_boot_information_unfold.
  destruct (run_guestfish_script P disk script_1 true true _)
    as [[e|[out|]] h1] eqn:Hrun; [discriminate| |discriminate].
  destruct (fst (boot_information_of out h1)); [discriminate|].
  intros [= _ <-].
  apply run_guestfish_script_inr in Hrun as (guestfish & Hb & Ht).
  exists guestfish. split; [exact Hb|]. rewrite Ht. simpl.
  rewrite <- app_assoc. reflexivity.
Qed.

Lemma install_bootloader_inr P disk mbr append h uuid vmlinuz initrd h' :
  install_bootloader P disk mbr append h = (inr (uuid, vmlinuz, initrd), h') ->
  exists tested mbr_path g1 g2,
    Forall (of_kinds [KExists]) tested /\
    basename g1 = "guestfish" /\ basename g2 = "guestfish" /\
    trace h' = trace h ++ tested ++
      [EvLogInfo get_boot_information_doc;
       EvPopen (Argv [g1; "-a"; disk]) (Some (guestfish_input script_1 true));
       EvLogInfo ("Root partition UUID: " +:+ uuid);
       EvLogInfo ("Kernel image: /boot/" +:+ vmlinuz);
       EvLogInfo ("Initrd image: /boot/" +:+ initrd);
       EvPopen (Argv [g2; "-a"; disk])
         (Some (guestfish_input
                  (bootloader_script (abspath P mbr_path) vmlinuz initrd uuid
                     append) true))].
Proof.
  unfold install_bootloader, to_unicode. cbv zeta. intros H.
  apply (bind_okay_inr (of_kinds [KExists]) any_exn (fun _ => True)
           _ _ _ _ _
           (okay_mbr_or_find_mbr [KExists] any_exn mbr
              (fun k Hk => Hk) I)) in H
    as (mbr_path & h1 & tested & _ & _ & Ht1 & F1 & H).
  apply bind_inr in H as ([[u k] i] & h2 & Hinfo & H).
  apply get_boot_information_inr in Hinfo as (g1 & Hg1 & Ht2).
  apply bind_inr in H as ([] & h3 & Hl1 & H). injection Hl1 as <-.
  apply bind_inr in H as ([] & h4 & Hl2 & H). injection Hl2 as <-.
  apply bind_inr in H as ([] & h5 & Hl3 & H). injection Hl3 as <-.
  apply bind_inr in H as (r & h6 & Hrun & H).
  apply run_guestfish_script_inr in Hrun as (g2 & Hg2 & Ht6).
  injection H as -> -> -> <-.
  exists tested, mbr_path, g1, g2. repeat (split; [assumption|]).
  rewrite Ht6. simpl. rewrite Ht2, Ht1. rewrite <- !app_assoc. reflexivity.
Qed.

Lemma generate_fstab_inr P disk uuid filesystem_type h u h' :
  generate_fstab P disk uuid filesystem_type h = (inr u, h') ->
  exists guestfish,
    basename guestfish = "guestfish" /\
    trace h' = trace h ++
      [EvLogInfo "Generating /etc/fstab";
       EvPopen (Argv [guestfish; "-a"; disk])
         (Some (guestfish_input (fstab_script uuid filesystem_type) true))].
Proof.
  unfold generate_fstab. cbv zeta. intros H.
  apply bind_inr in H as ([] & h1 & Hl & H). injection Hl as <-.
  apply bind_inr in H as (r & h2 & Hrun & H).
  apply run_guestfish_script_inr in Hrun as (guestfish & Hb & Ht).
  injection H as _ <-. exists guestfish. split; [exact Hb|].
  rewrite Ht. simpl. rewrite <- app_assoc. reflexivity.
Qed.

Lemma filter_none (f : event -> bool) ks t :
  Forall (of_kinds ks) t -> (forall ev, of_kinds ks ev -> f ev = false) ->
  List.filter f t = [].
Proof.
  intros Ft Hf. induction Ft as [|ev t Hev _ IH]; [reflexivity|].
  simpl. rewrite (Hf ev Hev). exact IH.
Qed.

Lemma other_kinds_event ev :
  of_kinds other_kinds ev -> shell_or_guestfish ev = false.
Proof.
  unfold of_kinds, other_kinds, shell_or_guestfish.
  destruct ev as [| [[|binary argv]|] | | | | | |]; simpl;
    intros H; repeat (destruct H as [H|H]; try discriminate H);
    try contradiction; try reflexivity.
  injection H as <-. reflexivity.
Qed.

(** X11: a successful build starts guestfish on the working disk four
    times, in this order: in the shell command of [create_disk] that
    copies the payload with tar-in, then by itself for the boot queries,
    for the bootloader script and for the script that writes the
    filesystem table.  It starts no other shell command and no other run
    of guestfish.  The UUID in the table is the UUID in the bootloader
    configuration, the filesystem type is the one requested, and the
    kernel arguments are those requested. *)
Theorem build_guestfish_runs P args h h' :
  create_appliance P args h = (inr tt, h') ->
  let input_ := abspath P (ns_input args) in
  let temp_file := abspath P ("." +:+ candidate_name P) in
  exists g0 make_tar_cmd g1 g2 g3 mbr_path uuid vmlinuz initrd,
    Forall (fun g => basename g = "guestfish") [g0; g1; g2; g3] /\
    List.filter shell_or_guestfish
      (new_events (create_appliance P args) h) =
    [EvPopen
       (Shell (if Py.nonempty make_tar_cmd
               then piped_cmd make_tar_cmd g0 temp_file
               else plain_cmd g0 temp_file input_)) None;
     EvPopen (Argv [g1; "-a"; temp_file])
       (Some (guestfish_input script_1 true));
     EvPopen (Argv [g2; "-a"; temp_file])
       (Some (guestfish_input
                (bootloader_script mbr_path vmlinuz initrd uuid
                   (ns_append args)) true));
     EvPopen (Argv [g3; "-a"; temp_file])
       (Some (guestfish_input (fstab_script uuid (ns_filesystem args))
                true))].
Proof.
  intros Hrun input_ temp_file.
  assert (Hks : incl other_kinds other_kinds) by (intros k Hk; exact Hk).
  unfold other_kinds in Hks at 1.
  pose proof Hrun as H. unfold create_appliance, to_unicode in H.
  cbv zeta in H. fold input_ temp_file in H.
  apply (bind_okay_inr (of_kinds other_kinds) any_exn (fun _ => True)
           _ _ _ _ _ (okay_environ_set _ _ _ _)) in H
    as (_ & h1 & t1 & _ & _ & Ht1 & F1 & H).
  assert (Hwhen : okay (of_kinds other_kinds) any_exn (fun _ => True)
                    (when (ns_verbose args)
                       (environ_set "LIBGUESTFS_DEBUG" "1"))).
  { unfold when. destruct (ns_verbose args);
      [apply okay_environ_set|apply okay_ret; exact I]. }
  apply (bind_okay_inr _ _ _ _ _ _ _ _ Hwhen) in H
    as (_ & h2 & t2 & _ & _ & Ht2 & F2 & H).
  apply bind_inr in H as (u3 & h3 & Hdisk & H).
  apply create_disk_inr in Hdisk
    as (file & virt_make_fs & g0 & make_tar_cmd & Hfile & Hvmf & Hg0 & Ht3).
  assert (Hlog : forall msg,
            okay (of_kinds other_kinds) any_exn (fun _ => True)
              (logger_info msg))
    by (intros msg; apply okay_logger_info; kinds_side Hks).
  apply (bind_okay_inr _ _ _ _ _ _ _ _ (Hlog _)) in H
    as (_ & h4 & t4 & _ & _ & Ht4 & F4 & H).
  apply bind_inr in H as ([[uuid vmlinuz] initrd] & h5 & Hboot & H).
  apply install_bootloader_inr in Hboot
    as (tested & mbr_path & g1 & g2 & Ftested & Hg1 & Hg2 & Ht5).
  apply bind_inr in H as (u & h6 & Hfstab & H).
  apply generate_fstab_inr in Hfstab as (g3 & Hg3 & Ht6).
  apply (bind_okay_inr _ _ _ _ _ _ _ _ (Hlog _)) in H
    as (_ & h7 & t7 & _ & _ & Ht7 & F7 & H).
  assert (Hexport : incl [KExists; KTool "qemu-img"; KMove; KRemove]
                      other_kinds) by sub_kinds Hks.
  pose proof (okay_run _ _ _ _ _ _ _
                (okay_export P other_kinds temp_file _ _ Hexport) H)
    as [(t8 & Ht8 & F8) _].
  assert (Ftested' : Forall (of_kinds other_kinds) tested).
  { eapply Forall_impl; [exact Ftested|]. intros ev.
    apply of_kinds_incl. sub_kinds Hks. }
  exists g0, make_tar_cmd, g1, g2, g3, (abspath P mbr_path), uuid, vmlinuz,
    initrd.
  split; [repeat constructor; assumption|].
  set (disk_events :=
         [EvExists input_;
          EvPopen (Argv [file; input_]) None;
          EvLogInfo "Creating an empty disk image";
          EvMkdtemp (mkdtemp_name P);
          EvPopen
            (Argv (virt_make_fs ::
                   (if ns_verbose args then ["--verbose"] else []) ++
                   ["--partition"; "--size"; ns_size args; "--type";
                    ns_filesystem args; "--format"; "qcow2"; "--";
                    mkdtemp_name P; temp_file])) None;
          EvRmtree (mkdtemp_name P);
          EvLogInfo "Copying the data into the disk image";
          EvPopen
            (Shell (if Py.nonempty make_tar_cmd
                    then piped_cmd make_tar_cmd g0 temp_file
                    else plain_cmd g0 temp_file input_)) None]) in *.
  set (boot_events :=
         [EvLogInfo get_boot_information_doc;
          EvPopen (Argv [g1; "-a"; temp_file])
            (Some (guestfish_input script_1 true));
          EvLogInfo ("Root partition UUID: " +:+ uuid);
          EvLogInfo ("Kernel image: /boot/" +:+ vmlinuz);
          EvLogInfo ("Initrd image: /boot/" +:+ initrd);
          EvPopen (Argv [g2; "-a"; temp_file])
            (Some (guestfish_input
                     (bootloader_script (abspath P mbr_path) vmlinuz initrd
                        uuid (ns_append args)) true))]) in *.
  set (fstab_events :=
         [EvLogInfo "Generating /etc/fstab";
          EvPopen (Argv [g3; "-a"; temp_file])
            (Some (guestfish_input
                     (fstab_script uuid (ns_filesystem args)) true))]) in *.
  assert (Hnew : new_events (create_appliance P args) h =
                 t1 ++ t2 ++ disk_events ++ t4 ++ tested ++ boot_events ++
                 fstab_events ++ t7 ++ t8).
  { apply new_events_app. rewrite Hrun. simpl.
    rewrite Ht8, Ht7, Ht6, Ht5, Ht4, Ht3, Ht2, Ht1.
    rewrite <- !app_assoc. reflexivity. }
  rewrite Hnew. rewrite !List.filter_app.
  rewrite (filter_none _ _ t1 F1 other_kinds_event).
  rewrite (filter_none _ _ t2 F2 other_kinds_event).
  rewrite (filter_none _ _ t4 F4 other_kinds_event).
  rewrite (filter_none _ _ tested Ftested' other_kinds_event).
  rewrite (filter_none _ _ t7 F7 other_kinds_event).
  rewrite (filter_none _ _ t8 F8 other_kinds_event).
  subst disk_events boot_events fstab_events. unfold shell_or_guestfish.
  simpl. rewrite Hfile, Hvmf, Hg1, Hg2, Hg3. reflexivity.
Qed.

Lemma build_guestfish_runs_witness :
  exists g0 make_tar_cmd g1 g2 g3 mbr_path uuid vmlinuz initrd,
    Forall (fun g => basename g = "guestfish") [g0; g1; g2; g3] /\
    List.filter shell_or_guestfish
      (new_events
         (create_appliance (Demo.machine Demo.gzip_output Demo.boot_lines)
            (Demo.request "raw"))
         Demo.start) =
    [EvPopen
       (Shell (if Py.nonempty make_tar_cmd
               then piped_cmd make_tar_cmd g0 Demo.working_disk
               else plain_cmd g0 Demo.working_disk "/work/rootfs.tar.gz"))
       None;
     EvPopen (Argv [g1; "-a"; Demo.working_disk])
       (Some (guestfish_input script_1 true));
     EvPopen (Argv [g2; "-a"; Demo.working_disk])
       (Some (guestfish_input
                (bootloader_script mbr_path vmlinuz initrd uuid "") true));
     EvPopen (Argv [g3; "-a"; Demo.working_disk])
       (Some (guestfish_input (fstab_script uuid "ext2") true))].
Proof.
  apply (build_guestfish_runs
           (Demo.machine Demo.gzip_output Demo.boot_lines)
           (Demo.request "raw") Demo.start
           (snd (create_appliance
                   (Demo.machine Demo.gzip_output Demo.boot_lines)
                   (Demo.request "raw") Demo.start))).
  vm_compute. reflexivity.
Defined.

(** ** The temporary directory of [create_disk] *)

Lemma shape_quiet {A} f ks X (V : A -> Prop) (m : M A) :
  okay (of_kinds ks) X V m ->
  (forall ev, of_kinds ks ev -> f ev = false) ->
  shape f (fun _ l => l = []) m.
Proof.
  intros Hm Hq h. destruct (Hm h) as [(t & Ht & Ft) _].
  exists t. split; [exact Ht|].
  clear Ht. induction Ft as [|ev t Hev _ IH]; [reflexivity|].
  simpl. rewrite (Hq ev Hev). exact IH.
Qed.

Lemma shape_bind {A B} f (Q1 : exn + A -> list event -> Prop)
    (Q2 : exn + B -> list event -> Prop) (Q : exn + B -> list event -> Prop)
    (m : M A) (k : A -> M B) :
  shape f Q1 m -> (forall x, shape f Q2 (k x)) ->
  (forall e l, Q1 (inl e) l -> Q (inl e) l) ->
  (forall x l1 r l2, Q1 (inr x) l1 -> Q2 r l2 -> Q r (l1 ++ l2)) ->
  shape f Q (bind m k).
Proof.
  intros Hm Hk Hl Hr h. unfold bind.
  destruct (Hm h) as (t1 & Ht1 & HQ1).
  destruct (m h) as [[e|x] h1]; simpl in *.
  - exists t1. split; [exact Ht1|]. apply Hl. exact HQ1.
  - destruct (Hk x h1) as (t2 & Ht2 & HQ2).
    exists (t1 ++ t2). split.
    + rewrite Ht2, Ht1, app_assoc. reflexivity.
    + rewrite List.filter_app. eapply Hr; eassumption.
Qed.

Lemma shape_bind_quiet {A B} f (Q : exn + B -> list event -> Prop)
    (m : M A) (k : A -> M B) :
  shape f (fun _ l => l = []) m -> (forall x, shape f Q (k x)) ->
  (forall e, Q (inl e) []) ->
  shape f Q (bind m k).
Proof.
  intros Hm Hk Hl.
  apply (shape_bind f (fun _ l => l = []) Q Q m k Hm Hk).
  - intros e l ->. apply Hl.
  - intros x l1 r l2 -> H. exact H.
Qed.

Lemma disk_mark_quiet ev :
  of_kinds [KExists; KTool "file"; KLog] ev -> disk_mark ev = false.
Proof.
  unfold of_kinds, disk_mark.
  destruct ev as [| [[|binary argv]|] | | | | | |]; simpl;
    intros H; repeat (destruct H as [H|H]; try discriminate H);
    try contradiction; try reflexivity.
  injection H as <-. reflexivity.
Qed.

Lemma shape_which f command (Q : exn + string -> list event -> Prop) P :
  (forall r, Q r []) -> shape f Q (which P command).
Proof.
  intros HQ h. exists []. pose proof (which_state P command h) as Hs.
  rewrite Hs, app_nil_r. split; [reflexivity|]. apply HQ.
Qed.

Lemma shape_make_empty_disk P output_filename size filesystem verbose dir :
  shape disk_mark
    (fun r l =>
       match r with
       | inr _ => exists ev, make_fs_run dir output_filename ev /\ l = [ev]
       | inl _ => l = [] \/
                  exists ev, make_fs_run dir output_filename ev /\ l = [ev]
       end)
    (make_empty_disk P output_filename size filesystem verbose dir).
Proof.
  intros h. unfold make_empty_disk. cbv zeta. unfold bind.
  destruct (which P "virt-make-fs" h) as [[e|binary] h1] eqn:Hw.
  - exists []. pose proof (which_state P "virt-make-fs" h) as Hs.
    rewrite Hw in Hs. simpl in *. rewrite Hs, app_nil_r. auto.
  - apply which_inr in Hw as [-> Hb]; [|reflexivity].
    set (options := if verbose
                    then ["--verbose"; "--partition"; "--size"; size;
                          "--type"; filesystem; "--format"; "qcow2"]
                    else ["--partition"; "--size"; size; "--type";
                          filesystem; "--format"; "qcow2"]).
    assert (Hcmd : (if verbose
                    then Py.list_insert_at 1 "--verbose"
                           [binary; "--partition"; "--size"; size; "--type";
                            filesystem; "--format"; "qcow2"; "--"; dir;
                            output_filename]
                    else [binary; "--partition"; "--size"; size; "--type";
                          filesystem; "--format"; "qcow2"; "--"; dir;
                          output_filename]) =
                   binary :: options ++ ["--"; dir; output_filename])
      by (unfold options; destruct verbose; reflexivity).
    rewrite Hcmd. unfold popen.
    destruct (process P _ _ _ _) as [[rc out] fs'].
    exists [EvPopen (Argv (binary :: options ++ ["--"; dir; output_filename]))
              None].
    assert (Hmark : List.filter disk_mark
                      [EvPopen
                         (Argv (binary :: options ++
                                ["--"; dir; output_filename])) None] =
                    [EvPopen
                       (Argv (binary :: options ++
                              ["--"; dir; output_filename])) None]).
    { simpl. unfold disk_mark. simpl. rewrite Hb. reflexivity. }
    assert (Hrun : make_fs_run dir output_filename
                     (EvPopen
                        (Argv (binary :: options ++
                               ["--"; dir; output_filename])) None))
      by (exists binary, options; auto).
    destruct (negb (rc =? 0));
      cbv beta iota delta [fst snd raise ret emit trace with_fs];
      (split; [reflexivity|]); rewrite Hmark; eauto.
Qed.

Lemma shape_temporary_directory {A} P (body : string -> M A)
    (Q : exn + A -> list event -> Prop) :
  shape disk_mark Q (body (mkdtemp_name P)) ->
  shape disk_mark
    (fun r l =>
       exists r0 inside,
         Q r0 inside /\ (r = r0 \/ exists e, r = inl e) /\
         l = EvMkdtemp (mkdtemp_name P) :: inside ++
             [EvRmtree (mkdtemp_name P)])
    (temporary_directory P body).
Proof.
  intros Hbody h. rewrite temporary_directory_unfold. cbv zeta.
  destruct (Hbody (emit (EvMkdtemp (mkdtemp_name P))
                     (with_fs ({[mkdtemp_name P]} ∪ fs h) h)))
    as (t & Ht & HQ).
  destruct (body _ _) as [r0 h1]. simpl in Ht, HQ. cbn [fst snd].
  exists (EvMkdtemp (mkdtemp_name P) :: t ++ [EvRmtree (mkdtemp_name P)]).
  assert (Hmarks : List.filter disk_mark
                     (EvMkdtemp (mkdtemp_name P) :: t ++
                      [EvRmtree (mkdtemp_name P)]) =
                   EvMkdtemp (mkdtemp_name P) :: List.filter disk_mark t ++
                   [EvRmtree (mkdtemp_name P)]).
  { cbn [List.filter disk_mark is_mkdtemp orb].
    rewrite List.filter_app. reflexivity. }
  rewrite Hmarks.
  destruct (bool_decide (mkdtemp_name P ∈ fs h1)); simpl;
    (split; [rewrite Ht, <- !app_assoc; reflexivity|]);
    exists r0, (List.filter disk_mark t); eauto.
Qed.

(** X12: in every run of [create_disk], whether it returns or raises, a
    temporary directory that was made is removed again, virt-make-fs runs
    only between the two, on that directory and for the given image, and
    the shell command that copies the data starts only after the removal,
    and after virt-make-fs has run; a run that returns has done all four
    steps. *)
Theorem create_disk_steps P input_ output_filename fmt size filesystem
    verbose h :
  let dir := mkdtemp_name P in
  let steps :=
    List.filter disk_mark
      (new_events
         (create_disk P input_ output_filename fmt size filesystem verbose)
         h) in
  let copied :=
    exists make_fs cmd,
      make_fs_run dir output_filename make_fs /\
      steps = [EvMkdtemp dir; make_fs; EvRmtree dir;
               EvPopen (Shell cmd) None] in
  match fst (create_disk P input_ output_filename fmt size filesystem
               verbose h) with
  | inr _ => copied
  | inl _ =>
      steps = [] \/
      steps = [EvMkdtemp dir; EvRmtree dir] \/
      (exists make_fs,
         make_fs_run dir output_filename make_fs /\
         steps = [EvMkdtemp dir; make_fs; EvRmtree dir]) \/
      copied
  end.
Proof.
  intros dir steps copied.
  set (Q := fun (r : exn + unit) (l : list event) =>
              let done :=
                exists make_fs cmd,
                  make_fs_run dir output_filename make_fs /\
                  l = [EvMkdtemp dir; make_fs; EvRmtree dir;
                       EvPopen (Shell cmd) None] in
              match r with
              | inr _ => done
              | inl _ =>
                  l = [] \/ l = [EvMkdtemp dir; EvRmtree dir] \/
                  (exists make_fs,
                     make_fs_run dir output_filename make_fs /\
                     l = [EvMkdtemp dir; make_fs; EvRmtree dir]) \/
                  done
              end).
  assert (Hshape : shape disk_mark Q
                     (create_disk P input_ output_filename fmt size
                        filesystem verbose)).
  { assert (Hks : incl [KExists; KTool "file"; KLog]
                    [KExists; KTool "file"; KLog])
      by (intros k Hk; exact Hk).
    assert (Hq : forall {A} (m : M A) X V,
               okay (of_kinds [KExists; KTool "file"; KLog]) X V m ->
               shape disk_mark (fun _ l => l = []) m)
      by (intros A m X V Hm; exact (shape_quiet _ _ _ _ _ Hm disk_mark_quiet)).
    assert (Hfail : forall e, Q (inl e) []) by (intros e; left; reflexivity).
    unfold create_disk. cbv zeta.
    apply shape_bind_quiet;
      [apply (Hq _ _ any_exn (fun _ => True)), okay_file_type;
       [exact all_but_mbr|sub_kinds Hks]| |exact Hfail].
    intros probed.
    apply shape_bind_quiet;
      [apply (Hq _ _ any_exn (fun _ => True)), okay_decompress_cmd;
       exact all_but_mbr| |exact Hfail].
    intros make_tar_cmd.
    apply shape_bind_quiet;
      [apply (Hq _ _ any_exn (fun _ => True)), okay_logger_info;
       kinds_side Hks| |exact Hfail].
    intros _.
    set (Q2 := fun (r : exn + unit) (l : list event) =>
                 match r with
                 | inr _ => exists cmd, l = [EvPopen (Shell cmd) None]
                 | inl _ => l = [] \/
                            exists cmd, l = [EvPopen (Shell cmd) None]
                 end).
    eapply (shape_bind disk_mark _ Q2 Q);
      [apply shape_temporary_directory, shape_make_empty_disk| | |].
    - intros _.
      assert (Hfail2 : forall e, Q2 (inl e) [])
        by (intros e; left; reflexivity).
      apply shape_bind_quiet;
        [apply (Hq _ _ any_exn (fun _ => True)), okay_logger_info;
         kinds_side Hks| |exact Hfail2].
      intros _.
      apply shape_bind_quiet;
        [apply (Hq _ _ any_exn (fun _ => True)), okay_make_tar_cmd_of;
         exact all_but_mbr| |exact Hfail2].
      intros make_tar_cmd'.
      apply shape_bind_quiet;
        [apply (Hq _ _ any_exn (fun _ => True)), okay_population_cmd;
         exact all_but_mbr| |exact Hfail2].
      intros cmd h1. unfold bind, popen.
      destruct (process P _ _ _ _) as [[rc out] fs'].
      exists [EvPopen (Shell cmd) None].
      destruct (negb (rc =? 0)); simpl; (split; [reflexivity|]); eauto.
    - intros e l (r0 & inside & HQ0 & _ & ->).
      assert (Hinside : inside = [] \/
                        exists ev, make_fs_run dir output_filename ev /\
                                   inside = [ev])
        by (destruct r0; [exact HQ0|right; exact HQ0]).
      destruct Hinside as [->|(ev & Hev & ->)]; simpl.
      + right. left. reflexivity.
      + right. right. left. eauto.
    - intros x l1 r l2 (r0 & inside & HQ0 & Hr0 & ->) H2.
      assert (Hx : r0 = inr x)
        by (destruct Hr0 as [<-|(e & He)]; [reflexivity|discriminate He]).
      subst r0. destruct HQ0 as (ev & Hev & ->).
      destruct r as [e|u]; simpl in *.
      + destruct H2 as [->|(cmd & ->)]; simpl.
        * right. right. left. eauto.
        * right. right. right. eauto.
      + destruct H2 as (cmd & ->). simpl. eauto. }
  destruct (Hshape h) as (t & Ht & HQ).
  unfold copied, steps. rewrite (new_events_app _ _ _ Ht). exact HQ.
Qed.

(** ** The window of [file_type] *)

Lemma split_no_sep sep s :
  Py.contains (String sep EmptyString) s = false -> Py.split sep s = [s].
Proof.
  induction s as [|c s IH]; [reflexivity|]. rewrite contains_char_cons.
  intros H. apply orb_false_iff in H as [Hc H]. simpl.
  rewrite Ascii.eqb_sym, Hc, (IH H). reflexivity.
Qed.

Lemma split_first sep s rest :
  Py.contains (String sep EmptyString) s = false ->
  Py.split sep (s +:+ String sep rest) = s :: Py.split sep rest.
Proof.
  induction s as [|c s IH].
  - intros _. simpl. rewrite Ascii.eqb_refl. reflexivity.
  - rewrite contains_char_cons. intros H.
    apply orb_false_iff in H as [Hc H]. simpl.
    rewrite Ascii.eqb_sym, Hc, (IH H). reflexivity.
Qed.

(** X13: the type that [file_type] returns is the text between the first
    and the second colon of what the file tool printed, without the white
    space around it: what follows a second colon is dropped. *)
Theorem file_type_between_colons P path h file name description rest fs' :
  path ∈ fs h ->
  fst (which P "file" h) = inr file ->
  process P (Argv [file; path]) None (fs h) (environ h) =
    (0, name +:+ ":" +:+ description +:+
        match rest with Some r => ":" +:+ r | None => "" end, fs') ->
  Py.contains ":" name = false ->
  Py.contains ":" description = false ->
  fst (file_type P path h) = inr (Py.strip Py.is_uspace description).
Proof.
  intros Hpath Hfile Hproc Hname Hdesc.
  assert (Hsplit : exists more,
            Py.split ":" (name +:+ ":" +:+ description +:+
                          match rest with
                          | Some r => ":" +:+ r
                          | None => ""
                          end) = name :: description :: more).
  { change (name +:+ ":" +:+ description +:+
            match rest with Some r => ":" +:+ r | None => "" end)
      with (name +:+ String ":" (description +:+
              match rest with Some r => ":" +:+ r | None => "" end)).
    rewrite (split_first _ _ _ Hname). destruct rest as [r|].
    - change (description +:+ ":" +:+ r)
        with (description +:+ String ":" r).
      rewrite (split_first _ _ _ Hdesc). eauto.
    - rewrite append_nil_r, (split_no_sep _ _ Hdesc). eauto. }
  destruct Hsplit as (more & Hsplit).
  unfold file_type, bind, op_exists. cbv zeta. cbn beta.
  rewrite (bool_decide_eq_true_2 _ Hpath). cbn [negb]. cbn beta iota.
  pose proof (which_state P "file" (emit (EvExists path) h)) as Hs.
  pose proof (which_environ P "file" h (emit (EvExists path) h) eq_refl)
    as He.
  rewrite Hfile in He.
  destruct (which P "file" (emit (EvExists path) h)) as [r h1].
  simpl in Hs, He. subst r h1. unfold popen.
  change (fs (emit (EvExists path) h)) with (fs h).
  change (environ (emit (EvExists path) h)) with (environ h).
  rewrite Hproc. cbn beta iota. change (negb (0 =? 0)) with false.
  cbn iota. rewrite Hsplit. reflexivity.
Qed.

Lemma file_type_between_colons_witness :
  fst (file_type
         (Demo.machine
            "/work/rootfs.tar.gz: gzip compressed data, last modified: Mon"
            Demo.boot_lines)
         "/work/rootfs.tar.gz" Demo.start) =
  inr "gzip compressed data, last modified".
Proof.
  apply (file_type_between_colons
           (Demo.machine
              "/work/rootfs.tar.gz: gzip compressed data, last modified: Mon"
              Demo.boot_lines)
           "/work/rootfs.tar.gz" Demo.start "/usr/bin/file"
           "/work/rootfs.tar.gz" " gzip compressed data, last modified"
           (Some " Mon") (fs Demo.start)).
  - vm_compute. set_solver.
  - vm_compute. reflexivity.
  - vm_compute. reflexivity.
  - vm_compute. reflexivity.
  - vm_compute. reflexivity.
Defined.
